(** * DreamTracker: the derived-state computations and page workflows

    A shallow embedding of the client code of the dream journal:
    - [Analytics]: the analytics page (search filter and sort, chart window,
      statistics, suggestion text, sort toggle);
    - [Journal], [Login], [App], [Profile]: the page workflows, as functions
      from the component state and the backend's answers to the list of
      effects issued, in order; a state setter is one of the effects, and
      [run] applies them to the state;
    - [AnalyticsPage], [ProfilePage], [Shell], [JournalPage]: the loading of
      the pages and what they render, the rest of the profile page, the
      logout and the navigation, and the controls of the journal form;
    - [Schema]: the constraints of the table of the entries.

    Modelling conventions.
    - A JavaScript [number] is an exact rational ([Q]) or [NaN]; rounding
      error, overflow and the exponent notation of doubles are outside the
      model.
    - A JavaScript string is a [string] of bytes; [toLowerCase] maps the
      ASCII letters only.
    - [Array.prototype.sort] is a stable insertion sort driven by the
      comparator.  For a comparator that orders the elements consistently
      this is the list every conforming engine returns; for the others the
      language leaves the order to the engine, and only order-independent
      facts are stated.
    - [Date] parsing and locale formatting belong to the platform and are the
      fields of the class [DatePlatform]. *)

From Stdlib Require Import String Ascii List Bool Arith ZArith QArith Qabs Qround.
From Stdlib Require Import Permutation Sorted Lia Lqa.
Import ListNotations.

Open Scope string_scope.

(* ================================================================== *)
(** * Part I: the program *)
(* ================================================================== *)

(** ** The JavaScript platform *)
Module JS.
Local Open Scope Q_scope.

(** *** Numbers *)

Inductive number : Type :=
| NaN
| Num (q : Q).

(** [a < b] and [a > b]: false as soon as one side is [NaN]. *)
Definition lt (a b : number) : bool :=
  match a, b with
  | Num x, Num y => negb (Qle_bool y x)
  | _, _ => false
  end.

Definition gt (a b : number) : bool := lt b a.

(** [a - b] *)
Definition sub (a b : number) : number :=
  match a, b with
  | Num x, Num y => Num (x - y)
  | _, _ => NaN
  end.

(** *** Strings *)

(** [a || ''] on an optional string: [undefined] and [''] are falsy. *)
Definition or_empty (o : option string) : string :=
  match o with
  | Some s => s
  | None => ""
  end.

(** [!s] on a string: only the empty string is falsy. *)
Definition falsy (s : string) : bool :=
  match s with
  | "" => true
  | _ => false
  end.

(** [a || b] on strings. *)
Definition or_else (a b : string) : string :=
  if falsy a then b else a.

Definition lower_char (c : ascii) : ascii :=
  let n := nat_of_ascii c in
  if (65 <=? n)%nat && (n <=? 90)%nat then ascii_of_nat (n + 32)%nat else c.

Fixpoint toLowerCase (s : string) : string :=
  match s with
  | "" => ""
  | String c s' => String (lower_char c) (toLowerCase s')
  end.

(** [s.includes(q)]: [q] occurs in [s] at some position. *)
Fixpoint includes (s q : string) : bool :=
  if prefix q s then true
  else match s with
       | "" => false
       | String _ s' => includes s' q
       end.

(** [s.split(sep)] for a one-character separator. *)
Fixpoint split (sep : ascii) (s : string) : list string :=
  match s with
  | "" => [""]
  | String c s' =>
      if Ascii.eqb c sep then "" :: split sep s'
      else match split sep s' with
           | [] => [String c ""]
           | piece :: pieces => String c piece :: pieces
           end
  end.

(** [l.join(sep)] *)
Definition join (sep : string) (l : list string) : string := String.concat sep l.

(** *** Decimal digits *)

Definition digit_char (d : Z) : ascii := ascii_of_nat (48 + Z.to_nat d)%nat.

Definition digit_value (c : ascii) : option Z :=
  let n := nat_of_ascii c in
  if (48 <=? n)%nat && (n <=? 57)%nat then Some (Z.of_nat (n - 48)%nat) else None.

(** The [k] low decimal digits of [n], most significant first, before [acc]. *)
Fixpoint pad_digits (k : nat) (n : Z) (acc : string) : string :=
  match k with
  | O => acc
  | S k' => pad_digits k' (n / 10)%Z (String (digit_char (n mod 10)%Z) acc)
  end.

(** The number of decimal digits of [n >= 0] (one for zero). *)
Fixpoint count_digits (fuel : nat) (n : Z) : nat :=
  match fuel with
  | O => 1%nat
  | S fuel' => if (n <? 10)%Z then 1%nat else S (count_digits fuel' (n / 10)%Z)
  end.

(** The decimal representation of the integer [n >= 0]. *)
Definition Z_digits (n : Z) : string :=
  pad_digits (count_digits (Z.to_nat (Z.log2 n)) n) n "".

(** Reads the longest run of digits at the head of [s]: the value read on top
    of [acc], the number of digits read on top of [cnt], and the rest. *)
Fixpoint parse_digits (acc : Z) (cnt : nat) (s : string) : Z * nat * string :=
  match s with
  | "" => (acc, cnt, "")
  | String c s' =>
      match digit_value c with
      | Some d => parse_digits (10 * acc + d)%Z (S cnt) s'
      | None => (acc, cnt, s)
      end
  end.

(** *** [Number.prototype.toFixed] and [parseFloat] *)

(** [x.toFixed(f)]: the sign, then the integer [n] nearest to [|x| * 10^f]
    (the larger one on a tie) written with [f] digits after the point. *)
Definition toFixed (x : Q) (f : nat) : string :=
  let neg := negb (Qle_bool 0 x) in
  let ax := if neg then Qopp x else x in
  let n := Qfloor (ax * inject_Z (10 ^ Z.of_nat f) + (1 # 2)) in
  let m :=
    match f with
    | O => Z_digits n
    | S _ => Z_digits (n / 10 ^ Z.of_nat f)%Z ++ "." ++ pad_digits f n ""
    end in
  if neg then "-" ++ m else m.

Definition is_space (c : ascii) : bool :=
  let n := nat_of_ascii c in
  ((9 <=? n)%nat && (n <=? 13)%nat) || (n =? 32)%nat.

Fixpoint trimStart (s : string) : string :=
  match s with
  | "" => ""
  | String c s' => if is_space c then trimStart s' else s
  end.

(** [-a] *)
Definition neg (a : number) : number :=
  match a with
  | NaN => NaN
  | Num q => Num (- q)
  end.

(** The value of the unsigned decimal literal at the head of [s]: digits and
    an optional point followed by digits, one digit at least in all. *)
Definition unsigned_literal (s : string) : number :=
  let '(ip, ci, s2) := parse_digits 0%Z 0%nat s in
  let '(fp, cf) :=
    match s2 with
    | String "." r => let '(v, c, _) := parse_digits 0%Z 0%nat r in (v, c)
    | _ => (0%Z, O)
    end in
  match (ci + cf)%nat with
  | O => NaN
  | S _ => Num (inject_Z ip + inject_Z fp / inject_Z (10 ^ Z.of_nat cf))
  end.

(** [parseFloat(s)] on decimal literals: leading white space, an optional
    sign and an unsigned literal; what follows the literal is ignored, and a
    string starting with no literal gives [NaN]. *)
Definition parseFloat (s : string) : number :=
  match trimStart s with
  | String "-" r => neg (unsigned_literal r)
  | String "+" r => unsigned_literal r
  | s0 => unsigned_literal s0
  end.

(** *** Arrays *)

Section ArraySort.
Context {A : Type}.
Variable comparefn : A -> A -> number.

(** The value the sort sees for a pair: a [NaN] result counts as [+0]. *)
Definition SortCompare (x y : A) : Q :=
  match comparefn x y with
  | NaN => 0
  | Num v => v
  end.

(** [x] stays before [y] unless the comparator is positive on [x, y]. *)
Definition before (x y : A) : bool := Qle_bool (SortCompare x y) 0.

Fixpoint sort_insert (x : A) (sorted : list A) : list A :=
  match sorted with
  | [] => [x]
  | y :: ys => if before x y then x :: y :: ys else y :: sort_insert x ys
  end.

Definition Array_sort (l : list A) : list A := fold_right sort_insert [] l.

(** [x], met by the sort before [y], is ordered with it by [R] the way the
    comparator says. *)
Definition agrees (R : A -> A -> Prop) (x y : A) : Prop :=
  if before x y then R x y else R y x.

End ArraySort.

(** [l.slice(-n)]: the last [n] elements, all of them when there are fewer. *)
Definition slice_last {A : Type} (n : nat) (l : list A) : list A :=
  skipn (length l - n)%nat l.

(** *** Dates *)

Record DateTimeFormatOptions : Type := {
  month : option string;
  day : option string
}.

Class DatePlatform : Type := {
  (** [new Date(s).getTime()], [NaN] for an invalid date *)
  Date_getTime : string -> number;
  (** [new Date(s).toLocaleDateString(locales, options)] *)
  Date_toLocaleDateString : string -> string -> DateTimeFormatOptions -> string
}.

End JS.

(** ** The analytics page *)
Module Analytics.
Import JS.
Local Open Scope Q_scope.

(** A row of [dream_entries], as the client types it. *)
Record DreamEntry : Type := {
  id : option string;
  user_id : string;
  title : string;
  content : string;
  sleep_hours : Q;
  caffeine_intake : Q;
  sleep_quality : Q;
  mood : option string;
  stress_level : Q;
  created_at : option string
}.

Inductive SortField : Type :=
| by_created_at
| by_sleep_quality
| by_sleep_hours.

Inductive SortOrder : Type :=
| asc
| desc.

Definition SortField_eqb (a b : SortField) : bool :=
  match a, b with
  | by_created_at, by_created_at => true
  | by_sleep_quality, by_sleep_quality => true
  | by_sleep_hours, by_sleep_hours => true
  | _, _ => false
  end.

Section WithDates.
Context {dates : DatePlatform}.

(** [new Date(e.created_at || '').getTime()] *)
Definition created_time (e : DreamEntry) : number :=
  Date_getTime (or_empty (created_at e)).

(** The search predicate of the filter. *)
Definition matches (searchQuery : string) (entry : DreamEntry) : bool :=
  includes (toLowerCase (title entry)) (toLowerCase searchQuery)
  || includes (toLowerCase (content entry)) (toLowerCase searchQuery).

(** [sortBy === 'created_at' ? new Date(a.created_at || '').getTime() : a[sortBy]] *)
Definition sort_value (sortBy : SortField) (a : DreamEntry) : number :=
  match sortBy with
  | by_created_at => created_time a
  | by_sleep_quality => Num (sleep_quality a)
  | by_sleep_hours => Num (sleep_hours a)
  end.

(** The comparator handed to [sort] by the entry list. *)
Definition compare_entries (sortBy : SortField) (sortOrder : SortOrder)
    (a b : DreamEntry) : number :=
  let aVal := sort_value sortBy a in
  let bVal := sort_value sortBy b in
  match sortOrder with
  | asc => if gt aVal bVal then Num 1 else Num (-1)
  | desc => if lt aVal bVal then Num 1 else Num (-1)
  end.

(** The filtered and ordered entry list ([view] in the specification). *)
Definition filteredAndSortedEntries (entries : list DreamEntry)
    (searchQuery : string) (sortBy : SortField) (sortOrder : SortOrder)
    : list DreamEntry :=
  let filtered := filter (matches searchQuery) entries in
  Array_sort (compare_entries sortBy sortOrder) filtered.

Record ChartPoint : Type := {
  date : string;
  quality : Q;
  sleep : Q;
  caffeine : Q;
  stress : Q
}.

Definition short_date : DateTimeFormatOptions :=
  {| month := Some "short"; day := Some "numeric" |}.

Definition chart_point (entry : DreamEntry) : ChartPoint :=
  {| date := Date_toLocaleDateString (or_empty (created_at entry)) "en-US" short_date;
     quality := sleep_quality entry;
     sleep := sleep_hours entry;
     caffeine := caffeine_intake entry;
     stress := stress_level entry |}.

(** The comparator of the chart: the difference of the two times. *)
Definition compare_times (a b : DreamEntry) : number :=
  sub (created_time a) (created_time b).

(** The points of the trend charts ([recentWindow] in the specification). *)
Definition chartData (entries : list DreamEntry) : list ChartPoint :=
  map chart_point (slice_last 7 (Array_sort compare_times entries)).

End WithDates.

Record Stats : Type := {
  avgQuality : string;
  avgSleep : string;
  avgCaffeine : string;
  avgStress : string;
  total : nat
}.

(** [entries.reduce((sum, e) => sum + f(e), 0)] *)
Definition reduce_sum (f : DreamEntry -> Q) (entries : list DreamEntry) : Q :=
  fold_left (fun sum e => sum + f e) entries 0.

(** [entries.reduce(...) / entries.length] *)
Definition average (f : DreamEntry -> Q) (entries : list DreamEntry) : Q :=
  reduce_sum f entries / inject_Z (Z.of_nat (length entries)).

(** The statistics cards ([summarize] in the specification). *)
Definition stats (entries : list DreamEntry) : option Stats :=
  match entries with
  | [] => None
  | _ :: _ =>
      let avgQuality := average sleep_quality entries in
      let avgSleep := average sleep_hours entries in
      let avgCaffeine := average caffeine_intake entries in
      let avgStress := average stress_level entries in
      Some {| avgQuality := toFixed avgQuality 1;
              avgSleep := toFixed avgSleep 1;
              avgCaffeine := toFixed avgCaffeine 1;
              avgStress := toFixed avgStress 1;
              total := length entries |}
  end.

Definition msg_start : string :=
  "Start tracking your dreams to get personalized suggestions!".
Definition msg_sleep : string :=
  "Try to get more sleep - aim for 7-9 hours per night.".
Definition msg_caffeine : string :=
  "Consider reducing caffeine intake, especially in the afternoon.".
Definition msg_stress : string :=
  "High stress levels detected. Try relaxation techniques before bed.".
Definition msg_quality : string :=
  "Your sleep quality could improve. Try maintaining a consistent sleep schedule.".
Definition msg_healthy : string :=
  "Great job! Your sleep patterns look healthy. Keep it up!".

(** [if (c) suggestions.push(m)] *)
Definition push_if (c : bool) (m : string) (suggestions : list string) : list string :=
  if c then suggestions ++ [m] else suggestions.

Definition getSuggestion (entries : list DreamEntry) : string :=
  match stats entries with
  | None => msg_start
  | Some st =>
      let suggestions := [] in
      let suggestions :=
        push_if (lt (parseFloat (avgSleep st)) (Num 7)) msg_sleep suggestions in
      let suggestions :=
        push_if (gt (parseFloat (avgCaffeine st)) (Num 2)) msg_caffeine suggestions in
      let suggestions :=
        push_if (gt (parseFloat (avgStress st)) (Num 6)) msg_stress suggestions in
      let suggestions :=
        push_if (lt (parseFloat (avgQuality st)) (Num 6)) msg_quality suggestions in
      match suggestions with
      | [] => msg_healthy
      | _ :: _ => join " " suggestions
      end
  end.

(** The sort controls of the page: the two pieces of state [toggleSort] writes. *)
Record SortState : Type := {
  sortBy : SortField;
  sortOrder : SortOrder
}.

Definition initial_sort : SortState := {| sortBy := by_created_at; sortOrder := desc |}.

Definition toggleSort (field : SortField) (st : SortState) : SortState :=
  if SortField_eqb (sortBy st) field then
    {| sortBy := sortBy st;
       sortOrder := match sortOrder st with asc => desc | desc => asc end |}
  else
    {| sortBy := field; sortOrder := desc |}.

End Analytics.

(** ** JSON documents *)
Module JSON.
Import JS.
Local Open Scope Z_scope.

(** A JSON value.  A number is the decimal numeral [mantissa / 10^places]
    that prints it, which determines the double and is determined by it. *)
#[warnings="-register-all"]
Inductive value : Type :=
| jnull
| jbool (b : bool)
| jnumber (mantissa : Z) (places : nat)
| jstring (s : string)
| jarray (items : list value)
| jobject (members : list (string * value)).

Definition dquote : ascii := ascii_of_nat 34.
Definition backslash : ascii := ascii_of_nat 92.

(** *** Writing *)

Definition hex_char (d : nat) : ascii :=
  if (d <? 10)%nat then ascii_of_nat (48 + d) else ascii_of_nat (87 + d).

(** The text that stands for one character inside a quoted string. *)
Definition quote_char (c : ascii) : string :=
  let n := nat_of_ascii c in
  if (n =? 8)%nat then String backslash "b"
  else if (n =? 9)%nat then String backslash "t"
  else if (n =? 10)%nat then String backslash "n"
  else if (n =? 12)%nat then String backslash "f"
  else if (n =? 13)%nat then String backslash "r"
  else if (n =? 34)%nat then String backslash (String dquote EmptyString)
  else if (n =? 92)%nat then String backslash (String backslash EmptyString)
  else if (n <? 32)%nat then
    String backslash
      (String "u" (String "0" (String "0"
        (String (hex_char (n / 16)) (String (hex_char (n mod 16)) EmptyString)))))
  else String c EmptyString.

Fixpoint quote_chars (s : string) : string :=
  match s with
  | EmptyString => EmptyString
  | String c s' => (quote_char c ++ quote_chars s')%string
  end.

(** [QuoteJSONString] *)
Definition quote (s : string) : string :=
  String dquote (quote_chars s ++ String dquote EmptyString).

(** The text of a number: the digits before the point, then the point and
    the [places] digits after it when there are any. *)
Definition number_text (mantissa : Z) (places : nat) : string :=
  let a := Z.abs mantissa in
  ((if (mantissa <? 0)%Z then "-" else EmptyString)
   ++ Z_digits (a / 10 ^ Z.of_nat places)%Z
   ++ match places with
      | O => EmptyString
      | S _ => String "." (pad_digits places a EmptyString)
      end)%string.

Definition newline : string := String (ascii_of_nat 10) EmptyString.

Section Stringify.
(** The indentation unit: empty for the compact form. *)
Variable gap : string.

Definition opening (indent : string) : string :=
  match gap with
  | EmptyString => EmptyString
  | _ => (newline ++ indent)%string
  end.

Definition separator (indent : string) : string := ("," ++ opening indent)%string.

Definition colon : string :=
  match gap with
  | EmptyString => ":"
  | _ => ": "
  end.

(** [SerializeJSONProperty] with the current indentation. *)
Fixpoint serialize (indent : string) (v : value) : string :=
  match v with
  | jnull => "null"
  | jbool true => "true"
  | jbool false => "false"
  | jnumber m k => number_text m k
  | jstring s => quote s
  | jarray [] => "[]"
  | jarray (x :: xs) =>
      let stepback := indent in
      let indent := (indent ++ gap)%string in
      ("[" ++ opening indent ++ serialize indent x
       ++ (fix rest (l : list value) : string :=
             match l with
             | [] => EmptyString
             | y :: ys => (separator indent ++ serialize indent y ++ rest ys)%string
             end) xs
       ++ opening stepback ++ "]")%string
  | jobject [] => "{}"
  | jobject ((k, x) :: ms) =>
      let stepback := indent in
      let indent := (indent ++ gap)%string in
      ("{" ++ opening indent ++ quote k ++ colon ++ serialize indent x
       ++ (fix rest (l : list (string * value)) : string :=
             match l with
             | [] => EmptyString
             | (k', y) :: ys =>
                 (separator indent ++ quote k' ++ colon ++ serialize indent y ++ rest ys)%string
             end) ms
       ++ opening stepback ++ "}")%string
  end.

End Stringify.

Fixpoint spaces (n : nat) : string :=
  match n with
  | O => EmptyString
  | S n' => String " " (spaces n')
  end.

(** [JSON.stringify(value, null, space)] for a numeric [space]. *)
Definition stringify (v : value) (space : nat) : string :=
  serialize (spaces (Nat.min space 10)) EmptyString v.

(** *** Reading *)

Definition is_ws (c : ascii) : bool :=
  let n := nat_of_ascii c in
  (n =? 32)%nat || (n =? 9)%nat || (n =? 10)%nat || (n =? 13)%nat.

Fixpoint skip_ws (s : string) : string :=
  match s with
  | EmptyString => EmptyString
  | String c s' => if is_ws c then skip_ws s' else s
  end.

Definition hex_value (c : ascii) : option N :=
  let n := N_of_ascii c in
  if (48 <=? n)%N && (n <=? 57)%N then Some (n - 48)%N
  else if (97 <=? n)%N && (n <=? 102)%N then Some (n - 87)%N
  else if (65 <=? n)%N && (n <=? 70)%N then Some (n - 55)%N
  else None.

(** The UTF-8 bytes of a code point of the basic plane; the halves of a
    surrogate pair are not read. *)
Definition utf8 (cp : N) : option string :=
  if (cp <? 128)%N then Some (String (ascii_of_N cp) EmptyString)
  else if (cp <? 2048)%N then
    Some (String (ascii_of_N (192 + cp / 64))
           (String (ascii_of_N (128 + cp mod 64)) EmptyString))
  else if (55296 <=? cp)%N && (cp <=? 57343)%N then None
  else
    Some (String (ascii_of_N (224 + cp / 4096))
           (String (ascii_of_N (128 + (cp / 64) mod 64))
             (String (ascii_of_N (128 + cp mod 64)) EmptyString))).

Definition unescape (e : ascii) : option ascii :=
  let n := nat_of_ascii e in
  if (n =? 34)%nat then Some dquote
  else if (n =? 92)%nat then Some backslash
  else if (n =? 47)%nat then Some "/"%char
  else if (n =? 98)%nat then Some (ascii_of_nat 8)
  else if (n =? 102)%nat then Some (ascii_of_nat 12)
  else if (n =? 110)%nat then Some (ascii_of_nat 10)
  else if (n =? 114)%nat then Some (ascii_of_nat 13)
  else if (n =? 116)%nat then Some (ascii_of_nat 9)
  else None.

Definition prepend (pre : string) (r : option (string * string)) : option (string * string) :=
  match r with
  | Some (s, rest) => Some ((pre ++ s)%string, rest)
  | None => None
  end.

(** The characters of a string up to its closing quote, and what follows. *)
Fixpoint parse_chars (s : string) : option (string * string) :=
  match s with
  | EmptyString => None
  | String c r =>
      if Ascii.eqb c dquote then Some (EmptyString, r)
      else if Ascii.eqb c backslash then
        match r with
        | EmptyString => None
        | String e r' =>
            if Ascii.eqb e "u" then
              match r' with
              | String h1 (String h2 (String h3 (String h4 r''))) =>
                  match hex_value h1, hex_value h2, hex_value h3, hex_value h4 with
                  | Some d1, Some d2, Some d3, Some d4 =>
                      match utf8 (((d1 * 16 + d2) * 16 + d3) * 16 + d4)%N with
                      | Some bytes => prepend bytes (parse_chars r'')
                      | None => None
                      end
                  | _, _, _, _ => None
                  end
              | _ => None
              end
            else
              match unescape e with
              | Some c' => prepend (String c' EmptyString) (parse_chars r')
              | None => None
              end
        end
      else if (nat_of_ascii c <? 32)%nat then None
      else prepend (String c EmptyString) (parse_chars r)
  end.

(** Drops the zeros at the end of the fraction. *)
Fixpoint strip_zeros (places : nat) (m : Z) : Z * nat :=
  match places with
  | O => (m, O)
  | S k => if m mod 10 =? 0 then strip_zeros k (m / 10) else (m, places)
  end.

Definition is_digit (c : ascii) : bool :=
  match digit_value c with
  | Some _ => true
  | None => false
  end.

(** The digits before the point: a lone zero, or digits not starting with
    zero. *)
Definition parse_int (s : string) : option (Z * string) :=
  match s with
  | EmptyString => None
  | String c r =>
      if Ascii.eqb c "0" then
        match r with
        | String d _ => if is_digit d then None else Some (0, r)
        | EmptyString => Some (0, r)
        end
      else
        let '(v, n, rest) := parse_digits 0 0 s in
        match n with
        | O => None
        | S _ => Some (v, rest)
        end
  end.

(** The fraction, when there is one: its digits as a number, how many they
    are, and the rest. *)
Definition parse_frac (s : string) : option (Z * nat * string) :=
  match s with
  | String "." r =>
      let '(v, n, rest) := parse_digits 0 0 r in
      match n with
      | O => None
      | S _ => Some (v, n, rest)
      end
  | _ => Some (0, O, s)
  end.

(** The exponent, when there is one. *)
Definition parse_exp (s : string) : option (Z * string) :=
  match s with
  | String c r =>
      if Ascii.eqb c "e" || Ascii.eqb c "E" then
        let '(negative, r1) :=
          match r with
          | String "-" r' => (true, r')
          | String "+" r' => (false, r')
          | _ => (false, r)
          end in
        let '(v, n, rest) := parse_digits 0 0 r1 in
        match n with
        | O => None
        | S _ => Some (if negative then - v else v, rest)
        end
      else Some (0, s)
  | EmptyString => Some (0, s)
  end.

(** A number: its numeral, and what follows. *)
Definition parse_number (s : string) : option (Z * nat * string) :=
  let '(negative, s1) :=
    match s with
    | String "-" r => (true, r)
    | _ => (false, s)
    end in
  match parse_int s1 with
  | None => None
  | Some (ip, s2) =>
      match parse_frac s2 with
      | None => None
      | Some (fp, cf, s3) =>
          match parse_exp s3 with
          | None => None
          | Some (e, s4) =>
              let m := ip * 10 ^ Z.of_nat cf + fp in
              let m := if negative then - m else m in
              let shift := Z.of_nat cf - e in
              let '(m', k') :=
                if shift <? 0 then (m * 10 ^ (- shift), O)
                else strip_zeros (Z.to_nat shift) m in
              Some (m', k', s4)
          end
      end
  end.

Fixpoint strip_prefix (word s : string) : option string :=
  match word with
  | EmptyString => Some s
  | String a word' =>
      match s with
      | EmptyString => None
      | String b s' => if Ascii.eqb a b then strip_prefix word' s' else None
      end
  end.

(** The value [v] when the text goes on with [word]. *)
Definition expect (word : string) (v : value) (s : string) : option (value * string) :=
  match strip_prefix word s with
  | Some rest => Some (v, rest)
  | None => None
  end.

Fixpoint parse_value (fuel : nat) (s : string) {struct fuel} : option (value * string) :=
  match fuel with
  | O => None
  | S fuel' =>
      match skip_ws s with
      | EmptyString => None
      | String c r =>
          if Ascii.eqb c "n" then expect "ull" jnull r
          else if Ascii.eqb c "t" then expect "rue" (jbool true) r
          else if Ascii.eqb c "f" then expect "alse" (jbool false) r
          else if Ascii.eqb c dquote then
            match parse_chars r with
            | Some (str, r') => Some (jstring str, r')
            | None => None
            end
          else if Ascii.eqb c "[" then
            match skip_ws r with
            | EmptyString => None
            | String c' r' =>
                if Ascii.eqb c' "]" then Some (jarray [], r')
                else
                  match parse_elements fuel' r with
                  | Some (vs, r'') => Some (jarray vs, r'')
                  | None => None
                  end
            end
          else if Ascii.eqb c "{" then
            match skip_ws r with
            | EmptyString => None
            | String c' r' =>
                if Ascii.eqb c' "}" then Some (jobject [], r')
                else
                  match parse_members fuel' r with
                  | Some (ms, r'') => Some (jobject ms, r'')
                  | None => None
                  end
            end
          else
            match parse_number (String c r) with
            | Some (m, k, r') => Some (jnumber m k, r')
            | None => None
            end
      end
  end
with parse_elements (fuel : nat) (s : string) {struct fuel} : option (list value * string) :=
  match fuel with
  | O => None
  | S fuel' =>
      match parse_value fuel' s with
      | None => None
      | Some (v, r) =>
          match skip_ws r with
          | EmptyString => None
          | String c r' =>
              if Ascii.eqb c "," then
                match parse_elements fuel' r' with
                | Some (vs, r'') => Some (v :: vs, r'')
                | None => None
                end
              else if Ascii.eqb c "]" then Some ([v], r')
              else None
          end
      end
  end
with parse_members (fuel : nat) (s : string) {struct fuel}
    : option (list (string * value) * string) :=
  match fuel with
  | O => None
  | S fuel' =>
      match skip_ws s with
      | EmptyString => None
      | String c r =>
          if Ascii.eqb c dquote then
            match parse_chars r with
            | None => None
            | Some (key, r1) =>
                match skip_ws r1 with
                | EmptyString => None
                | String c1 r2 =>
                    if Ascii.eqb c1 ":" then
                      match parse_value fuel' r2 with
                      | None => None
                      | Some (v, r3) =>
                          match skip_ws r3 with
                          | EmptyString => None
                          | String c3 r4 =>
                              if Ascii.eqb c3 "," then
                                match parse_members fuel' r4 with
                                | Some (ms, r5) => Some ((key, v) :: ms, r5)
                                | None => None
                                end
                              else if Ascii.eqb c3 "}" then Some ([(key, v)], r4)
                              else None
                          end
                      end
                    else None
                end
            end
          else None
      end
  end.

(** [JSON.parse(text)]: one value and nothing but white space after it. *)
Definition parse (text : string) : option value :=
  match parse_value (S (String.length text)) text with
  | Some (v, rest) =>
      match skip_ws rest with
      | EmptyString => Some v
      | _ => None
      end
  | None => None
  end.

(** *** Vocabulary of the proofs *)

(** The items of an array after the first, each behind its separator. *)
Definition items_text (gap indent : string) : list value -> string :=
  fix rest (l : list value) : string :=
    match l with
    | [] => EmptyString
    | y :: ys => (separator gap indent ++ serialize gap indent y ++ rest ys)%string
    end.

(** The members of an object after the first. *)
Definition members_text (gap indent : string) : list (string * value) -> string :=
  fix rest (l : list (string * value)) : string :=
    match l with
    | [] => EmptyString
    | (k', y) :: ys =>
        (separator gap indent ++ quote k' ++ colon gap ++ serialize gap indent y
         ++ rest ys)%string
    end.

(** The fuel that reading a value back takes. *)
Fixpoint need (v : value) : nat :=
  match v with
  | jarray l =>
      S ((fix items (l : list value) : nat :=
            match l with
            | [] => O
            | x :: xs => S (Nat.max (need x) (items xs))
            end) l)
  | jobject l =>
      S ((fix members (l : list (string * value)) : nat :=
            match l with
            | [] => O
            | (_, x) :: xs => S (Nat.max (need x) (members xs))
            end) l)
  | _ => 1%nat
  end.

Fixpoint need_items (l : list value) : nat :=
  match l with
  | [] => O
  | x :: xs => S (Nat.max (need x) (need_items xs))
  end.

Fixpoint need_members (l : list (string * value)) : nat :=
  match l with
  | [] => O
  | (_, x) :: xs => S (Nat.max (need x) (need_members xs))
  end.

(** A number cannot go on into the text: it is empty, or starts with no
    digit, point or exponent mark. *)
Definition number_stop (s : string) : bool :=
  match s with
  | EmptyString => true
  | String c _ =>
      negb (is_digit c || Ascii.eqb c "." || Ascii.eqb c "e" || Ascii.eqb c "E")
  end.

(** No digit follows. *)
Definition digit_stop (s : string) : bool :=
  match s with
  | EmptyString => true
  | String c _ => negb (is_digit c)
  end.

(** The text is white space to the reader. *)
Definition blank (s : string) : Prop :=
  forall rest, skip_ws (s ++ rest) = skip_ws rest.

(** The text starts a value: with a character that is no white space and
    closes no array or object. *)
Definition starts_value (s : string) : Prop :=
  exists c r, s = String c r /\ is_ws c = false
              /\ Ascii.eqb c "]" = false /\ Ascii.eqb c "}" = false.

(** The value, written with any indentation and followed by any text that
    cannot continue a number, reads back as itself and leaves that text. *)
Definition reads_back (gap : string) (v : value) : Prop :=
  forall indent rest fuel,
    blank indent -> (need v <= fuel)%nat -> number_stop rest = true ->
    parse_value fuel (serialize gap indent v ++ rest) = Some (v, rest).

(** *** The values a document is written from *)

(** The numeral ends with no zero after the point, and its number prints
    without an exponent: it is zero or lies between 10^-6 and 10^21. *)
Definition plain_number (m : Z) (k : nat) : Prop :=
  (k = O \/ m mod 10 <> 0)
  /\ Z.abs m < 10 ^ (21 + Z.of_nat k)
  /\ (m = 0 \/ 10 ^ Z.of_nat k <= Z.abs m * 10 ^ 6).

#[warnings="-register-all"]
Inductive well_formed : value -> Prop :=
| wf_null : well_formed jnull
| wf_bool : forall b, well_formed (jbool b)
| wf_number : forall m k, plain_number m k -> well_formed (jnumber m k)
| wf_string : forall s, well_formed (jstring s)
| wf_array : forall items, Forall well_formed items -> well_formed (jarray items)
| wf_object : forall members,
    NoDup (map fst members) ->
    Forall (fun kv => well_formed (snd kv)) members ->
    well_formed (jobject members).

End JSON.

(** ** The backend client and the effects of a handler *)
Module Supabase.

Record User : Type := {
  id : string;
  email : option string
}.

Record StoreError : Type := {
  message : string
}.

(** The answer of a [signUp] or [signInWithPassword] call. *)
Record AuthResponse : Type := {
  auth_user : option User;
  auth_error : option StoreError
}.

(** The row a [select('name')] on [profiles] returns. *)
Record Profile : Type := {
  name : string
}.

(** The object the journal page inserts. *)
Record NewEntry : Type := {
  new_user_id : string;
  new_title : string;
  new_content : string;
  new_sleep_hours : option Q;
  new_caffeine_intake : option Q;
  new_sleep_quality : Q;
  new_mood : option string;
  new_stress_level : option Q
}.

Inductive Page : Type :=
| login
| journal
| analytics
| profile.

Record CurrentUser : Type := {
  current_email : string;
  current_name : string
}.

(** The requests the handlers send to the backend. *)
Inductive Call : Type :=
| GetUser
| SignUp (email password name : string)
| SignInWithPassword (email password : string)
| SelectProfileName (id : string)
| InsertEntry (entry : NewEntry)
| SelectEntries (user_id : string).

(** The state setters of the components. *)
Inductive Setter : Type :=
| setIsLoading (b : bool)
| setEmail (s : string)
| setPassword (s : string)
| setDreamTitle (s : string)
| setDreamContent (s : string)
| setSleepHours (v : list Q)
| setCaffeineIntake (v : list Q)
| setSleepQuality (v : Q)
| setMood (v : option string)
| setStressLevel (v : list Q)
| setCurrentUser (u : option CurrentUser)
| setIsLoggedIn (b : bool)
| setCurrentPage (p : Page).

(** What a handler does, in the order it does it. *)
Inductive Effect : Type :=
| preventDefault
| toast_error (msg : string)
| toast_success (msg : string)
| network (c : Call)
| setState (s : Setter)
| onLogin (email name : string)
| download (filename type content : string).

Definition is_network (e : Effect) : bool :=
  match e with
  | network _ => true
  | _ => false
  end.

Definition is_setState (e : Effect) : bool :=
  match e with
  | setState _ => true
  | _ => false
  end.

Definition is_download (e : Effect) : bool :=
  match e with
  | download _ _ _ => true
  | _ => false
  end.

(** The answer of a [select('*')]: the rows, or the error. *)
Record Rows : Type := {
  data : option (list JSON.value);
  error : option StoreError
}.

(** The part of the backend's answers that does not carry rows. *)
Record Auth : Type := {
  auth_getUser : option User;
  auth_signUp : string -> string -> string -> AuthResponse;
  auth_signInWithPassword : string -> string -> AuthResponse;
  profiles_select_name : string -> option Profile;
  dream_entries_insert : NewEntry -> option StoreError
}.

(** [profile?.name || fallback] *)
Definition profile_name_or (p : option Profile) (fallback : string) : string :=
  match p with
  | Some p => JS.or_else (name p) fallback
  | None => fallback
  end.

(** [email.split('@')[0]] *)
Definition email_local_part (email : string) : string :=
  hd EmptyString (JS.split "@" email).

End Supabase.

(** ** The journal page *)
Module Journal.
Import JS Supabase.
Local Open Scope Q_scope.

Record State : Type := {
  dreamTitle : string;
  dreamContent : string;
  sleepHours : list Q;
  caffeineIntake : list Q;
  sleepQuality : Q;
  mood : option string;
  stressLevel : list Q;
  isLoading : bool
}.

Definition initial : State :=
  {| dreamTitle := EmptyString; dreamContent := EmptyString; sleepHours := [7];
     caffeineIntake := [0]; sleepQuality := 5; mood := None; stressLevel := [5];
     isLoading := false |}.

Definition apply (st : State) (e : Effect) : State :=
  match e with
  | setState (setIsLoading b) =>
      {| dreamTitle := dreamTitle st; dreamContent := dreamContent st;
         sleepHours := sleepHours st; caffeineIntake := caffeineIntake st;
         sleepQuality := sleepQuality st; mood := mood st;
         stressLevel := stressLevel st; isLoading := b |}
  | setState (setDreamTitle s) =>
      {| dreamTitle := s; dreamContent := dreamContent st;
         sleepHours := sleepHours st; caffeineIntake := caffeineIntake st;
         sleepQuality := sleepQuality st; mood := mood st;
         stressLevel := stressLevel st; isLoading := isLoading st |}
  | setState (setDreamContent s) =>
      {| dreamTitle := dreamTitle st; dreamContent := s;
         sleepHours := sleepHours st; caffeineIntake := caffeineIntake st;
         sleepQuality := sleepQuality st; mood := mood st;
         stressLevel := stressLevel st; isLoading := isLoading st |}
  | setState (setSleepHours v) =>
      {| dreamTitle := dreamTitle st; dreamContent := dreamContent st;
         sleepHours := v; caffeineIntake := caffeineIntake st;
         sleepQuality := sleepQuality st; mood := mood st;
         stressLevel := stressLevel st; isLoading := isLoading st |}
  | setState (setCaffeineIntake v) =>
      {| dreamTitle := dreamTitle st; dreamContent := dreamContent st;
         sleepHours := sleepHours st; caffeineIntake := v;
         sleepQuality := sleepQuality st; mood := mood st;
         stressLevel := stressLevel st; isLoading := isLoading st |}
  | setState (setSleepQuality v) =>
      {| dreamTitle := dreamTitle st; dreamContent := dreamContent st;
         sleepHours := sleepHours st; caffeineIntake := caffeineIntake st;
         sleepQuality := v; mood := mood st;
         stressLevel := stressLevel st; isLoading := isLoading st |}
  | setState (setMood v) =>
      {| dreamTitle := dreamTitle st; dreamContent := dreamContent st;
         sleepHours := sleepHours st; caffeineIntake := caffeineIntake st;
         sleepQuality := sleepQuality st; mood := v;
         stressLevel := stressLevel st; isLoading := isLoading st |}
  | setState (setStressLevel v) =>
      {| dreamTitle := dreamTitle st; dreamContent := dreamContent st;
         sleepHours := sleepHours st; caffeineIntake := caffeineIntake st;
         sleepQuality := sleepQuality st; mood := mood st;
         stressLevel := v; isLoading := isLoading st |}
  | _ => st
  end.

(** The state once the effects of a handler have been applied. *)
Definition run (st : State) (effects : list Effect) : State :=
  fold_left apply effects st.

(** The message of the store when the table was never created. *)
Definition missing_table : string :=
  "relation " ++ String (ascii_of_nat 34) "public.dream_entries"
  ++ String (ascii_of_nat 34) " does not exist".

Definition handleSaveEntry (st : State) (backend : Auth) : list Effect :=
  if falsy (dreamTitle st) || falsy (dreamContent st) then
    [toast_error "Please fill in dream title and content"]
  else
    [setState (setIsLoading true); network GetUser]
    ++ match auth_getUser backend with
       | None =>
           [toast_error "You must be logged in to save entries";
            setState (setIsLoading false)]
       | Some user =>
           let entry :=
             {| new_user_id := id user;
                new_title := dreamTitle st;
                new_content := dreamContent st;
                new_sleep_hours := hd_error (sleepHours st);
                new_caffeine_intake := hd_error (caffeineIntake st);
                new_sleep_quality := sleepQuality st;
                new_mood := mood st;
                new_stress_level := hd_error (stressLevel st) |} in
           network (InsertEntry entry)
           :: match dream_entries_insert backend entry with
              | Some error =>
                  if includes (message error) missing_table then
                    [toast_error
                       "Database not set up. Please run the SQL queries in Supabase first."]
                  else
                    [toast_error (or_else (message error) "Failed to save entry")]
              | None =>
                  [toast_success "Dream journal entry saved!";
                   setState (setDreamTitle EmptyString);
                   setState (setDreamContent EmptyString);
                   setState (setSleepHours [7]);
                   setState (setCaffeineIntake [0]);
                   setState (setSleepQuality 5);
                   setState (setMood None);
                   setState (setStressLevel [5])]
              end
       end
    ++ [setState (setIsLoading false)].

End Journal.

(** ** The login page *)
Module Login.
Import JS Supabase.

Record State : Type := {
  isSignup : bool;
  showPassword : bool;
  email : string;
  password : string;
  name : string;
  isLoading : bool
}.

Definition apply (st : State) (e : Effect) : State :=
  match e with
  | setState (setIsLoading b) =>
      {| isSignup := isSignup st; showPassword := showPassword st;
         email := email st; password := password st; name := name st;
         isLoading := b |}
  | setState (setEmail s) =>
      {| isSignup := isSignup st; showPassword := showPassword st;
         email := s; password := password st; name := name st;
         isLoading := isLoading st |}
  | setState (setPassword s) =>
      {| isSignup := isSignup st; showPassword := showPassword st;
         email := email st; password := s; name := name st;
         isLoading := isLoading st |}
  | _ => st
  end.

Definition run (st : State) (effects : list Effect) : State :=
  fold_left apply effects st.

Definition handleSubmit (st : State) (backend : Auth) : list Effect :=
  preventDefault
  :: if falsy (email st) || falsy (password st) || (isSignup st && falsy (name st)) then
       [toast_error "Please fill in all fields"]
     else if (String.length (password st) <? 6)%nat then
       [toast_error "Password must be at least 6 characters"]
     else
       setState (setIsLoading true)
       :: (if isSignup st then
             let r := auth_signUp backend (email st) (password st) (name st) in
             network (SignUp (email st) (password st) (name st))
             :: match auth_error r with
                | Some error => [toast_error (or_else (message error) "An error occurred")]
                | None =>
                    match auth_user r with
                    | Some _ =>
                        [toast_success "Account created successfully!";
                         onLogin (email st) (name st)]
                    | None => []
                    end
                end
           else
             let r := auth_signInWithPassword backend (email st) (password st) in
             network (SignInWithPassword (email st) (password st))
             :: match auth_error r with
                | Some error => [toast_error (or_else (message error) "An error occurred")]
                | None =>
                    match auth_user r with
                    | Some user =>
                        let profile := profiles_select_name backend (id user) in
                        [network (SelectProfileName (id user));
                         toast_success "Welcome back!";
                         onLogin (email st)
                           (profile_name_or profile (email_local_part (email st)))]
                    | None => []
                    end
                end)
       ++ [setState (setIsLoading false)].

Definition test_email : string := "test@dreamtracker.com".
Definition test_password : string := "testpass123".

Definition handleTestLogin (backend : Auth) : list Effect :=
  let r := auth_signInWithPassword backend test_email test_password in
  [setState (setEmail test_email);
   setState (setPassword test_password);
   setState (setIsLoading true);
   network (SignInWithPassword test_email test_password)]
  ++ match auth_error r with
     | Some _ =>
         [toast_error
            "Test account not set up yet. Please create it in Supabase Dashboard."]
     | None =>
         match auth_user r with
         | Some user =>
             let profile := profiles_select_name backend (id user) in
             [network (SelectProfileName (id user));
              toast_success "Logged in with test account!";
              onLogin test_email (profile_name_or profile "Test User")]
         | None => []
         end
     end
  ++ [setState (setIsLoading false)].

End Login.

(** ** The application shell *)
Module App.
Import JS Supabase.

Record State : Type := {
  currentPage : Page;
  isLoggedIn : bool;
  currentUser : option CurrentUser
}.

Definition initial : State :=
  {| currentPage := login; isLoggedIn := false; currentUser := None |}.

Definition apply (st : State) (e : Effect) : State :=
  match e with
  | setState (setCurrentPage p) =>
      {| currentPage := p; isLoggedIn := isLoggedIn st; currentUser := currentUser st |}
  | setState (setIsLoggedIn b) =>
      {| currentPage := currentPage st; isLoggedIn := b; currentUser := currentUser st |}
  | setState (setCurrentUser u) =>
      {| currentPage := currentPage st; isLoggedIn := isLoggedIn st; currentUser := u |}
  | _ => st
  end.

Definition run (st : State) (effects : list Effect) : State :=
  fold_left apply effects st.

(** Runs when a session is found at start-up and on every change of the
    session. *)
Definition loadUserProfile (userId email : string) (backend : Auth) : list Effect :=
  let profile := profiles_select_name backend userId in
  [network (SelectProfileName userId);
   setState (setCurrentUser
     (Some {| current_email := email;
              current_name := profile_name_or profile (email_local_part email) |}));
   setState (setIsLoggedIn true);
   setState (setCurrentPage journal)].

(** At start-up, with the session the client holds, if any. *)
Definition restoreSession (session : option User) (backend : Auth) : list Effect :=
  match session with
  | Some user => loadUserProfile (id user) (or_empty (Supabase.email user)) backend
  | None => []
  end.

(** On every change of the session. *)
Definition onAuthStateChange (session : option User) (backend : Auth) : list Effect :=
  match session with
  | Some user => loadUserProfile (id user) (or_empty (Supabase.email user)) backend
  | None =>
      [setState (setIsLoggedIn false);
       setState (setCurrentUser None);
       setState (setCurrentPage login)]
  end.

(** The [onLogin] callback the login page receives. *)
Definition handleLogin (email name : string) : list Effect :=
  [setState (setCurrentUser (Some {| current_email := email; current_name := name |}));
   setState (setIsLoggedIn true);
   setState (setCurrentPage journal)].

(** The effects of a login-page handler as the shell sees them: each
    [onLogin] is followed by what [handleLogin] does. *)
Definition with_login (effects : list Effect) : list Effect :=
  flat_map (fun e =>
    match e with
    | onLogin email name => e :: handleLogin email name
    | _ => [e]
    end) effects.


End App.

(** ** The profile page *)
Module Profile.
Import JS Supabase.

(** The name of the exported file, from [new Date().toISOString()]. *)
Definition backup_name (now_iso : string) : string :=
  "dreamtracker-backup-" ++ hd EmptyString (split "T" now_iso) ++ ".json".

Definition handleExportData (backend : Auth) (dream_entries_select : string -> Rows)
    (now_iso : string) : list Effect :=
  network GetUser
  :: match auth_getUser backend with
     | None => [toast_error "You must be logged in"]
     | Some user =>
         let r := dream_entries_select (id user) in
         network (SelectEntries (id user))
         :: match error r with
            | Some error => [toast_error (or_else (message error) "Failed to export data")]
            | None =>
                match data r with
                | None | Some [] => [toast_error "No data to export"]
                | Some entries =>
                    let dataStr := JSON.stringify (JSON.jarray entries) 2 in
                    [download (backup_name now_iso) "application/json" dataStr;
                     toast_success "Data exported successfully!"]
                end
            end
     end.

End Profile.

(** ** The specification's vocabulary *)
Module Spec.
Import JS Analytics.
Local Open Scope Q_scope.

(** The rank of a letter in the alphabet, whatever its case. *)
Definition letter_index (c : ascii) : option nat :=
  let n := nat_of_ascii c in
  if (65 <=? n)%nat && (n <=? 90)%nat then Some (n - 65)%nat
  else if (97 <=? n)%nat && (n <=? 122)%nat then Some (n - 97)%nat
  else None.

Definition same_letter (a b : ascii) : Prop :=
  a = b \/ exists i, letter_index a = Some i /\ letter_index b = Some i.

Inductive equal_ignoring_case : string -> string -> Prop :=
| eic_nil : equal_ignoring_case EmptyString EmptyString
| eic_cons : forall a b s t,
    same_letter a b -> equal_ignoring_case s t ->
    equal_ignoring_case (String a s) (String b t).



(** The magnitude [toFixed] rounds, and the integer it rounds it to. *)
Definition magnitude (x : Q) : Q := if negb (Qle_bool 0 x) then - x else x.

Definition units (x : Q) (f : nat) : Z :=
  Qfloor (magnitude x * inject_Z (10 ^ Z.of_nat f) + (1 # 2)).

(** The arithmetic mean of a metric over the entries. *)
Definition mean (f : DreamEntry -> Q) (entries : list DreamEntry) : Q :=
  fold_right Qplus 0 (map f entries) / inject_Z (Z.of_nat (length entries)).

(** [r] is [x] rounded to one decimal place: a whole number of tenths, as
    near to [x] as a tenth can be. *)
Definition nearest_tenth (x r : Q) : Prop :=
  (exists n : Z, r == inject_Z n / 10) /\ Qabs (x - r) <= 1 # 20.

(** The text [s] is a decimal with one digit after the point. *)
Definition one_fraction_digit (s : string) : Prop :=
  exists whole d, (0 <= d < 10)%Z /\ s = whole ++ "." ++ String (digit_char d) EmptyString.

(** The text [s] displays [x] rounded to one decimal place. *)
Definition displays_rounded (x : Q) (s : string) : Prop :=
  one_fraction_digit s /\ exists r, parseFloat s = Num r /\ nearest_tenth x r.

(** The messages joined by single spaces. *)
Fixpoint spaced (msgs : list string) : string :=
  match msgs with
  | [] => EmptyString
  | [m] => m
  | m :: rest => m ++ " " ++ spaced rest
  end.

(** The messages of the four rules, in their order, on given values of the
    sleep hours, caffeine intake, stress level and sleep quality. *)
Definition triggered (hours caffeine stress quality : Q) : list string :=
  ((if Qle_bool 7 hours then [] else [msg_sleep])
   ++ (if Qle_bool caffeine 2 then [] else [msg_caffeine])
   ++ (if Qle_bool stress 6 then [] else [msg_stress])
   ++ (if Qle_bool 6 quality then [] else [msg_quality]))%list.

(** The same rules as they fall on values that are then rounded half up to
    one decimal place: rounded hours are below 7 from 6.95 down, rounded
    caffeine is above 2 from 2.05 up, and so on. *)
Definition triggered_after_rounding (hours caffeine stress quality : Q) : list string :=
  ((if Qle_bool (139 # 20) hours then [] else [msg_sleep])
   ++ (if Qle_bool (41 # 20) caffeine then [msg_caffeine] else [])
   ++ (if Qle_bool (121 # 20) stress then [msg_stress] else [])
   ++ (if Qle_bool (119 # 20) quality then [] else [msg_quality]))%list.

Definition suggestion_of (msgs : list string) : string :=
  match msgs with
  | [] => msg_healthy
  | _ :: _ => spaced msgs
  end.


(** The character does not occur in the text. *)
Definition absent (c : ascii) (s : string) : Prop :=
  forall a b, s <> (a ++ String c b)%string.

(** [pre] is the portion of [s] before the first [c]: all of [s] when [c]
    does not occur in it. *)
Definition before_first (c : ascii) (s pre : string) : Prop :=
  absent c pre
  /\ ((exists rest, s = pre ++ String c rest)%string \/ (absent c s /\ pre = s)).


(** The handler told the user of an error and did nothing else: no request
    to the backend, no state written, no login, no file. *)
Definition aborts_with_error (effects : list Supabase.Effect) : Prop :=
  (exists msg, In (Supabase.toast_error msg) effects)
  /\ Forall (fun e => e = Supabase.preventDefault
                      \/ exists msg, e = Supabase.toast_error msg) effects.

(** The requests to the backend among the effects. *)
Definition requests (effects : list Supabase.Effect) : list Supabase.Effect :=
  filter Supabase.is_network effects.

(** The files offered for download among the effects. *)
Definition files (effects : list Supabase.Effect) : list Supabase.Effect :=
  filter Supabase.is_download effects.


(** The export wrote a document with the backup name that reads back as the
    rows. *)
Definition exports_rows (effects : list Supabase.Effect) (now_iso : string)
    (rows : list JSON.value) : Prop :=
  exists content,
    In (Supabase.download (Profile.backup_name now_iso) "application/json" content)
       effects
    /\ JSON.parse content = Some (JSON.jarray rows).

(** The order a press on the active sort control switches to. *)
Definition opposite (o : SortOrder) : SortOrder :=
  match o with
  | asc => desc
  | desc => asc
  end.

Section WithDates.
Context {dates : DatePlatform}.

(** The list the page shows in a given state of the sort controls. *)
Definition displayed (entries : list DreamEntry) (q : string) (st : SortState)
    : list DreamEntry :=
  filteredAndSortedEntries entries q (sortBy st) (sortOrder st).

(** [a] sorts strictly below [b] on the key. *)
Definition below (key : SortField) (a b : DreamEntry) : Prop :=
  lt (sort_value key a) (sort_value key b) = true.

(** No two entries of the list tie on the key. *)
Definition tie_free (key : SortField) (entries : list DreamEntry) : Prop :=
  ForallOrdPairs (fun a b => below key a b \/ below key b a) entries.

(** The entry carries a creation time the platform can read. *)
Definition dated (e : DreamEntry) : Prop :=
  exists t, created_time e = Num t.

Definition not_later (a b : DreamEntry) : Prop :=
  exists ta tb, created_time a = Num ta /\ created_time b = Num tb /\ ta <= tb.

Definition earlier (a b : DreamEntry) : Prop :=
  exists ta tb, created_time a = Num ta /\ created_time b = Num tb /\ ta < tb.

Definition chronologically_distinct (entries : list DreamEntry) : Prop :=
  ForallOrdPairs (fun a b => earlier a b \/ earlier b a) entries.

(** The chart point shows the entry: the short date of its creation time and
    its four metrics. *)
Definition shows (e : DreamEntry) (p : ChartPoint) : Prop :=
  date p = Date_toLocaleDateString (or_empty (created_at e)) "en-US"
             {| month := Some "short"; day := Some "numeric" |}
  /\ quality p = sleep_quality e
  /\ sleep p = sleep_hours e
  /\ caffeine p = caffeine_intake e
  /\ stress p = stress_level e.

End WithDates.

End Spec.

(** ** Sample data *)
Module Samples.
Import JS Analytics.
Local Open Scope Q_scope.

(** Ten timestamps as the store prints them, with the time value and the
    en-US short date a platform running in UTC gives for each. *)
Definition calendar : list (string * (Z * string)) :=
  [ ("2024-03-01T08:00:00+00:00", (1709280000000, "Mar 1"));
    ("2024-03-02T08:00:00+00:00", (1709366400000, "Mar 2"));
    ("2024-03-03T08:00:00+00:00", (1709452800000, "Mar 3"));
    ("2024-03-04T08:00:00+00:00", (1709539200000, "Mar 4"));
    ("2024-03-05T08:00:00+00:00", (1709625600000, "Mar 5"));
    ("2024-03-06T08:00:00+00:00", (1709712000000, "Mar 6"));
    ("2024-03-07T08:00:00+00:00", (1709798400000, "Mar 7"));
    ("2024-03-08T08:00:00+00:00", (1709884800000, "Mar 8"));
    ("2024-03-09T08:00:00+00:00", (1709971200000, "Mar 9"));
    ("2024-03-10T08:00:00+00:00", (1710057600000, "Mar 10")) ]%Z.

Fixpoint lookup (s : string) (table : list (string * (Z * string)))
    : option (Z * string) :=
  match table with
  | [] => None
  | (k, v) :: rest => if String.eqb k s then Some v else lookup s rest
  end.

(** A platform that reads the dates of the calendar and no other. *)
Definition calendar_dates : DatePlatform :=
  {| Date_getTime := fun s =>
       match lookup s calendar with
       | Some (t, _) => Num (inject_Z t)
       | None => NaN
       end;
     Date_toLocaleDateString := fun s _ _ =>
       match lookup s calendar with
       | Some (_, label) => label
       | None => "Invalid Date"
       end |}.

Definition night (title content : string) (hours caffeine quality stress : Q)
    (created : string) : DreamEntry :=
  {| id := None; user_id := "user-1"; title := title; content := content;
     sleep_hours := hours; caffeine_intake := caffeine; sleep_quality := quality;
     mood := Some "good"; stress_level := stress; created_at := Some created |}.

(** Ten nights, not in the order of their dates. *)
Definition ten_nights : list DreamEntry :=
  [ night "Flying" "over the mountains" 8 1 9 3 "2024-03-04T08:00:00+00:00";
    night "Forest" "lost among the trees" (13 # 2) 3 5 7 "2024-03-01T08:00:00+00:00";
    night "Friends" "the old playground" (15 # 2) 2 8 4 "2024-03-09T08:00:00+00:00";
    night "Underwater" "swimming with fish" 9 0 10 2 "2024-03-02T08:00:00+00:00";
    night "Chase" "running for a train" 5 4 4 8 "2024-03-10T08:00:00+00:00";
    night "Exam" "an empty page" 6 2 6 6 "2024-03-06T08:00:00+00:00";
    night "Garden" "roses in the snow" 7 1 7 5 "2024-03-03T08:00:00+00:00";
    night "Train" "a station at night" (11 # 2) 3 3 9 "2024-03-08T08:00:00+00:00";
    night "Sea" "a boat without oars" (17 # 2) 0 2 1 "2024-03-05T08:00:00+00:00";
    night "Tower" "stairs going down" 4 5 1 10 "2024-03-07T08:00:00+00:00" ].


Definition flying : DreamEntry :=
  night "Flying" "over the mountains" 8 1 9 3 "2024-03-04T08:00:00+00:00".

(** Sort controls set on the sleep quality, best first. *)
Definition by_quality : SortState := {| sortBy := by_sleep_quality; sortOrder := desc |}.

(** The night of the specification's example: 6 hours, 3 cups, quality 5,
    stress 7. *)
Definition short_night : DreamEntry :=
  night "Late" "a clock without hands" 6 3 5 7 "2024-03-05T08:00:00+00:00".

(** A well-rested night with two cups, and one with three. *)
Definition two_cups : DreamEntry :=
  night "Calm" "a quiet lake" 8 2 8 3 "2024-03-01T08:00:00+00:00".



(** A signed-in user whose profile row is missing. *)
Definition dreamer : Supabase.User :=
  {| Supabase.id := "user-1"; Supabase.email := Some "ada@example.org" |}.

Definition signed_in (user : Supabase.User) : Supabase.AuthResponse :=
  {| Supabase.auth_user := Some user; Supabase.auth_error := None |}.

Definition backend_without_profile (user : Supabase.User) : Supabase.Auth :=
  {| Supabase.auth_getUser := Some user;
     Supabase.auth_signUp := fun _ _ _ => signed_in user;
     Supabase.auth_signInWithPassword := fun _ _ => signed_in user;
     Supabase.profiles_select_name := fun _ => None;
     Supabase.dream_entries_insert := fun _ => None |}.


(** A store that holds no entry, and one that holds two. *)
Definition no_rows (user_id : string) : Supabase.Rows :=
  {| Supabase.data := Some []; Supabase.error := None |}.

Definition stored_row (id title : string) (hours : Z) : JSON.value :=
  JSON.jobject
    [ ("id", JSON.jstring id);
      ("user_id", JSON.jstring "user-1");
      ("title", JSON.jstring title);
      ("content", JSON.jstring "I was soaring through the mountains...");
      ("sleep_hours", JSON.jnumber hours 1);
      ("caffeine_intake", JSON.jnumber 1 0);
      ("sleep_quality", JSON.jnumber 9 0);
      ("mood", JSON.jnull);
      ("stress_level", JSON.jnumber 3 0);
      ("created_at", JSON.jstring "2024-03-04T08:00:00+00:00") ].

Definition two_rows (user_id : string) : Supabase.Rows :=
  {| Supabase.data := Some [stored_row "e-2" "Flying" 75; stored_row "e-1" "Forest" 65];
     Supabase.error := None |}.

Definition this_morning : string := "2024-03-11T09:30:00.000Z".


Definition login_form (signup : bool) (email password name : string) : Login.State :=
  {| Login.isSignup := signup; Login.showPassword := false; Login.email := email;
     Login.password := password; Login.name := name; Login.isLoading := false |}.

End Samples.

(** ** The other requests and state of the pages *)
Module Client.
Import JS Supabase.

(** The requests of the handlers below that [Supabase.Call] does not list. *)
Inductive Request : Type :=
| SignOut
| UpdateProfile (id name email : string)
| CountEntries (user_id : string)
| DeleteEntries (user_id : string).

(** Their state setters. *)
Inductive Write : Type :=
| setEntries (entries : list Analytics.DreamEntry)
| setEntryCount (n : Z).

(** What a handler below does, in the order it does it: an effect as above,
    one of the further requests or one of the further state writes.  What a
    handler prints on the console is not part of the model. *)
Inductive Action : Type :=
| effect (e : Effect)
| request (r : Request)
| write (w : Write).

(** The answer of the typed [select('*')] of the analytics page. *)
Record Entries : Type := {
  entries_data : option (list Analytics.DreamEntry);
  entries_error : option StoreError
}.

(** The answer of a [select('*', { count: 'exact', head: true })]. *)
Record Count : Type := {
  count : option Z;
  count_error : option StoreError
}.

(** The answers of the two tables to the requests of this part. *)
Record Tables : Type := {
  dream_entries_select : string -> Entries;
  dream_entries_count : string -> Count;
  dream_entries_delete : string -> option StoreError;
  profiles_update : string -> string -> string -> option StoreError
}.

Definition is_toast (a : Action) : bool :=
  match a with
  | effect (toast_error _) | effect (toast_success _) => true
  | _ => false
  end.

(** The user whose rows a request names, if it names rows. *)
Definition rows_of (a : Action) : option string :=
  match a with
  | effect (network (InsertEntry entry)) => Some (new_user_id entry)
  | effect (network (SelectEntries user_id)) => Some user_id
  | effect (network (SelectProfileName id)) => Some id
  | request (UpdateProfile id _ _) => Some id
  | request (CountEntries user_id) => Some user_id
  | request (DeleteEntries user_id) => Some user_id
  | _ => None
  end.

(** The request changes what the store holds. *)
Definition is_mutation (a : Action) : bool :=
  match a with
  | effect (network (InsertEntry _)) | effect (network (SignUp _ _ _)) => true
  | request (UpdateProfile _ _ _) | request (DeleteEntries _) => true
  | _ => false
  end.

End Client.

(** ** The analytics page: loading and rendering *)
Module AnalyticsPage.
Import JS Supabase Analytics Client.

Record State : Type := {
  entries : list DreamEntry;
  searchQuery : string;
  sort : SortState;
  isLoading : bool
}.

Definition initial : State :=
  {| entries := []; searchQuery := ""; sort := initial_sort; isLoading := true |}.

Definition apply (st : State) (a : Action) : State :=
  match a with
  | write (setEntries l) =>
      {| entries := l; searchQuery := searchQuery st; sort := sort st;
         isLoading := isLoading st |}
  | effect (setState (setIsLoading b)) =>
      {| entries := entries st; searchQuery := searchQuery st; sort := sort st;
         isLoading := b |}
  | _ => st
  end.

Definition run (st : State) (actions : list Action) : State :=
  fold_left apply actions st.

(** Runs once, when the page is mounted. *)
Definition loadEntries (backend : Auth) (tables : Tables) : list Action :=
  effect (network GetUser)
  :: match auth_getUser backend with
     | None => [effect (setState (setIsLoading false))]
     | Some user =>
         let r := dream_entries_select tables (Supabase.id user) in
         effect (network (SelectEntries (Supabase.id user)))
         :: match entries_error r with
            | Some _ => []
            | None =>
                [write (setEntries match entries_data r with
                                   | Some data => data
                                   | None => []
                                   end)]
            end
     end
  ++ [effect (setState (setIsLoading false))].


Definition press (field : SortField) (st : State) : State :=
  {| entries := entries st; searchQuery := searchQuery st;
     sort := toggleSort field (sort st); isLoading := isLoading st |}.

Definition msg_no_match : string := "No entries match your search".
Definition msg_no_entries : string :=
  "No dream entries yet. Start recording your dreams!".

Section WithDates.
Context {dates : DatePlatform}.

(** The entries under the heading of the list. *)
Definition listed (st : State) : list DreamEntry :=
  filteredAndSortedEntries (entries st) (searchQuery st)
    (sortBy (sort st)) (sortOrder (sort st)).

(** The line that stands for the list when there is nothing to list. *)
Definition list_notice (st : State) : option string :=
  if (length (listed st) =? 0)%nat then
    Some (if negb (falsy (searchQuery st)) then msg_no_match else msg_no_entries)
  else None.

(** What the page shows: the loading line, or the cards (when there are
    statistics), the insight, the points of the two charts, the number in the
    heading of the list and the list or the line that stands for it. *)
Inductive Screen : Type :=
| loading_line
| dashboard (cards : option Stats) (insight : string) (charts : list ChartPoint)
            (heading : nat) (notice : option string) (rows : list DreamEntry).

Definition render (st : State) : Screen :=
  if isLoading st then loading_line
  else dashboard (stats (entries st)) (getSuggestion (entries st))
         (chartData (entries st)) (length (listed st)) (list_notice st) (listed st).

End WithDates.

End AnalyticsPage.

(** ** The profile page: the form, the entry count and the clearing *)
Module ProfilePage.
Import JS Supabase Client.
Local Open Scope Z_scope.

Record State : Type := {
  name : string;
  email : string;
  entryCount : Z;
  isLoading : bool
}.

(** The state the page is mounted with. *)
Definition initial (currentUser : option CurrentUser) : State :=
  {| name := or_empty (option_map current_name currentUser);
     email := or_empty (option_map current_email currentUser);
     entryCount := 0;
     isLoading := false |}.

Definition apply (st : State) (a : Action) : State :=
  match a with
  | write (setEntryCount n) =>
      {| name := name st; email := email st; entryCount := n;
         isLoading := isLoading st |}
  | effect (setState (setIsLoading b)) =>
      {| name := name st; email := email st; entryCount := entryCount st;
         isLoading := b |}
  | _ => st
  end.

Definition run (st : State) (actions : list Action) : State :=
  fold_left apply actions st.

(** [count || 0] *)
Definition count_or_zero (count : option Z) : Z :=
  match count with
  | Some n => if n =? 0 then 0 else n
  | None => 0
  end.

(** Runs once, when the page is mounted. *)
Definition loadEntryCount (backend : Auth) (tables : Tables) : list Action :=
  effect (network GetUser)
  :: match auth_getUser backend with
     | None => []
     | Some user =>
         let r := dream_entries_count tables (id user) in
         request (CountEntries (id user))
         :: match count_error r with
            | Some _ => []
            | None => [write (setEntryCount (count_or_zero (count r)))]
            end
     end.

Definition handleSaveProfile (st : State) (backend : Auth) (tables : Tables)
    : list Action :=
  if falsy (name st) || falsy (email st) then
    [effect (toast_error "Please fill in all fields")]
  else
    [effect (setState (setIsLoading true)); effect (network GetUser)]
    ++ match auth_getUser backend with
       | None => [effect (toast_error "You must be logged in")]
       | Some user =>
           request (UpdateProfile (id user) (name st) (email st))
           :: match profiles_update tables (id user) (name st) (email st) with
              | Some error =>
                  [effect (toast_error
                             (or_else (message error) "Failed to update profile"))]
              | None => [effect (toast_success "Profile updated successfully!")]
              end
       end
    ++ [effect (setState (setIsLoading false))].

Definition handleClearData (backend : Auth) (tables : Tables) : list Action :=
  effect (network GetUser)
  :: match auth_getUser backend with
     | None => [effect (toast_error "You must be logged in")]
     | Some user =>
         request (DeleteEntries (id user))
         :: match dream_entries_delete tables (id user) with
            | Some error =>
                [effect (toast_error (or_else (message error) "Failed to clear data"))]
            | None =>
                [write (setEntryCount 0);
                 effect (toast_success "All data cleared successfully")]
            end
     end.

End ProfilePage.

(** ** The shell: logging out, navigating and what is on screen *)
Module Shell.
Import JS Supabase Client.

Definition apply (st : App.State) (a : Action) : App.State :=
  match a with
  | effect e => App.apply st e
  | _ => st
  end.

Definition run (st : App.State) (actions : list Action) : App.State :=
  fold_left apply actions st.

Definition handleLogout : list Action :=
  [request SignOut;
   effect (setState (setIsLoggedIn false));
   effect (setState (setCurrentUser None));
   effect (setState (setCurrentPage login))].

(** The ids of the items of the navigation bar. *)
Definition navItems : list Page := [journal; analytics; profile].

(** A press on an item of the bar: [onNavigate(item.id)], which the shell
    binds to [setCurrentPage]. *)
Definition onNavigate (page : Page) : list Action :=
  [effect (setState (setCurrentPage page))].

(** The page the shell renders: the login page when nobody is logged in,
    else the page whose name the state holds, and nothing when that name is
    none of the three pages. *)
Definition rendered (st : App.State) : option Page :=
  if negb (App.isLoggedIn st) then Some login
  else match App.currentPage st with
       | login => None
       | page => Some page
       end.

(** One step of the shell: the session found at start-up, a change of the
    session, the callback of the login page, a press on an item of the
    navigation bar and the logout.  The backend answers anything, and a step
    may come in any state: the handlers wait for the backend, so their
    writes may land after the state has moved on.  The state writes a
    handler makes in a row are one step: they reach the screen together. *)
Inductive step : App.State -> App.State -> Prop :=
| step_restoreSession st session backend :
    step st (App.run st (App.restoreSession session backend))
| step_onAuthStateChange st session backend :
    step st (App.run st (App.onAuthStateChange session backend))
| step_handleLogin st email name :
    step st (App.run st (App.handleLogin email name))
| step_onNavigate st page :
    In page navItems -> step st (run st (onNavigate page))
| step_handleLogout st :
    step st (run st handleLogout).

Inductive reachable : App.State -> Prop :=
| reachable_initial : reachable App.initial
| reachable_step st st' : reachable st -> step st st' -> reachable st'.

End Shell.

(** ** The journal page: the controls of the form *)
Module JournalPage.
Import JS Supabase.
Local Open Scope Q_scope.

(** The values of the mood buttons. *)
Definition moodOptions : list string := ["great"; "good"; "neutral"; "bad"].

(** The numbers of the sleep quality buttons. *)
Definition qualities : list Q := [1; 2; 3; 4; 5; 6; 7; 8; 9; 10].

(** Modelled from the spec: the input controls clamp the values to their
    declared ranges.  What the slider component, which is not among the
    sources, hands to [onValueChange] when it is given [min], [max] and
    [step]: a list of one value, a whole number of steps above [min] and not
    above [max]. *)
Definition slider (min max step : Q) (value : list Q) : Prop :=
  exists (x : Q) (k : Z),
    value = [x] /\ x == min + inject_Z k * step /\ min <= x /\ x <= max.

(** The state writes the controls of the form can make. *)
Inductive input : Setter -> Prop :=
| input_title s : input (setDreamTitle s)
| input_content s : input (setDreamContent s)
| input_sleepHours v : slider 0 12 (1 # 2) v -> input (setSleepHours v)
| input_caffeineIntake v : slider 0 10 1 v -> input (setCaffeineIntake v)
| input_stressLevel v : slider 0 10 1 v -> input (setStressLevel v)
| input_sleepQuality q : In q qualities -> input (setSleepQuality q)
| input_mood m : In m moodOptions -> input (setMood (Some m)).

(** The states of the form: the initial one, and a state after a write of a
    control or after any one effect of a save issued from a state of the
    form, the backend answering anything (the effects of a save that is
    waiting for the backend interleave with the writes of the controls). *)
Inductive reachable : Journal.State -> Prop :=
| reachable_initial : reachable Journal.initial
| reachable_input st s :
    reachable st -> input s -> reachable (Journal.apply st (setState s))
| reachable_save st st0 backend e :
    reachable st -> reachable st0 ->
    In e (Journal.handleSaveEntry st0 backend) ->
    reachable (Journal.apply st e).


End JournalPage.

(** ** The table of the entries *)
Module Schema.
Import JS Supabase.
Local Open Scope Q_scope.






End Schema.

(** ** Further vocabulary *)
Module Terms.
Import JS Supabase Analytics Spec Client.
Local Open Scope Q_scope.

(** The cards of the page and the metric each one averages. *)
Inductive Card : Type :=
| Quality
| Sleep
| Caffeine
| Stress.

Definition metric (c : Card) : DreamEntry -> Q :=
  match c with
  | Quality => sleep_quality
  | Sleep => sleep_hours
  | Caffeine => caffeine_intake
  | Stress => stress_level
  end.

Definition card_text (c : Card) : Stats -> string :=
  match c with
  | Quality => avgQuality
  | Sleep => avgSleep
  | Caffeine => avgCaffeine
  | Stress => avgStress
  end.

(** The handlers of the pages that talk to the backend, each with the state
    it reads and what else it is given. *)
Inductive Handler : Type :=
| SaveEntry (st : Journal.State)
| Submit (st : Login.State)
| TestLogin
| ExportData (select : string -> Rows) (now_iso : string)
| LoadEntries
| LoadEntryCount
| SaveProfile (st : ProfilePage.State)
| ClearData
| Logout.

(** What a handler does, the backend answering as [backend] and [tables]. *)
Definition actions (h : Handler) (backend : Auth) (tables : Tables) : list Action :=
  match h with
  | SaveEntry st => map effect (Journal.handleSaveEntry st backend)
  | Submit st => map effect (Login.handleSubmit st backend)
  | TestLogin => map effect (Login.handleTestLogin backend)
  | ExportData select now_iso => map effect (Profile.handleExportData backend select now_iso)
  | LoadEntries => AnalyticsPage.loadEntries backend tables
  | LoadEntryCount => ProfilePage.loadEntryCount backend tables
  | SaveProfile st => ProfilePage.handleSaveProfile st backend tables
  | ClearData => ProfilePage.handleClearData backend tables
  | Logout => Shell.handleLogout
  end.

(** The user the backend tells the handler it is acting for: the one signed
    in by the handler on the login page, the current one elsewhere. *)
Definition acting_user (h : Handler) (backend : Auth) : option User :=
  match h with
  | Submit st =>
      auth_user (auth_signInWithPassword backend (Login.email st) (Login.password st))
  | TestLogin =>
      auth_user (auth_signInWithPassword backend Login.test_email Login.test_password)
  | _ => auth_getUser backend
  end.

(** A night none of the four rules would trigger on. *)
Definition healthy (e : DreamEntry) : Prop :=
  7 <= sleep_hours e /\ caffeine_intake e <= 2 /\ stress_level e <= 6
  /\ 6 <= sleep_quality e.

Section WithDates.
Context {dates : DatePlatform}.

(** [a] comes before [b] in the given order on the key. *)
Definition ranked (key : SortField) (order : SortOrder) (a b : DreamEntry) : Prop :=
  match order with
  | asc => below key a b
  | desc => below key b a
  end.

(** The entries are in the order the pages ask the store for: by creation
    time, the latest first, no two at the same time. *)
Definition newest_first (entries : list DreamEntry) : Prop :=
  StronglySorted (fun a b => earlier b a) entries.

End WithDates.

End Terms.

(** ** Further sample data *)
Module Cases.
Import JS Analytics Supabase Client Samples.
Local Open Scope Q_scope.

(** The ten nights in the order the store returns them: the latest first. *)
Definition latest_first : list DreamEntry :=
  [ night "Chase" "running for a train" 5 4 4 8 "2024-03-10T08:00:00+00:00";
    night "Friends" "the old playground" (15 # 2) 2 8 4 "2024-03-09T08:00:00+00:00";
    night "Train" "a station at night" (11 # 2) 3 3 9 "2024-03-08T08:00:00+00:00";
    night "Tower" "stairs going down" 4 5 1 10 "2024-03-07T08:00:00+00:00";
    night "Exam" "an empty page" 6 2 6 6 "2024-03-06T08:00:00+00:00";
    night "Sea" "a boat without oars" (17 # 2) 0 2 1 "2024-03-05T08:00:00+00:00";
    night "Flying" "over the mountains" 8 1 9 3 "2024-03-04T08:00:00+00:00";
    night "Garden" "roses in the snow" 7 1 7 5 "2024-03-03T08:00:00+00:00";
    night "Underwater" "swimming with fish" 9 0 10 2 "2024-03-02T08:00:00+00:00";
    night "Forest" "lost among the trees" (13 # 2) 3 5 7 "2024-03-01T08:00:00+00:00" ].

(** Tables that hold the given entries and take every change, and tables
    that answer every request with an error. *)
Definition tables_with (rows : list DreamEntry) : Tables :=
  {| dream_entries_select := fun _ =>
       {| entries_data := Some rows; entries_error := None |};
     dream_entries_count := fun _ =>
       {| count := Some (Z.of_nat (length rows)); count_error := None |};
     dream_entries_delete := fun _ => None;
     profiles_update := fun _ _ _ => None |}.

Definition unreachable : StoreError := {| message := "Failed to fetch" |}.

Definition tables_down : Tables :=
  {| dream_entries_select := fun _ =>
       {| entries_data := None; entries_error := Some unreachable |};
     dream_entries_count := fun _ =>
       {| count := None; count_error := Some unreachable |};
     dream_entries_delete := fun _ => Some unreachable;
     profiles_update := fun _ _ _ => Some unreachable |}.

(** A backend with nobody signed in. *)
Definition signed_out : Auth :=
  {| auth_getUser := None;
     auth_signUp := fun _ _ _ => {| auth_user := None; auth_error := Some unreachable |};
     auth_signInWithPassword := fun _ _ =>
       {| auth_user := None; auth_error := Some unreachable |};
     profiles_select_name := fun _ => None;
     dream_entries_insert := fun _ => Some unreachable |}.


(** The journal form once a title and a content are typed in. *)
Definition flying_draft : Journal.State :=
  Journal.apply
    (Journal.apply Journal.initial (setState (setDreamTitle "Flying")))
    (setState (setDreamContent "over the mountains")).

(** The login form filled in by the dreamer. *)
Definition dreamer_login : Login.State :=
  login_form false "ada@example.org" "secret1" EmptyString.

(** The profile form of the dreamer. *)
Definition dreamer_profile : ProfilePage.State :=
  ProfilePage.initial
    (Some {| current_email := "ada@example.org"; current_name := "Ada" |}).

(** The shell after a login and a press on the analytics item. *)
Definition on_analytics : App.State :=
  Shell.run (App.run App.initial (App.handleLogin "ada@example.org" "Ada"))
    (Shell.onNavigate analytics).

End Cases.

(* ================================================================== *)
(** * Part II: properties *)
(* ================================================================== *)

(** ** Strings *)
Module StringFacts.
Import JS Spec.



Lemma includes_empty (s : string) : includes s EmptyString = true.
Proof. destruct s; reflexivity. Qed.



Lemma code_lower_char (c : ascii) :
  nat_of_ascii (lower_char c) =
  if (65 <=? nat_of_ascii c)%nat && (nat_of_ascii c <=? 90)%nat
  then (nat_of_ascii c + 32)%nat else nat_of_ascii c.
Proof.
  unfold lower_char.
  destruct ((65 <=? nat_of_ascii c)%nat && (nat_of_ascii c <=? 90)%nat) eqn:E; [|reflexivity].
  apply andb_true_iff in E. destruct E as [E1 E2].
  apply Nat.leb_le in E1, E2. apply nat_ascii_embedding. lia.
Qed.

Lemma ascii_code_inj (a b : ascii) : nat_of_ascii a = nat_of_ascii b -> a = b.
Proof.
  intros H. rewrite <- (ascii_nat_embedding a), <- (ascii_nat_embedding b).
  now rewrite H.
Qed.

Lemma lower_char_same_letter (a b : ascii) :
  lower_char a = lower_char b <-> same_letter a b.
Proof.
  unfold same_letter, letter_index. split.
  - intros H. apply (f_equal nat_of_ascii) in H.
    rewrite !code_lower_char in H.
    destruct (Nat.leb_spec 65 (nat_of_ascii a)), (Nat.leb_spec (nat_of_ascii a) 90),
      (Nat.leb_spec 65 (nat_of_ascii b)), (Nat.leb_spec (nat_of_ascii b) 90),
      (Nat.leb_spec 97 (nat_of_ascii a)), (Nat.leb_spec (nat_of_ascii a) 122),
      (Nat.leb_spec 97 (nat_of_ascii b)), (Nat.leb_spec (nat_of_ascii b) 122);
      simpl in *; try lia;
      try (left; apply ascii_code_inj; lia);
      right; eexists; split; try reflexivity; f_equal; lia.
  - intros [->|(i & Ha & Hb)]; [reflexivity|].
    apply ascii_code_inj. rewrite !code_lower_char.
    destruct (Nat.leb_spec 65 (nat_of_ascii a)), (Nat.leb_spec (nat_of_ascii a) 90),
      (Nat.leb_spec 65 (nat_of_ascii b)), (Nat.leb_spec (nat_of_ascii b) 90),
      (Nat.leb_spec 97 (nat_of_ascii a)), (Nat.leb_spec (nat_of_ascii a) 122),
      (Nat.leb_spec 97 (nat_of_ascii b)), (Nat.leb_spec (nat_of_ascii b) 122);
      simpl in *; try discriminate; try lia;
      inversion Ha; inversion Hb; lia.
Qed.

Lemma toLowerCase_equal_ignoring_case (m q : string) :
  toLowerCase m = toLowerCase q <-> equal_ignoring_case m q.
Proof.
  split.
  - revert q. induction m as [|a m IH]; intros [|b q] H; try discriminate.
    + constructor.
    + simpl in H. inversion H. constructor.
      * now apply lower_char_same_letter.
      * now apply IH.
  - induction 1 as [|a b s t Hab _ IH]; simpl; [reflexivity|].
    f_equal; [now apply lower_char_same_letter | exact IH].
Qed.


End StringFacts.

(** ** Sorting *)
Module SortFacts.
Import JS.
Local Open Scope list_scope.

Section Sorting.
Context {A : Type}.
Variable comparefn : A -> A -> number.

Lemma sort_insert_perm (x : A) (l : list A) :
  Permutation (sort_insert comparefn x l) (x :: l).
Proof.
  induction l as [|y l IH]; simpl.
  - apply Permutation_refl.
  - destruct (before comparefn x y).
    + apply Permutation_refl.
    + eapply perm_trans; [apply perm_skip, IH | apply perm_swap].
Qed.

(** The sort returns the elements it was given, whatever the comparator. *)
Lemma Array_sort_perm (l : list A) : Permutation (Array_sort comparefn l) l.
Proof.
  induction l as [|x l IH]; simpl.
  - apply perm_nil.
  - eapply perm_trans; [apply sort_insert_perm | apply perm_skip, IH].
Qed.

Lemma Array_sort_length (l : list A) : length (Array_sort comparefn l) = length l.
Proof. apply Permutation_length, Array_sort_perm. Qed.

Variable R : A -> A -> Prop.
Hypothesis R_trans : forall a b c, R a b -> R b c -> R a c.

Lemma sort_insert_sorted (x : A) (l : list A) :
  StronglySorted R l -> Forall (agrees comparefn R x) l ->
  StronglySorted R (sort_insert comparefn x l).
Proof.
  induction l as [|y l IH]; intros Hs Ha; simpl.
  - repeat constructor.
  - inversion Hs as [|? ? Hs' Hy]; subst.
    inversion Ha as [|? ? Hxy Ha']; subst.
    unfold agrees in Hxy. destruct (before comparefn x y).
    + constructor; [exact Hs|]. constructor; [exact Hxy|].
      eapply Forall_impl; [|exact Hy]. intros z Hz. eapply R_trans; eauto.
    + constructor; [now apply IH|].
      eapply Permutation_Forall; [apply Permutation_sym, sort_insert_perm|].
      constructor; assumption.
Qed.

(** When the comparator agrees with a transitive relation on every pair the
    sort compares, the result is sorted by that relation. *)
Lemma Array_sort_sorted (l : list A) :
  ForallOrdPairs (agrees comparefn R) l -> StronglySorted R (Array_sort comparefn l).
Proof.
  induction 1 as [|x l Hx _ IH]; simpl.
  - constructor.
  - apply sort_insert_sorted; [exact IH|].
    eapply Permutation_Forall; [apply Permutation_sym, Array_sort_perm | exact Hx].
Qed.

End Sorting.

Section Uniqueness.
Context {A : Type}.
Variable R : A -> A -> Prop.
Hypothesis R_asym : forall a b, R a b -> R b a -> False.

(** Two lists with the same elements, both sorted by a strict relation, are
    the same list. *)
Lemma sorted_unique (l1 l2 : list A) :
  Permutation l1 l2 -> StronglySorted R l1 -> StronglySorted R l2 -> l1 = l2.
Proof.
  revert l2. induction l1 as [|a l1 IH]; intros l2 Hp H1 H2.
  - apply Permutation_nil in Hp. now subst.
  - destruct l2 as [|b l2].
    + apply Permutation_sym, Permutation_nil in Hp. discriminate.
    + inversion H1 as [|? ? H1' Ha]; subst.
      inversion H2 as [|? ? H2' Hb]; subst.
      assert (a = b) as ->.
      { assert (In a (b :: l2)) as [Hab|Hin]
          by (eapply Permutation_in; [exact Hp | now left]); [now subst|].
        assert (In b (a :: l1)) as [Hba|Hin']
          by (eapply Permutation_in; [apply Permutation_sym, Hp | now left]); [now subst|].
        rewrite Forall_forall in Ha, Hb.
        exfalso. apply (R_asym a b); auto. }
      f_equal. apply IH; auto. eapply Permutation_cons_inv; eauto.
Qed.

Lemma sorted_snoc (l : list A) (x : A) :
  StronglySorted R l -> Forall (fun y => R y x) l -> StronglySorted R (l ++ [x]).
Proof.
  induction l as [|y l IH]; intros Hs Hx; simpl.
  - repeat constructor.
  - inversion Hs; subst. inversion Hx; subst.
    constructor; [now apply IH|].
    apply Forall_app. split; [assumption | now constructor].
Qed.

Lemma sorted_rev (l : list A) :
  StronglySorted (fun a b => R b a) l -> StronglySorted R (rev l).
Proof.
  induction 1 as [|y l _ IH Hy]; simpl.
  - constructor.
  - apply sorted_snoc; [exact IH|].
    apply Forall_forall. intros z Hz. apply in_rev in Hz.
    rewrite Forall_forall in Hy. auto.
Qed.

Lemma sorted_app_inv (l1 l2 : list A) :
  StronglySorted R (l1 ++ l2) ->
  StronglySorted R l2 /\ forall a b, In a l1 -> In b l2 -> R a b.
Proof.
  induction l1 as [|x l1 IH]; simpl; intros H.
  - split; [exact H | intros ? ? []].
  - inversion H as [|? ? H' Hx]; subst. destruct (IH H') as [Hs Hc].
    split; [exact Hs|]. intros a b [<-|Ha] Hb; [|auto].
    rewrite Forall_forall in Hx. apply Hx, in_or_app. now right.
Qed.

End Uniqueness.

Lemma ForallOrdPairs_filter {A : Type} (P : A -> A -> Prop) (f : A -> bool) (l : list A) :
  ForallOrdPairs P l -> ForallOrdPairs P (filter f l).
Proof.
  induction 1 as [|x l Hx _ IH]; simpl; [constructor|].
  destruct (f x); [|exact IH]. constructor; [|exact IH].
  apply Forall_forall. intros y Hy. apply filter_In in Hy.
  rewrite Forall_forall in Hx. now apply Hx.
Qed.

Lemma ForallOrdPairs_impl {A : Type} (P Q : A -> A -> Prop) (l : list A) :
  ForallOrdPairs P l -> (forall a b, P a b -> Q a b) -> ForallOrdPairs Q l.
Proof.
  intros H HPQ. induction H as [|x l Hx _ IH]; constructor; [|exact IH].
  eapply Forall_impl; [apply HPQ | exact Hx].
Qed.

Lemma Forall_ForallOrdPairs {A : Type} (P : A -> Prop) (Q : A -> A -> Prop) (l : list A) :
  Forall P l -> (forall a b, P a -> P b -> Q a b) -> ForallOrdPairs Q l.
Proof.
  intros H HPQ. induction H as [|x l Hx Hl IH]; constructor; [|exact IH].
  eapply Forall_impl; [intros b; apply HPQ, Hx | exact Hl].
Qed.

Lemma ForallOrdPairs_and {A : Type} (P Q : A -> A -> Prop) (l : list A) :
  ForallOrdPairs P l -> ForallOrdPairs Q l ->
  ForallOrdPairs (fun a b => P a b /\ Q a b) l.
Proof.
  induction 1 as [|x l Hx _ IH]; intros HQ; [constructor|].
  inversion HQ as [|? ? Hx' HQ']; subst. constructor; [|now apply IH].
  rewrite Forall_forall in *. intros y Hy. split; auto.
Qed.

Lemma slice_last_length {A : Type} (n : nat) (l : list A) :
  length (slice_last n l) = Nat.min n (length l).
Proof. unfold slice_last. rewrite length_skipn. lia. Qed.

Lemma slice_last_split {A : Type} (n : nat) (l : list A) :
  l = firstn (length l - n) l ++ slice_last n l.
Proof. unfold slice_last. symmetry. apply firstn_skipn. Qed.

End SortFacts.

(** ** The entry list of the analytics page *)
Module ViewFacts.
Import JS Analytics Spec StringFacts SortFacts.
Local Open Scope list_scope.

Lemma lt_true (a b : number) :
  lt a b = true <-> exists x y, a = Num x /\ b = Num y /\ (x < y)%Q.
Proof.
  destruct a as [|x], b as [|y]; simpl;
    try (split; [discriminate | intros (? & ? & ? & ? & _); discriminate]).
  rewrite negb_true_iff. split.
  - intros H. exists x, y. repeat split.
    apply Qnot_le_lt. intros Hle. apply Qle_bool_iff in Hle. congruence.
  - intros (x' & y' & Hx & Hy & Hlt). inversion Hx; inversion Hy; subst.
    destruct (Qle_bool y' x') eqn:E; [|reflexivity].
    apply Qle_bool_iff in E. exfalso. eapply Qlt_not_le; eauto.
Qed.

Lemma lt_trans (a b c : number) : lt a b = true -> lt b c = true -> lt a c = true.
Proof.
  rewrite !lt_true. intros (x & y & -> & -> & H1) (y' & z & Hy & -> & H2).
  inversion Hy; subst. exists x, z. repeat split. eapply Qlt_trans; eauto.
Qed.

Lemma lt_asym (a b : number) : lt a b = true -> lt b a = true -> False.
Proof.
  rewrite !lt_true. intros (x & y & -> & -> & H1) (y' & x' & Hy & Hx & H2).
  inversion Hy; inversion Hx; subst.
  apply (Qlt_irrefl x'). eapply Qlt_trans; eauto.
Qed.

Section WithDates.
Context {dates : DatePlatform}.


Lemma matches_empty (e : DreamEntry) : matches EmptyString e = true.
Proof. unfold matches. simpl. now rewrite includes_empty. Qed.

Lemma filter_matches_empty (entries : list DreamEntry) :
  filter (matches EmptyString) entries = entries.
Proof.
  induction entries as [|e l IH]; simpl; [reflexivity|].
  now rewrite matches_empty, IH.
Qed.

Lemma view_perm_filter entries q key order :
  Permutation (filteredAndSortedEntries entries q key order)
              (filter (matches q) entries).
Proof. apply Array_sort_perm. Qed.



(** C5.  With the empty query the view is a rearrangement of the entries:
    the same entries, as many times each, and as many in all. *)
Theorem view_empty_query_permutation
    (entries : list DreamEntry) (key : SortField) (order : SortOrder) :
  Permutation (filteredAndSortedEntries entries EmptyString key order) entries
  /\ length (filteredAndSortedEntries entries EmptyString key order) = length entries.
Proof.
  assert (Permutation (filteredAndSortedEntries entries EmptyString key order) entries) as Hp.
  { unfold filteredAndSortedEntries. rewrite filter_matches_empty.
    apply Array_sort_perm. }
  split; [exact Hp | now apply Permutation_length].
Qed.

End WithDates.
End ViewFacts.

(** ** The sort toggle *)
Module ToggleFacts.
Import JS Analytics Spec StringFacts SortFacts ViewFacts.
Local Open Scope list_scope.

Lemma SortField_eqb_eq (a b : SortField) : SortField_eqb a b = true <-> a = b.
Proof. destruct a, b; simpl; split; intros H; try reflexivity; discriminate. Qed.

Lemma SortField_eqb_refl (a : SortField) : SortField_eqb a a = true.
Proof. now apply SortField_eqb_eq. Qed.

Lemma toggleSort_same (st : SortState) :
  toggleSort (sortBy st) st =
  {| sortBy := sortBy st; sortOrder := opposite (sortOrder st) |}.
Proof. unfold toggleSort. rewrite SortField_eqb_refl. now destruct (sortOrder st). Qed.

Lemma toggleSort_other (field : SortField) (st : SortState) :
  field <> sortBy st -> toggleSort field st = {| sortBy := field; sortOrder := desc |}.
Proof.
  intros Hne. unfold toggleSort.
  destruct (SortField_eqb (sortBy st) field) eqn:E; [|reflexivity].
  apply SortField_eqb_eq in E. congruence.
Qed.

Lemma toggleSort_twice (st : SortState) :
  toggleSort (sortBy st) (toggleSort (sortBy st) st) = st.
Proof.
  rewrite (toggleSort_same st). unfold toggleSort. simpl.
  rewrite SortField_eqb_refl. destruct st as [k []]; reflexivity.
Qed.

Section WithDates.
Context {dates : DatePlatform}.

Lemma before_asc key (x y : DreamEntry) :
  before (compare_entries key asc) x y = negb (lt (sort_value key y) (sort_value key x)).
Proof.
  unfold before, SortCompare, compare_entries, gt.
  now destruct (lt (sort_value key y) (sort_value key x)).
Qed.

Lemma before_desc key (x y : DreamEntry) :
  before (compare_entries key desc) x y = negb (lt (sort_value key x) (sort_value key y)).
Proof.
  unfold before, SortCompare, compare_entries.
  now destruct (lt (sort_value key x) (sort_value key y)).
Qed.

(** On a tie-free list the ascending sort is strictly increasing on the key. *)
Lemma sort_asc_sorted key (l : list DreamEntry) :
  tie_free key l ->
  StronglySorted (below key) (Array_sort (compare_entries key asc) l).
Proof.
  intros Ht. apply Array_sort_sorted.
  - intros a b c. apply lt_trans.
  - eapply ForallOrdPairs_impl; [exact Ht|]. clear. intros x y Hxy.
    unfold agrees, below in *. rewrite before_asc.
    destruct (lt (sort_value key y) (sort_value key x)); simpl; [reflexivity|].
    destruct Hxy as [H|H]; [exact H | discriminate].
Qed.

(** On a tie-free list the descending sort is strictly decreasing on the key. *)
Lemma sort_desc_sorted key (l : list DreamEntry) :
  tie_free key l ->
  StronglySorted (fun a b => below key b a) (Array_sort (compare_entries key desc) l).
Proof.
  intros Ht. apply Array_sort_sorted.
  - intros a b c H1 H2. unfold below in *. eapply lt_trans; eauto.
  - eapply ForallOrdPairs_impl; [exact Ht|]. clear. intros x y Hxy.
    unfold agrees, below in *. rewrite before_desc.
    destruct (lt (sort_value key x) (sort_value key y)); simpl; [reflexivity|].
    destruct Hxy as [H|H]; [discriminate | exact H].
Qed.

(** On a tie-free list the two orders are the reverse of each other. *)
Lemma sort_asc_rev_desc key (l : list DreamEntry) :
  tie_free key l ->
  Array_sort (compare_entries key asc) l = rev (Array_sort (compare_entries key desc) l).
Proof.
  intros Ht. apply (sorted_unique (below key)).
  - intros a b. apply lt_asym.
  - eapply perm_trans; [apply Array_sort_perm|].
    eapply perm_trans; [apply Permutation_sym, Array_sort_perm|].
    apply Permutation_rev.
  - now apply sort_asc_sorted.
  - apply sorted_rev. now apply sort_desc_sorted.
Qed.

Lemma displayed_opposite entries q key order :
  tie_free key entries ->
  filteredAndSortedEntries entries q key (opposite order) =
  rev (filteredAndSortedEntries entries q key order).
Proof.
  intros Ht. unfold filteredAndSortedEntries.
  assert (tie_free key (filter (matches q) entries)) as Hf
    by now apply ForallOrdPairs_filter.
  destruct order; simpl.
  - rewrite (sort_asc_rev_desc key _ Hf). now rewrite rev_involutive.
  - now apply sort_asc_rev_desc.
Qed.

(** C6.  A press on the active sort control keeps the key and flips the
    order; a press on another control selects that key in descending order;
    on a list without ties one press reverses the displayed list and a second
    press on the same control brings back the original display. *)
Theorem toggleSort_flips_or_resets
    (st : SortState) (field : SortField) (entries : list DreamEntry) (q : string) :
  let once := toggleSort (sortBy st) st in
  let twice := toggleSort (sortBy st) once in
  (sortBy once = sortBy st /\ sortOrder once = opposite (sortOrder st))
  /\ (field <> sortBy st ->
      sortBy (toggleSort field st) = field /\ sortOrder (toggleSort field st) = desc)
  /\ (tie_free (sortBy st) entries ->
      displayed entries q once = rev (displayed entries q st)
      /\ displayed entries q twice = displayed entries q st).
Proof.
  cbv zeta. split; [|split].
  - rewrite toggleSort_same. now split.
  - intros Hne. rewrite (toggleSort_other field st Hne). now split.
  - intros Ht. rewrite toggleSort_twice. split; [|reflexivity].
    rewrite toggleSort_same. unfold displayed. simpl.
    now apply displayed_opposite.
Qed.

End WithDates.
End ToggleFacts.

(** ** The chart window *)
Module ChartFacts.
Import JS Analytics Spec SortFacts ViewFacts.
Local Open Scope list_scope.

Section WithDates.
Context {dates : DatePlatform}.

Lemma not_later_trans (a b c : DreamEntry) :
  not_later a b -> not_later b c -> not_later a c.
Proof.
  intros (ta & tb & Ha & Hb & H1) (tb' & tc & Hb' & Hc & H2).
  rewrite Hb in Hb'. inversion Hb'; subst.
  exists ta, tc. repeat split; auto. eapply Qle_trans; eauto.
Qed.

Lemma earlier_trans (a b c : DreamEntry) :
  earlier a b -> earlier b c -> earlier a c.
Proof.
  intros (ta & tb & Ha & Hb & H1) (tb' & tc & Hb' & Hc & H2).
  rewrite Hb in Hb'. inversion Hb'; subst.
  exists ta, tc. repeat split; auto. eapply Qlt_trans; eauto.
Qed.

Lemma before_times (x y : DreamEntry) (tx ty : Q) :
  created_time x = Num tx -> created_time y = Num ty ->
  before compare_times x y = Qle_bool tx ty.
Proof.
  intros Hx Hy. unfold before, SortCompare, compare_times. rewrite Hx, Hy. simpl.
  destruct (Qle_bool tx ty) eqn:E.
  - apply Qle_bool_iff. apply Qle_bool_iff in E. lra.
  - destruct (Qle_bool (tx - ty) 0) eqn:E'; [|reflexivity].
    apply Qle_bool_iff in E'.
    assert (Qle_bool tx ty = true) by (apply Qle_bool_iff; lra). congruence.
Qed.

(** The chart's comparator orders dated entries by time. *)
Lemma compare_times_agrees_not_later (x y : DreamEntry) :
  dated x -> dated y -> agrees compare_times not_later x y.
Proof.
  intros [tx Hx] [ty Hy]. unfold agrees. rewrite (before_times x y tx ty Hx Hy).
  destruct (Qle_bool tx ty) eqn:E.
  - apply Qle_bool_iff in E. now exists tx, ty.
  - exists ty, tx. repeat split; auto.
    apply Qlt_le_weak, Qnot_le_lt. intros H. apply Qle_bool_iff in H. congruence.
Qed.

Lemma compare_times_agrees_earlier (x y : DreamEntry) :
  earlier x y \/ earlier y x -> agrees compare_times earlier x y.
Proof.
  intros H. unfold agrees.
  assert (exists tx ty, created_time x = Num tx /\ created_time y = Num ty
                        /\ (tx < ty \/ ty < tx)%Q) as (tx & ty & Hx & Hy & Hd).
  { destruct H as [(tx & ty & Hx & Hy & Hlt)|(ty & tx & Hy & Hx & Hlt)];
      exists tx, ty; auto. }
  rewrite (before_times x y tx ty Hx Hy).
  destruct (Qle_bool tx ty) eqn:E.
  - apply Qle_bool_iff in E. exists tx, ty. repeat split; auto.
    destruct Hd as [Hd|Hd]; [exact Hd | lra].
  - exists ty, tx. repeat split; auto.
    apply Qnot_le_lt. intros Hle. apply Qle_bool_iff in Hle. congruence.
Qed.

Lemma sort_times_sorted (entries : list DreamEntry) :
  Forall dated entries ->
  StronglySorted not_later (Array_sort compare_times entries).
Proof.
  intros Hd. apply Array_sort_sorted; [exact not_later_trans|].
  eapply Forall_ForallOrdPairs; [exact Hd|].
  intros a b. apply compare_times_agrees_not_later.
Qed.

Lemma sort_times_strictly_sorted (entries : list DreamEntry) :
  chronologically_distinct entries ->
  StronglySorted earlier (Array_sort compare_times entries).
Proof.
  intros Hd. apply Array_sort_sorted; [exact earlier_trans|].
  eapply ForallOrdPairs_impl; [exact Hd|].
  intros a b. apply compare_times_agrees_earlier.
Qed.

Lemma map_chart_point_shows (l : list DreamEntry) :
  Forall2 shows l (map chart_point l).
Proof.
  induction l as [|e l IH]; simpl; constructor; [|exact IH].
  unfold shows, chart_point, short_date. simpl. repeat split.
Qed.

(** C4.  The chart shows a window of the entries: the window has at most 7
    entries (all of them when there are fewer), and each point carries the
    short month-and-day label of its entry's creation time and its four
    metrics.  When every entry carries a readable creation time the window is
    in ascending order of time and no entry left out is later than an entry
    of the window.  When the creation times are pairwise distinct the order
    is strict and the entries left out are strictly earlier; of 10 such
    entries the chart shows exactly 7 and leaves out the 3 earliest. *)
Theorem chartData_recent_window (entries : list DreamEntry) :
  exists older window,
    Permutation entries (older ++ window)
    /\ Forall2 shows window (chartData entries)
    /\ length window = Nat.min 7 (length entries)
    /\ (Forall dated entries ->
        StronglySorted not_later window
        /\ (forall a b, In a older -> In b window -> not_later a b))
    /\ (chronologically_distinct entries ->
        StronglySorted earlier window
        /\ (forall a b, In a older -> In b window -> earlier a b)
        /\ (length entries = 10%nat -> length window = 7%nat /\ length older = 3%nat)).
Proof.
  set (sorted := Array_sort compare_times entries).
  exists (firstn (length sorted - 7) sorted), (slice_last 7 sorted).
  assert (length sorted = length entries) as Hlen by apply Array_sort_length.
  split; [|split; [|split; [|split]]].
  - rewrite <- slice_last_split. apply Permutation_sym, Array_sort_perm.
  - apply map_chart_point_shows.
  - rewrite slice_last_length. now rewrite Hlen.
  - intros Hd.
    assert (StronglySorted not_later sorted) as Hs by now apply sort_times_sorted.
    rewrite (slice_last_split 7 sorted) in Hs.
    exact (sorted_app_inv not_later _ _ Hs).
  - intros Hc.
    assert (StronglySorted earlier sorted) as Hs by now apply sort_times_strictly_sorted.
    rewrite (slice_last_split 7 sorted) in Hs.
    destruct (sorted_app_inv earlier _ _ Hs) as [Hw Hcut].
    split; [exact Hw|]. split; [exact Hcut|].
    intros H10. rewrite slice_last_length, length_firstn, Hlen, H10. now split.
Qed.

End WithDates.
End ChartFacts.

(** ** Decimal digits, [toFixed] and [parseFloat] *)
Module NumberFacts.
Import JS.
Local Open Scope Z_scope.

Lemma digit_cases (d : Z) :
  0 <= d < 10 ->
  d = 0 \/ d = 1 \/ d = 2 \/ d = 3 \/ d = 4 \/ d = 5 \/ d = 6 \/ d = 7 \/ d = 8 \/ d = 9.
Proof. lia. Qed.

Ltac each_digit d H :=
  destruct (digit_cases d H) as [->|[->|[->|[->|[->|[->|[->|[->|[->| ->]]]]]]]]].

Lemma digit_value_char (d : Z) : 0 <= d < 10 -> digit_value (digit_char d) = Some d.
Proof. intros H. each_digit d H; reflexivity. Qed.

Lemma digit_char_not_space (d : Z) : 0 <= d < 10 -> is_space (digit_char d) = false.
Proof. intros H. each_digit d H; reflexivity. Qed.

Lemma append_assoc (a b c : string) : ((a ++ b) ++ c = a ++ (b ++ c))%string.
Proof. induction a as [|x a IH]; simpl; [reflexivity | now rewrite IH]. Qed.

Lemma pad_digits_app (k : nat) (n : Z) (acc : string) :
  pad_digits k n acc = (pad_digits k n EmptyString ++ acc)%string.
Proof.
  revert n acc. induction k as [|k IH]; intros n acc; simpl; [reflexivity|].
  rewrite IH. rewrite (IH _ (String _ EmptyString)). now rewrite append_assoc.
Qed.

Lemma pad_digits_head (k : nat) (n : Z) (acc : string) :
  exists d r, 0 <= d < 10 /\ pad_digits (S k) n acc = String (digit_char d) r.
Proof.
  revert n acc. induction k as [|k IH]; intros n acc.
  - exists (n mod 10), acc. split; [apply Z.mod_pos_bound; lia | reflexivity].
  - change (pad_digits (S (S k)) n acc)
      with (pad_digits (S k) (n / 10) (String (digit_char (n mod 10)) acc)).
    apply IH.
Qed.

Lemma mod_pow10_step (n : Z) (k : nat) :
  n mod 10 ^ Z.of_nat (S k) = 10 * ((n / 10) mod 10 ^ Z.of_nat k) + n mod 10.
Proof.
  rewrite Nat2Z.inj_succ, Z.pow_succ_r by lia.
  rewrite Z.rem_mul_r by (try lia; apply Z.pow_pos_nonneg; lia). lia.
Qed.

(** Reading back [k] written digits adds them to the number being read. *)
Lemma parse_digits_pad (k : nat) (n a : Z) (c : nat) (rest : string) :
  parse_digits a c (pad_digits k n rest)
  = parse_digits (a * 10 ^ Z.of_nat k + n mod 10 ^ Z.of_nat k) (c + k) rest.
Proof.
  revert n a c rest. induction k as [|k IH]; intros n a c rest.
  - simpl. rewrite Z.mod_1_r, Nat.add_0_r. f_equal. lia.
  - cbn [pad_digits]. rewrite IH. cbn [parse_digits].
    rewrite digit_value_char by (apply Z.mod_pos_bound; lia).
    rewrite mod_pow10_step.
    rewrite Nat2Z.inj_succ, Z.pow_succ_r by lia.
    f_equal; [ring | lia].
Qed.

Lemma count_digits_pos (fuel : nat) (n : Z) : (1 <= count_digits fuel n)%nat.
Proof. destruct fuel; simpl; [lia|]. destruct (n <? 10); lia. Qed.

Lemma count_digits_bound (fuel : nat) (n : Z) :
  0 <= n < 2 ^ (Z.of_nat fuel + 1) -> n < 10 ^ Z.of_nat (count_digits fuel n).
Proof.
  revert n. induction fuel as [|fuel IH]; intros n Hn.
  - simpl in *. lia.
  - cbn [count_digits]. destruct (Z.ltb_spec n 10) as [Hlt|Hge]; [simpl; lia|].
    rewrite Nat2Z.inj_succ, Z.pow_succ_r by lia.
    assert (n / 10 < 10 ^ Z.of_nat (count_digits fuel (n / 10))) as Hrec.
    { apply IH. split; [apply Z.div_pos; lia|].
      apply Z.div_lt_upper_bound; [lia|].
      replace (Z.of_nat (S fuel) + 1) with (Z.succ (Z.of_nat fuel + 1)) in Hn by lia.
      rewrite Z.pow_succ_r in Hn by lia. lia. }
    pose proof (Z.mul_succ_div_gt n 10). lia.
Qed.

Lemma Z_digits_bound (n : Z) :
  0 <= n -> n < 10 ^ Z.of_nat (count_digits (Z.to_nat (Z.log2 n)) n).
Proof.
  intros Hn. apply count_digits_bound. split; [exact Hn|].
  destruct (Z.eq_dec n 0) as [->|Hne]; [simpl; lia|].
  rewrite Z2Nat.id by apply Z.log2_nonneg.
  replace (Z.log2 n + 1) with (Z.succ (Z.log2 n)) by lia.
  apply Z.log2_spec. lia.
Qed.

(** Reading back a written integer, whatever follows it. *)
Lemma parse_digits_Z_digits (n a : Z) (c : nat) (rest : string) :
  0 <= n ->
  exists k, (1 <= k)%nat /\
    parse_digits a c (Z_digits n ++ rest)%string
    = parse_digits (a * 10 ^ Z.of_nat k + n) (c + k) rest.
Proof.
  intros Hn. exists (count_digits (Z.to_nat (Z.log2 n)) n).
  split; [apply count_digits_pos|].
  unfold Z_digits. rewrite <- pad_digits_app, parse_digits_pad.
  rewrite Z.mod_small; [reflexivity|]. split; [exact Hn | now apply Z_digits_bound].
Qed.

Lemma Z_digits_head (n : Z) :
  exists d r, 0 <= d < 10 /\ Z_digits n = String (digit_char d) r.
Proof.
  unfold Z_digits.
  pose proof (count_digits_pos (Z.to_nat (Z.log2 n)) n) as Hk.
  destruct (count_digits (Z.to_nat (Z.log2 n)) n) as [|k]; [lia|].
  apply pad_digits_head.
Qed.

Lemma parse_digits_stop (a : Z) (c : nat) (x : ascii) (rest : string) :
  digit_value x = None -> parse_digits a c (String x rest) = (a, c, String x rest).
Proof. intros H. simpl. now rewrite H. Qed.

End NumberFacts.

(** ** Rounding to a fixed number of decimals *)
Module FixedFacts.
Import JS Spec NumberFacts.
Local Open Scope Q_scope.

Lemma magnitude_nonneg (x : Q) : 0 <= magnitude x.
Proof.
  unfold magnitude. destruct (Qle_bool 0 x) eqn:E; simpl.
  - now apply Qle_bool_iff.
  - assert (~ 0 <= x) by (intros H; apply Qle_bool_iff in H; congruence). lra.
Qed.

Lemma pow10_pos (f : nat) : (0 < 10 ^ Z.of_nat f)%Z.
Proof. apply Z.pow_pos_nonneg; lia. Qed.

Lemma units_nonneg (x : Q) (f : nat) : (0 <= units x f)%Z.
Proof.
  unfold units. rewrite <- (Qfloor_Z 0). apply Qfloor_resp_le.
  pose proof (magnitude_nonneg x) as Hm.
  assert (0 <= inject_Z (10 ^ Z.of_nat f)) as Hp.
  { change 0 with (inject_Z 0). rewrite <- Zle_Qle. pose proof (pow10_pos f). lia. }
  pose proof (Qmult_le_0_compat _ _ Hm Hp) as Hmp. change (inject_Z 0) with 0.
  set (mp := magnitude x * inject_Z (10 ^ Z.of_nat f)) in *. lra.
Qed.

Lemma toFixed_unfold (x : Q) (f : nat) :
  toFixed x (S f) =
  ((if negb (Qle_bool 0 x) then "-" else EmptyString)
   ++ Z_digits (units x (S f) / 10 ^ Z.of_nat (S f))
   ++ "." ++ pad_digits (S f) (units x (S f)) EmptyString)%string.
Proof. unfold toFixed, units, magnitude. now destruct (negb (Qle_bool 0 x)). Qed.

Lemma toFixed_comp (x y : Q) (f : nat) : x == y -> toFixed x f = toFixed y f.
Proof.
  intros H. unfold toFixed.
  rewrite (Qleb_comp 0 0 (Qeq_refl 0) x y H).
  destruct (negb (Qle_bool 0 y)).
  - rewrite (Qfloor_comp (- x * inject_Z (10 ^ Z.of_nat f) + (1 # 2))
                         (- y * inject_Z (10 ^ Z.of_nat f) + (1 # 2)))
      by (rewrite H; reflexivity).
    reflexivity.
  - rewrite (Qfloor_comp (x * inject_Z (10 ^ Z.of_nat f) + (1 # 2))
                         (y * inject_Z (10 ^ Z.of_nat f) + (1 # 2)))
      by (rewrite H; reflexivity).
    reflexivity.
Qed.

Lemma unsigned_literal_fixed (ip n : Z) (f : nat) :
  (0 <= ip)%Z ->
  unsigned_literal (Z_digits ip ++ "." ++ pad_digits (S f) n EmptyString)%string
  = Num (inject_Z ip
         + inject_Z (n mod 10 ^ Z.of_nat (S f)) / inject_Z (10 ^ Z.of_nat (S f))).
Proof.
  intros Hip. unfold unsigned_literal.
  destruct (parse_digits_Z_digits ip 0 0
              ("." ++ pad_digits (S f) n EmptyString)%string Hip) as (k & Hk & E).
  rewrite E. cbn [append].
  rewrite parse_digits_stop by reflexivity.
  rewrite parse_digits_pad. cbn [parse_digits].
  replace (0 * 10 ^ Z.of_nat k + ip)%Z with ip by lia.
  replace (0 * 10 ^ Z.of_nat (S f) + n mod 10 ^ Z.of_nat (S f))%Z
    with (n mod 10 ^ Z.of_nat (S f))%Z by lia.
  replace (0 + k + (0 + S f))%nat with (S (k + f)) by lia.
  reflexivity.
Qed.

Lemma parseFloat_digit_head (d : Z) (r : string) :
  (0 <= d < 10)%Z ->
  parseFloat (String (digit_char d) r) = unsigned_literal (String (digit_char d) r).
Proof.
  intros H. unfold parseFloat. cbn [trimStart].
  rewrite digit_char_not_space by exact H.
  each_digit d H; reflexivity.
Qed.

Lemma parseFloat_Z_digits (n : Z) (rest : string) :
  parseFloat (Z_digits n ++ rest) = unsigned_literal (Z_digits n ++ rest).
Proof.
  destruct (Z_digits_head n) as (d & r & Hd & E).
  rewrite E. cbn [append]. now apply parseFloat_digit_head.
Qed.

(** What [parseFloat] reads in what [toFixed] wrote. *)
Lemma parseFloat_toFixed (x : Q) (f : nat) :
  let n := units x (S f) in
  let p := (10 ^ Z.of_nat (S f))%Z in
  let v := inject_Z (n / p) + inject_Z (n mod p) / inject_Z p in
  parseFloat (toFixed x (S f)) = Num (if negb (Qle_bool 0 x) then - v else v).
Proof.
  cbv zeta. rewrite toFixed_unfold.
  assert (0 <= units x (S f) / 10 ^ Z.of_nat (S f))%Z as Hip.
  { apply Z.div_pos; [apply units_nonneg | apply pow10_pos]. }
  destruct (negb (Qle_bool 0 x)).
  - change (parseFloat ("-" ++ ?s)) with (neg (unsigned_literal s)).
    now rewrite unsigned_literal_fixed.
  - change (EmptyString ++ ?s)%string with s.
    rewrite parseFloat_Z_digits. now rewrite unsigned_literal_fixed.
Qed.

Lemma units_near (x : Q) :
  Qabs (magnitude x - inject_Z (units x 1) / 10) <= 1 # 20.
Proof.
  unfold units. change (inject_Z (10 ^ Z.of_nat 1)) with 10.
  pose proof (Qfloor_le (magnitude x * 10 + (1 # 2))) as H1.
  pose proof (Qlt_floor (magnitude x * 10 + (1 # 2))) as H2.
  rewrite inject_Z_plus in H2. change (inject_Z 1) with 1 in H2.
  set (z := inject_Z (Qfloor (magnitude x * 10 + (1 # 2)))) in *.
  apply Qabs_Qle_condition. unfold Qdiv. change (/ 10) with (1 # 10).
  split; lra.
Qed.

Lemma split_units (n : Z) :
  inject_Z (n / 10) + inject_Z (n mod 10) / 10 == inject_Z n / 10.
Proof.
  rewrite (Z.div_mod n 10) at 3 by lia.
  rewrite inject_Z_plus, inject_Z_mult. change (inject_Z 10) with 10. field.
Qed.

(** The text [toFixed] gives for one decimal displays the number rounded to
    one decimal place. *)
Lemma toFixed_displays_rounded (x : Q) : displays_rounded x (toFixed x 1).
Proof.
  split.
  - rewrite toFixed_unfold. unfold one_fraction_digit.
    exists ((if negb (Qle_bool 0 x) then "-" else EmptyString)
            ++ Z_digits (units x 1 / 10 ^ Z.of_nat 1))%string, (units x 1 mod 10)%Z.
    split; [apply Z.mod_pos_bound; lia|].
    cbn [pad_digits]. now rewrite append_assoc.
  - pose proof (parseFloat_toFixed x 0) as E. cbv zeta in E.
    change (10 ^ Z.of_nat 1)%Z with 10%Z in E. change (inject_Z 10) with 10 in E.
    eexists. split; [exact E|].
    pose proof (units_near x) as Hn. pose proof (split_units (units x 1)) as Hs.
    unfold magnitude in Hn. destruct (negb (Qle_bool 0 x)).
    + split.
      * exists (- units x 1)%Z. rewrite Hs, inject_Z_opp. field.
      * rewrite Hs. apply Qabs_Qle_condition. apply Qabs_Qle_condition in Hn. lra.
    + split.
      * exists (units x 1). exact Hs.
      * rewrite Hs. exact Hn.
Qed.

End FixedFacts.

(** ** Statistics and suggestion *)
Module StatsFacts.
Import JS Analytics Spec NumberFacts FixedFacts.
Local Open Scope Q_scope.

Lemma fold_left_sum (f : DreamEntry -> Q) (l : list DreamEntry) (a : Q) :
  fold_left (fun sum e => sum + f e) l a == a + fold_right Qplus 0 (map f l).
Proof.
  revert a. induction l as [|e l IH]; intros a; simpl.
  - ring.
  - rewrite IH. ring.
Qed.

(** The mean the page computes is the arithmetic mean. *)
Lemma average_mean (f : DreamEntry -> Q) (l : list DreamEntry) :
  average f l == mean f l.
Proof.
  unfold average, mean, reduce_sum. rewrite fold_left_sum.
  unfold Qdiv. ring.
Qed.

Lemma average_displayed (f : DreamEntry -> Q) (l : list DreamEntry) :
  displays_rounded (mean f l) (toFixed (average f l) 1).
Proof.
  rewrite (toFixed_comp _ _ 1 (average_mean f l)).
  apply toFixed_displays_rounded.
Qed.

(** C2.  The statistics are absent for the empty list; for any other list
    they hold the number of entries and, for each of the four metrics, a text
    with one digit after the point that reads as the arithmetic mean of the
    metric rounded to one decimal place. *)
Theorem stats_absent_or_rounded_means :
  stats [] = None
  /\ forall entries, entries <> [] ->
       exists st,
         stats entries = Some st
         /\ total st = length entries
         /\ displays_rounded (mean sleep_quality entries) (avgQuality st)
         /\ displays_rounded (mean sleep_hours entries) (avgSleep st)
         /\ displays_rounded (mean caffeine_intake entries) (avgCaffeine st)
         /\ displays_rounded (mean stress_level entries) (avgStress st).
Proof.
  split; [reflexivity|].
  intros [|e l] Hne; [congruence|].
  eexists. split; [reflexivity|]. cbn [total avgQuality avgSleep avgCaffeine avgStress].
  split; [reflexivity|].
  repeat apply conj; apply average_displayed.
Qed.

Lemma join_spaced (msgs : list string) : join " " msgs = spaced msgs.
Proof.
  unfold join. induction msgs as [|m rest IH]; [reflexivity|].
  destruct rest as [|m' rest]; [reflexivity|].
  change (String.concat " " (m :: m' :: rest))
    with (m ++ " " ++ String.concat " " (m' :: rest))%string.
  change (spaced (m :: m' :: rest)) with (m ++ " " ++ spaced (m' :: rest))%string.
  congruence.
Qed.

Lemma rules_triggered (hours caffeine stress quality : Q) :
  push_if (lt (Num quality) (Num 6)) msg_quality
    (push_if (gt (Num stress) (Num 6)) msg_stress
       (push_if (gt (Num caffeine) (Num 2)) msg_caffeine
          (push_if (lt (Num hours) (Num 7)) msg_sleep [])))
  = triggered hours caffeine stress quality.
Proof.
  unfold triggered, push_if, gt, lt.
  destruct (Qle_bool 7 hours), (Qle_bool caffeine 2), (Qle_bool stress 6),
    (Qle_bool 6 quality); reflexivity.
Qed.

(** *** Where the rules fall on the means themselves *)

Lemma floor_ge_int (y : Q) (k : Z) : (k <= Qfloor y)%Z <-> inject_Z k <= y.
Proof.
  split; intros H.
  - eapply Qle_trans; [|apply Qfloor_le]. now rewrite <- Zle_Qle.
  - rewrite <- (Qfloor_Z k). now apply Qfloor_resp_le.
Qed.

Lemma Qle_bool_eq (a b c d : Q) : (a <= b <-> c <= d) -> Qle_bool a b = Qle_bool c d.
Proof.
  intros H. destruct (Qle_bool a b) eqn:E1, (Qle_bool c d) eqn:E2; try reflexivity.
  - apply Qle_bool_iff in E1. apply H in E1. apply Qle_bool_iff in E1. congruence.
  - apply Qle_bool_iff in E2. apply H in E2. apply Qle_bool_iff in E2. congruence.
Qed.

Lemma Qle_bool_negb (a b c d : Q) :
  (a <= b <-> ~ c <= d) -> Qle_bool a b = negb (Qle_bool c d).
Proof.
  intros H. destruct (Qle_bool a b) eqn:E1, (Qle_bool c d) eqn:E2; try reflexivity.
  - apply Qle_bool_iff in E1, E2. apply H in E1. contradiction.
  - assert (~ c <= d) as Hn by (intros Hc; apply Qle_bool_iff in Hc; congruence).
    apply H in Hn. apply Qle_bool_iff in Hn. congruence.
Qed.

Lemma units_ge (x : Q) (k : Z) :
  inject_Z k <= inject_Z (units x 1) <-> inject_Z k <= magnitude x * 10 + (1 # 2).
Proof.
  rewrite <- Zle_Qle. unfold units. change (inject_Z (10 ^ Z.of_nat 1)) with 10.
  apply floor_ge_int.
Qed.

(** The value read in the text of a rounded number, against a whole number
    [t]: it reaches [t >= 1] when the number reaches [t - 1/20], and it
    exceeds [t >= 0] when the number reaches [t + 1/20]. *)
Lemma rounded_against_int (x r : Q) (t : Z) :
  parseFloat (toFixed x 1) = Num r ->
  ((1 <= t)%Z -> Qle_bool (inject_Z t) r = Qle_bool (inject_Z t - (1 # 20)) x)
  /\ ((0 <= t)%Z -> Qle_bool r (inject_Z t) = negb (Qle_bool (inject_Z t + (1 # 20)) x)).
Proof.
  intros E. pose proof (parseFloat_toFixed x 0) as E'. cbv zeta in E'.
  change (10 ^ Z.of_nat 1)%Z with 10%Z in E'. change (inject_Z 10) with 10 in E'.
  rewrite E in E'. injection E' as Hr. subst r. clear E.
  pose proof (split_units (units x 1)) as Hs.
  pose proof (units_nonneg x 1) as Hn.
  rewrite Zle_Qle in Hn. change (inject_Z 0) with 0 in Hn.
  pose proof (units_ge x (10 * t)) as Hlo.
  pose proof (units_ge x (10 * t + 1)) as Hhi.
  assert (inject_Z (units x 1) <= inject_Z (10 * t)
          \/ inject_Z (10 * t + 1) <= inject_Z (units x 1)) as Hcases.
  { rewrite <- !Zle_Qle. lia. }
  rewrite inject_Z_mult in Hlo. rewrite inject_Z_plus, inject_Z_mult in Hhi.
  rewrite inject_Z_plus, inject_Z_mult in Hcases.
  change (inject_Z 10) with 10 in *. change (inject_Z 1) with 1 in *.
  set (n := inject_Z (units x 1)) in *. set (q := inject_Z t) in *.
  set (v := inject_Z (units x 1 / 10) + inject_Z (units x 1 mod 10) / 10) in *.
  assert (v == n * (1 # 10)) as Hv by (rewrite Hs; unfold Qdiv; reflexivity).
  clearbody n v. clear Hs.
  unfold magnitude in Hlo, Hhi.
  destruct (Qle_bool 0 x) eqn:E0; cbn [negb] in *.
  - apply Qle_bool_iff in E0. split; intros Ht.
    + apply Qle_bool_eq. split; intros H.
      * assert (10 * q <= n) as H' by lra. apply Hlo in H'. lra.
      * assert (10 * q <= x * 10 + (1 # 2)) as H' by lra. apply Hlo in H'. lra.
    + apply Qle_bool_negb. split.
      * intros H Hc. assert (10 * q + 1 <= x * 10 + (1 # 2)) as H' by lra.
        apply Hhi in H'. lra.
      * intros H. destruct Hcases as [Hc|Hc]; [lra|].
        apply Hhi in Hc. exfalso. apply H. lra.
  - assert (x < 0) as Hx.
    { apply Qnot_le_lt. intros H. apply Qle_bool_iff in H. congruence. }
    split; intros Ht.
    + assert (1 <= q) as Ht'
        by (unfold q; change 1 with (inject_Z 1); now rewrite <- Zle_Qle).
      apply Qle_bool_eq. split; intros H; lra.
    + assert (0 <= q) as Ht'
        by (unfold q; change 0 with (inject_Z 0); now rewrite <- Zle_Qle).
      apply Qle_bool_negb. split; [intros _ Hc; lra | intros _; lra].
Qed.

(** On the means themselves, the rules of the page trigger from 6.95 hours
    down, 2.05 cups up, a stress of 6.05 up and a quality of 5.95 down. *)
Lemma getSuggestion_thresholds (entries : list DreamEntry) :
  entries <> [] ->
  getSuggestion entries
  = suggestion_of (triggered_after_rounding
                     (mean sleep_hours entries) (mean caffeine_intake entries)
                     (mean stress_level entries) (mean sleep_quality entries)).
Proof.
  destruct entries as [|e l]; [congruence|]. intros _.
  destruct (average_displayed sleep_hours (e :: l)) as [_ (hours & Eh & _)].
  destruct (average_displayed caffeine_intake (e :: l)) as [_ (caffeine & Ec & _)].
  destruct (average_displayed stress_level (e :: l)) as [_ (stress & Es & _)].
  destruct (average_displayed sleep_quality (e :: l)) as [_ (quality & Eq & _)].
  unfold getSuggestion. cbn [stats avgQuality avgSleep avgCaffeine avgStress].
  rewrite Eh, Ec, Es, Eq, rules_triggered.
  rewrite (toFixed_comp _ _ 1 (average_mean sleep_hours (e :: l))) in Eh.
  rewrite (toFixed_comp _ _ 1 (average_mean caffeine_intake (e :: l))) in Ec.
  rewrite (toFixed_comp _ _ 1 (average_mean stress_level (e :: l))) in Es.
  rewrite (toFixed_comp _ _ 1 (average_mean sleep_quality (e :: l))) in Eq.
  destruct (rounded_against_int _ _ 7 Eh) as [H7 _].
  destruct (rounded_against_int _ _ 2 Ec) as [_ H2].
  destruct (rounded_against_int _ _ 6 Es) as [_ H6s].
  destruct (rounded_against_int _ _ 6 Eq) as [H6q _].
  specialize (H7 ltac:(lia)). specialize (H2 ltac:(lia)).
  specialize (H6s ltac:(lia)). specialize (H6q ltac:(lia)).
  change (inject_Z 7) with 7 in H7. change (inject_Z 2) with 2 in H2.
  change (inject_Z 6) with 6 in H6s, H6q.
  assert (triggered hours caffeine stress quality
          = triggered_after_rounding
              (mean sleep_hours (e :: l)) (mean caffeine_intake (e :: l))
              (mean stress_level (e :: l)) (mean sleep_quality (e :: l))) as ->.
  { unfold triggered, triggered_after_rounding. rewrite H7, H2, H6s, H6q.
    assert (7 - (1 # 20) == 139 # 20) as A1 by reflexivity.
    assert (2 + (1 # 20) == 41 # 20) as A2 by reflexivity.
    assert (6 + (1 # 20) == 121 # 20) as A3 by reflexivity.
    assert (6 - (1 # 20) == 119 # 20) as A4 by reflexivity.
    rewrite A1, A2, A3, A4.
    destruct (Qle_bool (41 # 20) _), (Qle_bool (121 # 20) _); reflexivity. }
  unfold suggestion_of.
  destruct (triggered_after_rounding _ _ _ _); [reflexivity | apply join_spaced].
Qed.



End StatsFacts.

(** ** The page workflows *)
Module WorkflowFacts.
Import JS Supabase Spec.
Local Open Scope list_scope.

Lemma falsy_empty (s : string) : falsy s = true <-> s = EmptyString.
Proof. destruct s; simpl; split; intros H; try reflexivity; discriminate. Qed.

Lemma split_nonempty (sep : ascii) (s : string) : split sep s <> [].
Proof.
  destruct s as [|c s]; simpl; [discriminate|].
  destruct (Ascii.eqb c sep); [discriminate|].
  destruct (split sep s); discriminate.
Qed.

Lemma absent_empty (c : ascii) : absent c EmptyString.
Proof. intros [|x a] b H; discriminate. Qed.

Lemma absent_cons (c x : ascii) (s : string) :
  x <> c -> absent c s -> absent c (String x s).
Proof.
  intros Hne Hs [|y a] b H; simpl in H; inversion H; subst.
  - congruence.
  - apply (Hs a b). reflexivity.
Qed.

(** The head of a split is the portion before the first separator. *)
Lemma split_head (sep : ascii) (s : string) :
  before_first sep s (hd EmptyString (split sep s)).
Proof.
  induction s as [|c s IH]; simpl.
  - split; [apply absent_empty|]. right. split; [apply absent_empty | reflexivity].
  - destruct (Ascii.eqb_spec c sep) as [->|Hne]; simpl.
    + split; [apply absent_empty|]. left. now exists s.
    + pose proof (split_nonempty sep s) as Hs.
      destruct (split sep s) as [|piece pieces]; [congruence|]. simpl in *.
      destruct IH as [Ha [[rest ->]|[Hab ->]]].
      * split; [now apply absent_cons|]. left. now exists rest.
      * split; [now apply absent_cons|]. right. split; [now apply absent_cons | reflexivity].
Qed.

Lemma before_first_unique (c : ascii) (s p q : string) :
  before_first c s p -> before_first c s q -> p = q.
Proof.
  revert p q. induction s as [|x s IH]; intros p q [Hp Hp'] [Hq Hq'].
  - assert (forall r, absent c r ->
              (exists rest, EmptyString = (r ++ String c rest)%string)
              \/ (absent c EmptyString /\ r = EmptyString) -> r = EmptyString) as Hk.
    { intros r _ [[rest H]|[_ H]]; [|exact H]. destruct r; discriminate. }
    rewrite (Hk p Hp Hp'), (Hk q Hq Hq'). reflexivity.
  - assert (forall r, before_first c (String x s) r ->
              (x = c /\ r = EmptyString)
              \/ (x <> c /\ exists r', r = String x r' /\ before_first c s r')) as Hk.
    { intros r [Hr [[rest H]|[Hab ->]]].
      - destruct r as [|y r]; simpl in H; injection H as E1 E2; try subst y; subst s.
        + left. now split.
        + right. split.
          * intros ->. apply (Hr EmptyString r). reflexivity.
          * exists r. split; [reflexivity|]. split.
            -- intros a b E. apply (Hr (String x a) b). simpl. now rewrite E.
            -- left. now exists rest.
      - right. split.
        + intros ->. apply (Hab EmptyString s). reflexivity.
        + exists s. split; [reflexivity|].
          assert (absent c s) as Hs
            by (intros a b E; apply (Hab (String x a) b); simpl; now rewrite E).
          split; [exact Hs|]. right. now split. }
    destruct (Hk p (conj Hp Hp')) as [[E1 ->]|[N1 (p' & -> & Bp)]];
      destruct (Hk q (conj Hq Hq')) as [[E2 ->]|[N2 (q' & -> & Bq)]];
      try reflexivity; try contradiction.
    f_equal. now apply IH.
Qed.

Lemma aborts_no_request (effects : list Effect) :
  aborts_with_error effects -> requests effects = [] /\ files effects = [].
Proof.
  intros [_ H]. unfold requests, files.
  induction H as [|e l He _ [IH1 IH2]]; [now split|].
  simpl. destruct He as [->|[msg ->]]; simpl; now split.
Qed.

Lemma network_GetUser_after_validation (st : Journal.State) (backend : Auth) :
  Journal.dreamTitle st <> EmptyString -> Journal.dreamContent st <> EmptyString ->
  In (network GetUser) (Journal.handleSaveEntry st backend).
Proof.
  intros Ht Hc. unfold Journal.handleSaveEntry.
  destruct (falsy (Journal.dreamTitle st)) eqn:E1; [apply falsy_empty in E1; contradiction|].
  destruct (falsy (Journal.dreamContent st)) eqn:E2; [apply falsy_empty in E2; contradiction|].
  simpl. right. left. reflexivity.
Qed.




(** C9.  When the store holds no entry for the user the export writes no
    file and tells the user of an error, whatever else the backend answers;
    for a signed-in user and a store that answers with the empty list, the
    export asks for the user and the entries and then only reports that
    there is nothing to export. *)
Theorem export_aborts_without_entries :
  (forall (backend : Auth) (select : string -> Rows) (now_iso : string),
      (forall user_id, data (select user_id) = Some [] \/ data (select user_id) = None) ->
      let effects := Profile.handleExportData backend select now_iso in
      files effects = [] /\ exists msg, In (toast_error msg) effects)
  /\ (forall (backend : Auth) (select : string -> Rows) (now_iso : string) (user : User),
        auth_getUser backend = Some user ->
        select (id user) = {| data := Some []; error := None |} ->
        Profile.handleExportData backend select now_iso
        = [network GetUser; network (SelectEntries (id user));
           toast_error "No data to export"]).
Proof.
  split.
  - intros backend select now_iso Hempty. cbv zeta. unfold Profile.handleExportData.
    destruct (auth_getUser backend) as [user|].
    + destruct (error (select (id user))) as [err|].
      * split; [reflexivity|]. eexists. right. right. now left.
      * destruct (Hempty (id user)) as [E|E]; rewrite E;
          (split; [reflexivity|]); eexists; right; right; now left.
    + split; [reflexivity|]. eexists. right. now left.
  - intros backend select now_iso user Hu Hs. unfold Profile.handleExportData.
    rewrite Hu, Hs. reflexivity.
Qed.



End WorkflowFacts.

(** ** Reading back a written document *)
Module JSONFacts.
Import JS JSON NumberFacts.
Local Open Scope string_scope.

(** An induction principle that reaches the items of arrays and the members
    of objects. *)
Lemma value_induction (P : value -> Prop) :
  P jnull ->
  (forall b, P (jbool b)) ->
  (forall m k, P (jnumber m k)) ->
  (forall s, P (jstring s)) ->
  (forall items, Forall P items -> P (jarray items)) ->
  (forall members, Forall (fun kv => P (snd kv)) members -> P (jobject members)) ->
  forall v, P v.
Proof.
  intros Hnull Hbool Hnum Hstr Harr Hobj.
  fix IH 1. intros [| b | m k | s | items | members].
  - exact Hnull.
  - apply Hbool.
  - apply Hnum.
  - apply Hstr.
  - apply Harr. induction items as [|x xs IHxs]; constructor; [apply IH | exact IHxs].
  - apply Hobj. induction members as [|[k x] xs IHxs]; constructor; [apply IH | exact IHxs].
Qed.

(** *** Strings *)

Lemma parse_chars_quote_char (c : ascii) (tail : string) :
  parse_chars (quote_char c ++ tail) = prepend (String c EmptyString) (parse_chars tail).
Proof.
  destruct c as [[] [] [] [] [] [] [] []]; reflexivity.
Qed.

Lemma parse_chars_quote_chars (s rest : string) :
  parse_chars (quote_chars s ++ String dquote rest) = Some (s, rest).
Proof.
  induction s as [|c s IH]; [reflexivity|].
  cbn [quote_chars]. rewrite append_assoc, parse_chars_quote_char, IH. reflexivity.
Qed.

Lemma quote_app (s rest : string) :
  quote s ++ rest = String dquote (quote_chars s ++ String dquote rest).
Proof. unfold quote. cbn [append]. now rewrite append_assoc. Qed.

(** *** Numbers *)

Local Open Scope Z_scope.

Lemma pad_digits_first (k : nat) (n : Z) (acc : string) :
  pad_digits (S k) n acc
  = String (digit_char ((n / 10 ^ Z.of_nat k) mod 10)) (pad_digits k n acc).
Proof.
  revert n acc. induction k as [|k IH]; intros n acc.
  - cbn [pad_digits]. change (10 ^ Z.of_nat 0) with 1. now rewrite Z.div_1_r.
  - change (pad_digits (S (S k)) n acc)
      with (pad_digits (S k) (n / 10) (String (digit_char (n mod 10)) acc)).
    rewrite IH. cbn [pad_digits]. f_equal. f_equal. f_equal.
    rewrite Nat2Z.inj_succ, Z.pow_succ_r by lia.
    rewrite Z.div_div by (try lia; apply Z.pow_pos_nonneg; lia). reflexivity.
Qed.

Lemma count_digits_lower (fuel : nat) (n : Z) :
  0 < n -> 10 ^ (Z.of_nat (count_digits fuel n) - 1) <= n.
Proof.
  revert n. induction fuel as [|fuel IH]; intros n Hn.
  - simpl. lia.
  - cbn [count_digits]. destruct (Z.ltb_spec n 10) as [Hlt|Hge]; [simpl; lia|].
    rewrite Nat2Z.inj_succ.
    replace (Z.succ (Z.of_nat (count_digits fuel (n / 10))) - 1)
      with (Z.succ (Z.of_nat (count_digits fuel (n / 10)) - 1)) by lia.
    pose proof (count_digits_pos fuel (n / 10)) as Hpos.
    rewrite Z.pow_succ_r by lia.
    assert (0 < n / 10) as Hq by (apply Z.div_str_pos; lia).
    specialize (IH (n / 10) Hq).
    pose proof (Z.mul_div_le n 10). lia.
Qed.

(** A written positive integer starts with a digit that is not zero. *)
Lemma Z_digits_first (n : Z) :
  0 < n -> exists d r, 1 <= d < 10 /\ Z_digits n = String (digit_char d) r.
Proof.
  intros Hn. unfold Z_digits.
  pose proof (Z_digits_bound n ltac:(lia)) as Hup.
  pose proof (count_digits_lower (Z.to_nat (Z.log2 n)) n Hn) as Hlow.
  pose proof (count_digits_pos (Z.to_nat (Z.log2 n)) n) as Hpos.
  destruct (count_digits (Z.to_nat (Z.log2 n)) n) as [|j]; [lia|].
  rewrite pad_digits_first.
  replace (Z.of_nat (S j) - 1) with (Z.of_nat j) in Hlow by lia.
  rewrite Nat2Z.inj_succ, Z.pow_succ_r in Hup by lia.
  assert (0 < 10 ^ Z.of_nat j) as Hp by (apply Z.pow_pos_nonneg; lia).
  assert (1 <= n / 10 ^ Z.of_nat j < 10) as Hd.
  { split.
    - apply Z.div_le_lower_bound; lia.
    - apply Z.div_lt_upper_bound; lia. }
  exists (n / 10 ^ Z.of_nat j), (pad_digits j n EmptyString).
  split; [exact Hd|]. rewrite Z.mod_small by lia. reflexivity.
Qed.

Lemma Z_digits_zero : Z_digits 0 = "0"%string.
Proof. reflexivity. Qed.

Lemma parse_digits_done (a : Z) (c : nat) (rest : string) :
  digit_stop rest = true -> parse_digits a c rest = (a, c, rest).
Proof.
  destruct rest as [|x rest]; [reflexivity|]. unfold digit_stop, is_digit. simpl.
  destruct (digit_value x); [discriminate | reflexivity].
Qed.

Lemma number_stop_digit_stop (rest : string) :
  number_stop rest = true -> digit_stop rest = true.
Proof.
  destruct rest as [|x rest]; [reflexivity|]. unfold number_stop, digit_stop.
  destruct (is_digit x); [discriminate | reflexivity].
Qed.

Lemma digit_char_is_digit (d : Z) : 0 <= d < 10 -> is_digit (digit_char d) = true.
Proof. intros H. unfold is_digit. now rewrite digit_value_char. Qed.

Lemma parse_int_Z_digits (ip : Z) (tail : string) :
  0 <= ip -> digit_stop tail = true ->
  parse_int (Z_digits ip ++ tail) = Some (ip, tail).
Proof.
  intros Hip Htail. destruct (Z.eq_dec ip 0) as [->|Hne].
  - rewrite Z_digits_zero. cbn [append]. unfold parse_int.
    change (Ascii.eqb "0" "0") with true. cbv iota.
    destruct tail as [|x tail]; [reflexivity|].
    unfold digit_stop in Htail. destruct (is_digit x); [discriminate | reflexivity].
  - destruct (Z_digits_first ip ltac:(lia)) as (d & r & Hd & E).
    destruct (parse_digits_Z_digits ip 0 0 tail Hip) as (k & Hk & Ep).
    unfold parse_int. rewrite Ep. rewrite E. cbn [append].
    assert (Ascii.eqb (digit_char d) "0" = false) as E0.
    { assert (0 <= d < 10) as Hd' by lia. each_digit d Hd'; try reflexivity; lia. }
    rewrite E0. rewrite parse_digits_done by exact Htail.
    replace (0 * 10 ^ Z.of_nat k + ip) with ip by lia.
    destruct (0 + k)%nat eqn:Ek; [lia | reflexivity].
Qed.

Lemma strip_zeros_plain (m : Z) (k : nat) :
  k = O \/ m mod 10 <> 0 -> strip_zeros k m = (m, k).
Proof.
  intros [->|H]; [reflexivity|]. destruct k; [reflexivity|].
  cbn [strip_zeros]. destruct (Z.eqb_spec (m mod 10) 0); [contradiction | reflexivity].
Qed.

Lemma parse_frac_none (rest : string) :
  number_stop rest = true -> parse_frac rest = Some (0, O, rest).
Proof.
  destruct rest as [|x rest]; [reflexivity|]. unfold number_stop, parse_frac.
  intros H. apply negb_true_iff in H.
  apply orb_false_iff in H. destruct H as [H _].
  apply orb_false_iff in H. destruct H as [H _].
  apply orb_false_iff in H. destruct H as [_ H].
  destruct x as [[] [] [] [] [] [] [] []]; try reflexivity; discriminate.
Qed.

Lemma parse_exp_none (rest : string) :
  number_stop rest = true -> parse_exp rest = Some (0, rest).
Proof.
  destruct rest as [|x rest]; [reflexivity|]. unfold number_stop, parse_exp.
  intros H. apply negb_true_iff in H.
  apply orb_false_iff in H. destruct H as [H H2].
  apply orb_false_iff in H. destruct H as [H H1].
  now rewrite H1, H2.
Qed.

Lemma parse_frac_digits (k : nat) (a : Z) (rest : string) :
  number_stop rest = true ->
  parse_frac (String "." (pad_digits (S k) a EmptyString) ++ rest)
  = Some (a mod 10 ^ Z.of_nat (S k), S k, rest).
Proof.
  intros H. cbn [append]. unfold parse_frac.
  rewrite <- pad_digits_app, parse_digits_pad.
  rewrite parse_digits_done by now apply number_stop_digit_stop.
  replace (0 * 10 ^ Z.of_nat (S k) + a mod 10 ^ Z.of_nat (S k))
    with (a mod 10 ^ Z.of_nat (S k)) by lia.
  reflexivity.
Qed.

(** The part of a number after its sign reads back as its numeral. *)
Lemma parse_unsigned (a : Z) (k : nat) (rest : string) :
  0 <= a -> number_stop rest = true ->
  let text := (Z_digits (a / 10 ^ Z.of_nat k)%Z
               ++ match k with
                  | O => EmptyString
                  | S _ => String "." (pad_digits k a EmptyString)
                  end ++ rest)%string in
  exists s3,
    parse_int text = Some (a / 10 ^ Z.of_nat k, s3)
    /\ parse_frac s3 = Some (a mod 10 ^ Z.of_nat k, k, rest).
Proof.
  intros Ha Hrest. cbv zeta.
  assert (0 < 10 ^ Z.of_nat k) as Hp by (apply Z.pow_pos_nonneg; lia).
  assert (0 <= a / 10 ^ Z.of_nat k) as Hip by (apply Z.div_pos; lia).
  destruct k as [|k].
  - exists rest. cbn [append]. split.
    + apply parse_int_Z_digits; [exact Hip | now apply number_stop_digit_stop].
    + rewrite parse_frac_none by exact Hrest.
      change (10 ^ Z.of_nat 0) with 1. now rewrite Z.mod_1_r.
  - exists (String "." (pad_digits (S k) a EmptyString) ++ rest)%string. split.
    + apply parse_int_Z_digits; [exact Hip | reflexivity].
    + now apply parse_frac_digits.
Qed.

Lemma number_text_unfold (m : Z) (k : nat) (rest : string) :
  (number_text m k ++ rest)%string
  = ((if (m <? 0)%Z then "-" else EmptyString)
     ++ Z_digits (Z.abs m / 10 ^ Z.of_nat k)%Z
     ++ match k with
        | O => EmptyString
        | S _ => String "." (pad_digits k (Z.abs m) EmptyString)
        end ++ rest)%string.
Proof. unfold number_text. now rewrite !append_assoc. Qed.

(** A written number reads back as its numeral. *)
Lemma parse_number_text (m : Z) (k : nat) (rest : string) :
  plain_number m k -> number_stop rest = true ->
  parse_number (number_text m k ++ rest) = Some (m, k, rest).
Proof.
  intros [Hcanon _] Hrest. rewrite number_text_unfold.
  destruct (parse_unsigned (Z.abs m) k rest (Z.abs_nonneg m) Hrest) as (s3 & Ei & Ef).
  cbv zeta in Ei.
  assert (0 < 10 ^ Z.of_nat k) as Hp by (apply Z.pow_pos_nonneg; lia).
  assert (Z.abs m / 10 ^ Z.of_nat k * 10 ^ Z.of_nat k + Z.abs m mod 10 ^ Z.of_nat k
          = Z.abs m) as Hdm.
  { rewrite (Z.div_mod (Z.abs m) (10 ^ Z.of_nat k)) at 3 by lia. ring. }
  destruct (Z.ltb_spec m 0) as [Hneg|Hpos].
  - change (("-" ++ ?s)%string) with (String "-" s).
    unfold parse_number. rewrite Ei, Ef, (parse_exp_none rest Hrest).
    rewrite Hdm.
    replace (Z.of_nat k - 0 <? 0) with false by (symmetry; apply Z.ltb_ge; lia).
    replace (Z.to_nat (Z.of_nat k - 0)) with k by lia.
    replace (- Z.abs m) with m by lia.
    now rewrite strip_zeros_plain.
  - change ((EmptyString ++ ?s)%string) with s.
    set (text := (Z_digits (Z.abs m / 10 ^ Z.of_nat k)%Z ++ _)%string) in *.
    assert (exists c r, text = String c r /\ Ascii.eqb c "-" = false) as (c & r & Et & Ec).
    { unfold text. destruct (Z_digits_head (Z.abs m / 10 ^ Z.of_nat k)) as (d & r & Hd & E).
      rewrite E. cbn [append]. eexists _, _. split; [reflexivity|].
      each_digit d Hd; reflexivity. }
    unfold parse_number.
    assert ((let '(negative, s1) := match text with
                                    | String "-" r0 => (true, r0)
                                    | _ => (false, text)
                                    end in
             (negative, s1)) = (false, text)) as Esign.
    { rewrite Et. destruct c as [[] [] [] [] [] [] [] []]; try reflexivity; discriminate. }
    destruct (match text with String "-" r0 => (true, r0) | _ => (false, text) end)
      as [negative s1].
    inversion Esign; subst negative s1.
    rewrite Ei, Ef, (parse_exp_none rest Hrest). rewrite Hdm.
    replace (Z.of_nat k - 0 <? 0) with false by (symmetry; apply Z.ltb_ge; lia).
    replace (Z.to_nat (Z.of_nat k - 0)) with k by lia.
    replace (Z.abs m) with m by lia.
    now rewrite strip_zeros_plain.
Qed.

(** *** White space *)

Local Open Scope string_scope.

Lemma length_append (a b : string) :
  String.length (a ++ b) = (String.length a + String.length b)%nat.
Proof. induction a as [|c a IH]; simpl; [reflexivity | now rewrite IH]. Qed.

Lemma append_empty_r (a : string) : a ++ EmptyString = a.
Proof. induction a as [|c a IH]; simpl; [reflexivity | now rewrite IH]. Qed.

Lemma blank_empty : blank EmptyString.
Proof. intros rest. reflexivity. Qed.

Lemma blank_app (a b : string) : blank a -> blank b -> blank (a ++ b).
Proof. intros Ha Hb rest. now rewrite append_assoc, Ha, Hb. Qed.

Lemma blank_cons (c : ascii) (s : string) : is_ws c = true -> blank s -> blank (String c s).
Proof. intros Hc Hs rest. cbn [append skip_ws]. rewrite Hc. apply Hs. Qed.

Lemma blank_spaces (n : nat) : blank (spaces n).
Proof.
  induction n as [|n IH]; [apply blank_empty|].
  apply blank_cons; [reflexivity | exact IH].
Qed.

Lemma blank_newline : blank newline.
Proof. apply blank_cons; [reflexivity | apply blank_empty]. Qed.

Lemma skip_ws_start (c : ascii) (r : string) :
  is_ws c = false -> skip_ws (String c r) = String c r.
Proof. intros H. cbn [skip_ws]. now rewrite H. Qed.

Lemma skip_ws_value (s rest : string) :
  starts_value s -> skip_ws (s ++ rest) = s ++ rest.
Proof. intros (c & r & -> & Hc & _). cbn [append]. now apply skip_ws_start. Qed.

Section Roundtrip.
Variable gap : string.
Hypothesis gap_blank : blank gap.

Lemma blank_opening (indent : string) : blank indent -> blank (opening gap indent).
Proof.
  intros H. unfold opening. destruct gap; [apply blank_empty|].
  apply blank_app; [apply blank_newline | exact H].
Qed.

(** Behind the last item of an array or member of an object comes the
    closing bracket, on its line. *)
Lemma number_stop_closing (indent rest : string) (c : ascii) :
  is_digit c = false -> Ascii.eqb c "." = false ->
  Ascii.eqb c "e" = false -> Ascii.eqb c "E" = false ->
  number_stop (opening gap indent ++ String c rest) = true.
Proof.
  intros H1 H2 H3 H4. unfold opening. destruct gap; [|reflexivity].
  cbn [append number_stop]. now rewrite H1, H2, H3, H4.
Qed.

Lemma colon_text : exists pad, colon gap = String ":" pad /\ blank pad.
Proof.
  unfold colon. destruct gap.
  - exists EmptyString. split; [reflexivity | apply blank_empty].
  - exists " ". split; [reflexivity|]. apply blank_cons; [reflexivity | apply blank_empty].
Qed.

(** *** How a value starts *)

Lemma number_text_start (m : Z) (k : nat) :
  exists c r, number_text m k = String c r
              /\ (c = "-"%char \/ exists d, (0 <= d < 10)%Z /\ c = digit_char d).
Proof.
  unfold number_text. destruct (m <? 0)%Z.
  - eexists _, _. split; [reflexivity|]. now left.
  - destruct (Z_digits_head (Z.abs m / 10 ^ Z.of_nat k)) as (d & r & Hd & E).
    rewrite E. eexists _, _. split; [reflexivity|]. right. now exists d.
Qed.

Lemma number_char_facts (c : ascii) :
  c = "-"%char \/ (exists d, (0 <= d < 10)%Z /\ c = digit_char d) ->
  is_ws c = false /\ Ascii.eqb c "]" = false /\ Ascii.eqb c "}" = false
  /\ Ascii.eqb c "n" = false /\ Ascii.eqb c "t" = false /\ Ascii.eqb c "f" = false
  /\ Ascii.eqb c dquote = false /\ Ascii.eqb c "[" = false /\ Ascii.eqb c "{" = false.
Proof.
  intros [->|(d & Hd & ->)]; [repeat split|].
  each_digit d Hd; repeat split.
Qed.

Lemma serialize_array_cons (indent : string) (x : value) (xs : list value) :
  serialize gap indent (jarray (x :: xs))
  = "[" ++ opening gap (indent ++ gap) ++ serialize gap (indent ++ gap) x
    ++ items_text gap (indent ++ gap) xs ++ opening gap indent ++ "]".
Proof. reflexivity. Qed.

Lemma serialize_object_cons (indent k : string) (x : value) (xs : list (string * value)) :
  serialize gap indent (jobject ((k, x) :: xs))
  = "{" ++ opening gap (indent ++ gap) ++ quote k ++ colon gap
    ++ serialize gap (indent ++ gap) x
    ++ members_text gap (indent ++ gap) xs ++ opening gap indent ++ "}".
Proof. reflexivity. Qed.

Lemma serialize_starts (indent : string) (v : value) :
  starts_value (serialize gap indent v).
Proof.
  destruct v as [| [] | m k | s | [|x xs] | [|[k x] xs]];
    try (eexists _, _; split; [reflexivity | repeat split]).
  destruct (number_text_start m k) as (c & r & E & Hc).
  exists c, r. split; [exact E|].
  destruct (number_char_facts c Hc) as (H1 & H2 & H3 & _). auto.
Qed.

(** *** Reading one value *)

Lemma parse_value_blank (pre s : string) (fuel : nat) :
  blank pre -> parse_value fuel (pre ++ s) = parse_value fuel s.
Proof. intros H. destruct fuel; [reflexivity|]. cbn [parse_value]. now rewrite H. Qed.

Lemma parse_value_number_step (fuel : nat) (c : ascii) (r : string) :
  c = "-"%char \/ (exists d, (0 <= d < 10)%Z /\ c = digit_char d) ->
  parse_value (S fuel) (String c r)
  = match parse_number (String c r) with
    | Some (m, k, r') => Some (jnumber m k, r')
    | None => None
    end.
Proof.
  intros [->|(d & Hd & ->)]; [reflexivity|]. each_digit d Hd; reflexivity.
Qed.

Lemma need_array (l : list value) : need (jarray l) = S (need_items l).
Proof. reflexivity. Qed.

Lemma need_object (l : list (string * value)) : need (jobject l) = S (need_members l).
Proof. reflexivity. Qed.

Lemma reads_back_atoms :
  reads_back gap jnull /\ (forall b, reads_back gap (jbool b))
  /\ (forall s, reads_back gap (jstring s))
  /\ (forall m k, plain_number m k -> reads_back gap (jnumber m k)).
Proof.
  repeat split.
  - intros indent rest [|fuel] _ Hf _; [simpl in Hf; lia | reflexivity].
  - intros [] indent rest [|fuel] _ Hf _; try (simpl in Hf; lia); reflexivity.
  - intros s indent rest [|fuel] _ Hf _; [simpl in Hf; lia|].
    cbn [serialize]. rewrite quote_app.
    change (parse_value (S fuel) (String dquote ?r))
      with (match parse_chars r with
            | Some (str, r') => Some (jstring str, r')
            | None => None
            end).
    now rewrite parse_chars_quote_chars.
  - intros m k Hplain indent rest [|fuel] _ Hf Hrest; [simpl in Hf; lia|].
    cbn [serialize].
    destruct (number_text_start m k) as (c & r & E & Hc).
    pose proof (parse_number_text m k rest Hplain Hrest) as Hp.
    rewrite E in *. cbn [append] in *.
    rewrite (parse_value_number_step fuel c _ Hc). now rewrite Hp.
Qed.

(** The items of an array, the first behind white space and the others
    behind their separators, up to the closing bracket. *)
Lemma parse_elements_text (ind closing rest : string) :
  blank ind -> blank closing ->
  number_stop (closing ++ String "]" rest) = true ->
  forall xs x pre fuel,
    Forall (reads_back gap) (x :: xs) -> blank pre ->
    (need_items (x :: xs) <= fuel)%nat ->
    parse_elements fuel
      (pre ++ serialize gap ind x ++ items_text gap ind xs ++ closing ++ String "]" rest)
    = Some (x :: xs, rest).
Proof.
  intros Hind Hclosing Hstop.
  induction xs as [|y ys IH]; intros x pre [|fuel] HP Hpre Hf;
    try (simpl in Hf; lia); inversion HP as [|? ? Hx HP']; subst.
  - cbn [items_text append]. cbn [parse_elements].
    rewrite parse_value_blank by exact Hpre.
    rewrite (Hx ind (closing ++ String "]" rest) fuel Hind ltac:(simpl in Hf; lia) Hstop).
    rewrite Hclosing. reflexivity.
  - change (items_text gap ind (y :: ys))
      with (separator gap ind ++ serialize gap ind y ++ items_text gap ind ys).
    unfold separator. rewrite !append_assoc. cbn [append].
    cbn [parse_elements]. rewrite parse_value_blank by exact Hpre.
    match goal with
    | |- context [parse_value fuel (serialize gap ind x ++ ?tail)] =>
        rewrite (Hx ind tail fuel Hind ltac:(simpl in Hf; lia) eq_refl)
    end.
    rewrite skip_ws_start by reflexivity.
    change (Ascii.eqb "," ",") with true. cbv iota.
    rewrite (IH y (opening gap ind) fuel HP' (blank_opening ind Hind) ltac:(simpl in Hf |- *; lia)).
    reflexivity.
Qed.

(** The members of an object, likewise, up to the closing brace. *)
Lemma parse_members_text (ind closing rest : string) :
  blank ind -> blank closing ->
  number_stop (closing ++ String "}" rest) = true ->
  forall xs k x pre fuel,
    Forall (fun kv => reads_back gap (snd kv)) ((k, x) :: xs) -> blank pre ->
    (need_members ((k, x) :: xs) <= fuel)%nat ->
    parse_members fuel
      (pre ++ quote k ++ colon gap ++ serialize gap ind x
       ++ members_text gap ind xs ++ closing ++ String "}" rest)
    = Some ((k, x) :: xs, rest).
Proof.
  intros Hind Hclosing Hstop.
  destruct colon_text as (pad & Ecolon & Hpad).
  induction xs as [|[k' y] ys IH]; intros k x pre [|fuel] HP Hpre Hf;
    try (simpl in Hf; lia); inversion HP as [|? ? Hx HP']; subst; simpl in Hx.
  - cbn [members_text append]. cbn [parse_members].
    rewrite Hpre, quote_app, skip_ws_start by reflexivity.
    change (Ascii.eqb dquote dquote) with true. cbv iota.
    rewrite parse_chars_quote_chars. rewrite Ecolon. cbn [append].
    rewrite skip_ws_start by reflexivity.
    change (Ascii.eqb ":" ":") with true. cbv iota.
    rewrite parse_value_blank by exact Hpad.
    rewrite (Hx ind (closing ++ String "}" rest) fuel Hind ltac:(simpl in Hf; lia) Hstop).
    rewrite Hclosing. reflexivity.
  - change (members_text gap ind ((k', y) :: ys))
      with (separator gap ind ++ quote k' ++ colon gap ++ serialize gap ind y
            ++ members_text gap ind ys).
    unfold separator. rewrite !append_assoc. cbn [append].
    cbn [parse_members].
    rewrite Hpre, quote_app, skip_ws_start by reflexivity.
    change (Ascii.eqb dquote dquote) with true. cbv iota.
    rewrite parse_chars_quote_chars. rewrite Ecolon at 1. cbn [append].
    rewrite skip_ws_start by reflexivity.
    change (Ascii.eqb ":" ":") with true. cbv iota.
    rewrite parse_value_blank by exact Hpad.
    match goal with
    | |- context [parse_value fuel (serialize gap ind x ++ ?tail)] =>
        rewrite (Hx ind tail fuel Hind ltac:(simpl in Hf; lia) eq_refl)
    end.
    rewrite skip_ws_start by reflexivity.
    change (Ascii.eqb "," ",") with true. cbv iota.
    rewrite (IH k' y (opening gap ind) fuel HP' (blank_opening ind Hind)
               ltac:(simpl in Hf |- *; lia)).
    reflexivity.
Qed.

Lemma parse_value_array_step (fuel : nat) (r : string) :
  (exists c r', skip_ws r = String c r' /\ Ascii.eqb c "]" = false) ->
  parse_value (S fuel) (String "[" r)
  = match parse_elements fuel r with
    | Some (vs, r'') => Some (jarray vs, r'')
    | None => None
    end.
Proof.
  intros (c & r' & E & Hc).
  change (parse_value (S fuel) (String "[" r))
    with (match skip_ws r with
          | EmptyString => None
          | String c' r' =>
              if Ascii.eqb c' "]" then Some (jarray [], r')
              else match parse_elements fuel r with
                   | Some (vs, r'') => Some (jarray vs, r'')
                   | None => None
                   end
          end).
  now rewrite E, Hc.
Qed.

Lemma parse_value_object_step (fuel : nat) (r : string) :
  (exists c r', skip_ws r = String c r' /\ Ascii.eqb c "}" = false) ->
  parse_value (S fuel) (String "{" r)
  = match parse_members fuel r with
    | Some (ms, r'') => Some (jobject ms, r'')
    | None => None
    end.
Proof.
  intros (c & r' & E & Hc).
  change (parse_value (S fuel) (String "{" r))
    with (match skip_ws r with
          | EmptyString => None
          | String c' r' =>
              if Ascii.eqb c' "}" then Some (jobject [], r')
              else match parse_members fuel r with
                   | Some (ms, r'') => Some (jobject ms, r'')
                   | None => None
                   end
          end).
  now rewrite E, Hc.
Qed.

Lemma skip_to_value (pre : string) (ind : string) (v : value) (tail : string) :
  blank pre ->
  exists c r', skip_ws (pre ++ serialize gap ind v ++ tail) = String c r'
               /\ Ascii.eqb c "]" = false /\ Ascii.eqb c "}" = false.
Proof.
  intros Hpre. rewrite Hpre.
  destruct (serialize_starts ind v) as (c & r & E & Hws & H1 & H2).
  rewrite E. cbn [append]. rewrite skip_ws_start by exact Hws. eauto.
Qed.

Lemma skip_to_key (pre k tail : string) :
  blank pre ->
  exists c r', skip_ws (pre ++ quote k ++ tail) = String c r'
               /\ Ascii.eqb c "}" = false.
Proof.
  intros Hpre. rewrite Hpre, quote_app, skip_ws_start by reflexivity.
  eexists _, _. split; reflexivity.
Qed.

(** Every well-formed value reads back. *)
Lemma well_formed_reads_back (v : value) : well_formed v -> reads_back gap v.
Proof.
  destruct reads_back_atoms as (Hnull & Hbool & Hstr & Hnum).
  induction v as [| b | m k | s | items IH | members IH] using value_induction;
    intros Hwf.
  - exact Hnull.
  - apply Hbool.
  - inversion Hwf; subst. now apply Hnum.
  - apply Hstr.
  - assert (Forall (reads_back gap) items) as HP.
    { inversion Hwf as [| | | | ? Hall |]; subst.
      rewrite Forall_forall in *. auto. }
    clear IH Hwf. intros indent rest fuel Hind Hf Hrest.
    destruct items as [|x xs].
    + destruct fuel as [|fuel]; [simpl in Hf; lia | reflexivity].
    + rewrite need_array in Hf. destruct fuel as [|fuel]; [lia|].
      rewrite serialize_array_cons, !append_assoc. cbn [append].
      assert (blank (indent ++ gap)) as Hind' by now apply blank_app.
      rewrite parse_value_array_step.
      * rewrite (parse_elements_text (indent ++ gap) (opening gap indent) rest);
          auto using blank_opening; [|lia].
        now apply number_stop_closing.
      * destruct (skip_to_value (opening gap (indent ++ gap)) (indent ++ gap) x
                    (items_text gap (indent ++ gap) xs ++ opening gap indent
                     ++ String "]" rest) (blank_opening _ Hind'))
          as (c & r' & E & H1 & _).
        eauto.
  - assert (Forall (fun kv => reads_back gap (snd kv)) members) as HP.
    { inversion Hwf as [| | | | | ? _ Hall]; subst.
      rewrite Forall_forall in *. auto. }
    clear IH Hwf. intros indent rest fuel Hind Hf Hrest.
    destruct members as [|[k x] xs].
    + destruct fuel as [|fuel]; [simpl in Hf; lia | reflexivity].
    + rewrite need_object in Hf. destruct fuel as [|fuel]; [lia|].
      rewrite serialize_object_cons, !append_assoc. cbn [append].
      assert (blank (indent ++ gap)) as Hind' by now apply blank_app.
      rewrite parse_value_object_step.
      * rewrite (parse_members_text (indent ++ gap) (opening gap indent) rest);
          auto using blank_opening; [|lia].
        now apply number_stop_closing.
      * destruct (skip_to_key (opening gap (indent ++ gap)) k
                    (colon gap ++ serialize gap (indent ++ gap) x
                     ++ members_text gap (indent ++ gap) xs ++ opening gap indent
                     ++ String "}" rest) (blank_opening _ Hind'))
          as (c & r' & E & H1).
        eauto.
Qed.

(** *** Fuel *)

Lemma need_items_le (ind : string) (xs : list value) :
  Forall (fun v => forall indent, (need v <= String.length (serialize gap indent v))%nat) xs ->
  (need_items xs <= String.length (items_text gap ind xs))%nat.
Proof.
  induction 1 as [|y ys Hy _ IH]; [simpl; lia|].
  change (items_text gap ind (y :: ys))
    with (separator gap ind ++ serialize gap ind y ++ items_text gap ind ys).
  unfold separator. cbn [append need_items String.length].
  rewrite !length_append. specialize (Hy ind). lia.
Qed.

Lemma need_members_le (ind : string) (xs : list (string * value)) :
  Forall (fun kv => forall indent,
            (need (snd kv) <= String.length (serialize gap indent (snd kv)))%nat) xs ->
  (need_members xs <= String.length (members_text gap ind xs))%nat.
Proof.
  induction 1 as [|[k y] ys Hy _ IH]; [simpl; lia|].
  change (members_text gap ind ((k, y) :: ys))
    with (separator gap ind ++ quote k ++ colon gap ++ serialize gap ind y
          ++ members_text gap ind ys).
  unfold separator. cbn [append need_members String.length].
  rewrite !length_append. specialize (Hy ind). simpl in Hy. lia.
Qed.

(** The text of a value is at least as long as the fuel its reading takes. *)
Lemma need_le_length (v : value) (indent : string) :
  (need v <= String.length (serialize gap indent v))%nat.
Proof.
  revert indent.
  induction v as [| b | m k | s | items IH | members IH] using value_induction;
    intros indent.
  - simpl. lia.
  - destruct b; simpl; lia.
  - cbn [serialize need]. destruct (number_text_start m k) as (c & r & E & _).
    rewrite E. simpl. lia.
  - simpl. lia.
  - destruct items as [|x xs]; [simpl; lia|].
    rewrite need_array, serialize_array_cons. cbn [append need_items String.length].
    rewrite !length_append. cbn [String.length].
    inversion IH as [|? ? Hx Hxs]; subst.
    specialize (Hx (indent ++ gap)).
    pose proof (need_items_le (indent ++ gap) xs Hxs). lia.
  - destruct members as [|[k x] xs]; [simpl; lia|].
    rewrite need_object, serialize_object_cons. cbn [append need_members String.length].
    rewrite !length_append. cbn [String.length].
    inversion IH as [|? ? Hx Hxs]; subst.
    specialize (Hx (indent ++ gap)). simpl in Hx.
    pose proof (need_members_le (indent ++ gap) xs Hxs). lia.
Qed.

End Roundtrip.

(** A well-formed value written by [stringify] reads back as itself. *)
Lemma parse_stringify (v : value) (space : nat) :
  well_formed v -> parse (stringify v space) = Some v.
Proof.
  intros Hwf. unfold parse, stringify.
  set (gap := spaces (Nat.min space 10)).
  assert (blank gap) as Hgap by apply blank_spaces.
  pose proof (well_formed_reads_back gap Hgap v Hwf EmptyString EmptyString
                (S (String.length (serialize gap EmptyString v)))
                blank_empty) as H.
  rewrite append_empty_r in H. rewrite H; [reflexivity | | reflexivity].
  pose proof (need_le_length gap v EmptyString). lia.
Qed.

End JSONFacts.

(** ** The export *)
Module ExportFacts.
Import JS JSON Supabase Spec WorkflowFacts JSONFacts.
Local Open Scope list_scope.

(** The backup is named after the date part of the ISO time. *)
Lemma backup_name_date (date time : string) :
  absent "T" date ->
  Profile.backup_name (date ++ String "T" time)
  = ("dreamtracker-backup-" ++ date ++ ".json")%string.
Proof.
  intros Hd. unfold Profile.backup_name. do 2 f_equal.
  apply (before_first_unique "T" (date ++ String "T" time)%string).
  - apply split_head.
  - split; [exact Hd|]. left. now exists time.
Qed.

(** C7 (amended).  For a signed-in user whose stored list is not empty and
    holds well-formed rows, the export asks for the user and the entries,
    offers one file and reports success; the file is named
    [dreamtracker-backup-<date>.json] after the date part of the current ISO
    time, its type is [application/json], its content is the array of the
    rows written with an indentation of two spaces, and that content reads
    back as the very rows the store returned. *)
Theorem export_writes_the_rows
    (backend : Auth) (select : string -> Rows) (now_iso : string)
    (user : User) (rows : list value) :
  auth_getUser backend = Some user ->
  select (id user) = {| data := Some rows; error := None |} ->
  rows <> [] ->
  Forall well_formed rows ->
  let effects := Profile.handleExportData backend select now_iso in
  effects = [network GetUser; network (SelectEntries (id user));
             download (Profile.backup_name now_iso) "application/json"
                      (stringify (jarray rows) 2);
             toast_success "Data exported successfully!"]
  /\ exports_rows effects now_iso rows
  /\ parse (stringify (jarray rows) 2) = Some (jarray rows)
  /\ (forall date time,
        now_iso = (date ++ String "T" time)%string -> absent "T" date ->
        Profile.backup_name now_iso = ("dreamtracker-backup-" ++ date ++ ".json")%string).
Proof.
  intros Hu Hs Hne Hwf. cbv zeta.
  assert (parse (stringify (jarray rows) 2) = Some (jarray rows)) as Hrt.
  { apply parse_stringify. now constructor. }
  assert (Profile.handleExportData backend select now_iso
          = [network GetUser; network (SelectEntries (id user));
             download (Profile.backup_name now_iso) "application/json"
                      (stringify (jarray rows) 2);
             toast_success "Data exported successfully!"]) as E.
  { unfold Profile.handleExportData. rewrite Hu, Hs. cbn [error data].
    destruct rows as [|row rows]; [congruence | reflexivity]. }
  rewrite E. split; [reflexivity|]. split; [|split; [exact Hrt|]].
  - exists (stringify (jarray rows) 2). split; [|exact Hrt].
    right. right. now left.
  - intros date time -> Hd. now apply backup_name_date.
Qed.

(** C7, as stated, fails: for a signed-in user whose stored list is empty
    the export offers no file, so no document reads back as the list. *)
Lemma export_writes_nothing_for_no_rows :
  auth_getUser (Samples.backend_without_profile Samples.dreamer) = Some Samples.dreamer
  /\ Samples.no_rows (id Samples.dreamer) = {| data := Some []; error := None |}
  /\ files (Profile.handleExportData (Samples.backend_without_profile Samples.dreamer)
              Samples.no_rows Samples.this_morning) = []
  /\ ~ exports_rows
         (Profile.handleExportData (Samples.backend_without_profile Samples.dreamer)
            Samples.no_rows Samples.this_morning)
         Samples.this_morning [].
Proof.
  split; [reflexivity|]. split; [reflexivity|]. split; [reflexivity|].
  intros (content & Hin & _). simpl in Hin.
  destruct Hin as [H|[H|[H|[]]]]; discriminate.
Qed.

End ExportFacts.

(** ** The program run on the sample data *)
Module Examples.
Import JS JSON Analytics Supabase Samples.
Local Open Scope list_scope.

Example toFixed_rounds_half_up :
  toFixed (43 # 21) 1 = "2.0" /\ toFixed (139 # 20) 1 = "7.0"
  /\ toFixed (- (1 # 25)) 1 = "-0.0" /\ toFixed (2469 # 2) 0 = "1235".
Proof. repeat split. Qed.

Example parseFloat_reads_the_literal :
  parseFloat "6.9" = Num (6 + 9 / 10)%Q /\ parseFloat "abc" = NaN.
Proof. repeat split. Qed.

Example split_at_sign :
  split "@" "ada@example.org" = ["ada"; "example.org"]
  /\ split "@" "nobody" = ["nobody"].
Proof. repeat split. Qed.

Example stats_short_night :
  stats [short_night]
  = Some {| avgQuality := "5.0"; avgSleep := "6.0"; avgCaffeine := "3.0";
            avgStress := "7.0"; total := 1 |}.
Proof. reflexivity. Qed.

Example getSuggestion_short_night :
  getSuggestion [short_night]
  = (msg_sleep ++ " " ++ msg_caffeine ++ " " ++ msg_stress ++ " " ++ msg_quality)%string.
Proof. reflexivity. Qed.

Example view_ten_nights_by_quality :
  map title (@filteredAndSortedEntries calendar_dates ten_nights EmptyString
               by_sleep_quality desc)
  = ["Underwater"; "Flying"; "Friends"; "Garden"; "Exam"; "Forest"; "Chase"; "Train";
     "Sea"; "Tower"].
Proof. vm_compute. reflexivity. Qed.

Example view_ten_nights_search :
  map title (@filteredAndSortedEntries calendar_dates ten_nights "FOR"
               by_created_at asc)
  = ["Forest"; "Chase"].
Proof. vm_compute. reflexivity. Qed.

Example chartData_ten_nights :
  map date (@chartData calendar_dates ten_nights)
  = ["Mar 4"; "Mar 5"; "Mar 6"; "Mar 7"; "Mar 8"; "Mar 9"; "Mar 10"].
Proof. vm_compute. reflexivity. Qed.

Example stringify_small :
  stringify (jarray [jobject [("sleep_hours", jnumber 75 1); ("mood", jnull)]]) 2
  = ("[" ++ newline ++ "  {" ++ newline
     ++ "    " ++ quote "sleep_hours" ++ ": 7.5," ++ newline
     ++ "    " ++ quote "mood" ++ ": null" ++ newline
     ++ "  }" ++ newline ++ "]")%string.
Proof. vm_compute. reflexivity. Qed.

Example parse_reads_exponents :
  parse "[1.50e1, -0.5, 12E+2]" = Some (jarray [jnumber 15 0; jnumber (-5) 1; jnumber 1200 0])
  /\ parse "[01]" = None /\ parse "[1,]" = None.
Proof. repeat split. Qed.

Example handleExportData_two_rows :
  map is_download
    (Profile.handleExportData (backend_without_profile dreamer) two_rows this_morning)
  = [false; false; true; false]
  /\ Profile.backup_name this_morning = "dreamtracker-backup-2024-03-11.json"%string.
Proof. split; reflexivity. Qed.

End Examples.

(** ** The theorems at work on the sample data *)
Module Witnesses.
Import JS JSON Analytics Supabase Spec Samples.
Import ViewFacts ToggleFacts ChartFacts StatsFacts WorkflowFacts ExportFacts.
Local Open Scope list_scope.


Ltac pairwise tac :=
  repeat first [ apply FOP_nil | apply FOP_cons | apply Forall_nil | apply Forall_cons
               | tac ].

Ltac ordered :=
  first [ left; do 2 eexists; split; [reflexivity | split; reflexivity]
        | right; do 2 eexists; split; [reflexivity | split; reflexivity] ].

Ltac ranked := first [ left; reflexivity | right; reflexivity ].


(** The statistics of the ten nights. *)
Lemma stats_absent_or_rounded_means_witness :
  ten_nights <> []
  /\ exists st,
       stats ten_nights = Some st
       /\ total st = 10%nat
       /\ displays_rounded (mean sleep_quality ten_nights) (avgQuality st)
       /\ displays_rounded (mean sleep_hours ten_nights) (avgSleep st)
       /\ displays_rounded (mean caffeine_intake ten_nights) (avgCaffeine st)
       /\ displays_rounded (mean stress_level ten_nights) (avgStress st).
Proof.
  assert (ten_nights <> []) as Hne by discriminate.
  split; [exact Hne|].
  destruct stats_absent_or_rounded_means as [_ H].
  exact (H ten_nights Hne).
Defined.


(** The chart of the ten nights: the seven latest, oldest first. *)
Lemma chartData_recent_window_witness :
  Forall (@dated calendar_dates) ten_nights
  /\ length ten_nights = 10%nat
  /\ @chronologically_distinct calendar_dates ten_nights
  /\ exists older window,
       Permutation ten_nights (older ++ window)
       /\ Forall2 (@shows calendar_dates) window (@chartData calendar_dates ten_nights)
       /\ length window = 7%nat /\ length older = 3%nat
       /\ StronglySorted (@earlier calendar_dates) window
       /\ (forall a b, In a older -> In b window -> @earlier calendar_dates a b).
Proof.
  assert (Forall (@dated calendar_dates) ten_nights) as Hd
    by (pairwise ltac:(eexists; reflexivity)).
  assert (@chronologically_distinct calendar_dates ten_nights) as Hc
    by (pairwise ordered).
  split; [exact Hd|]. split; [reflexivity|]. split; [exact Hc|].
  destruct (@chartData_recent_window calendar_dates ten_nights)
    as (older & window & Hp & Hs & _ & _ & Hdistinct).
  destruct (Hdistinct Hc) as (Hsorted & Hcut & H10).
  destruct (H10 eq_refl) as [Hw Ho].
  exists older, window. repeat split; assumption.
Defined.

(** The sort toggle on the ten nights, whose sleep qualities differ. *)
Lemma toggleSort_flips_or_resets_witness :
  @tie_free calendar_dates by_sleep_quality ten_nights
  /\ by_sleep_hours <> sortBy by_quality
  /\ toggleSort by_sleep_quality by_quality
     = {| sortBy := by_sleep_quality; sortOrder := asc |}
  /\ sortBy (toggleSort by_sleep_hours by_quality) = by_sleep_hours
  /\ sortOrder (toggleSort by_sleep_hours by_quality) = desc
  /\ @displayed calendar_dates ten_nights EmptyString
       (toggleSort by_sleep_quality by_quality)
     = rev (@displayed calendar_dates ten_nights EmptyString by_quality)
  /\ @displayed calendar_dates ten_nights EmptyString
       (toggleSort by_sleep_quality (toggleSort by_sleep_quality by_quality))
     = @displayed calendar_dates ten_nights EmptyString by_quality.
Proof.
  assert (@tie_free calendar_dates by_sleep_quality ten_nights) as Ht
    by (pairwise ranked).
  assert (by_sleep_hours <> sortBy by_quality) as Hne by discriminate.
  destruct (@toggleSort_flips_or_resets calendar_dates by_quality by_sleep_hours
              ten_nights EmptyString) as (_ & H2 & H3).
  destruct (H2 Hne) as [Hk Ho]. destruct (H3 Ht) as [Hrev Htwice].
  repeat split; assumption.
Defined.


(** The export for a user with no entry. *)
Lemma export_aborts_without_entries_witness :
  (forall user_id, data (no_rows user_id) = Some [] \/ data (no_rows user_id) = None)
  /\ files (Profile.handleExportData (backend_without_profile dreamer) no_rows
              this_morning) = []
  /\ Profile.handleExportData (backend_without_profile dreamer) no_rows this_morning
     = [network GetUser; network (SelectEntries "user-1");
        toast_error "No data to export"].
Proof.
  destruct export_aborts_without_entries as [H1 H2].
  assert (forall user_id, data (no_rows user_id) = Some [] \/ data (no_rows user_id) = None)
    as Hempty by (intros user_id; left; reflexivity).
  split; [exact Hempty|]. split.
  - destruct (H1 (backend_without_profile dreamer) no_rows this_morning Hempty) as [H _].
    exact H.
  - exact (H2 (backend_without_profile dreamer) no_rows this_morning dreamer
              eq_refl eq_refl).
Defined.


Lemma two_rows_well_formed :
  Forall well_formed [stored_row "e-2" "Flying" 75; stored_row "e-1" "Forest" 65].
Proof.
  assert (forall m k, (k = O \/ (m mod 10 <> 0)%Z)
                      /\ (Z.abs m < 10 ^ 21)%Z /\ (0 < m)%Z /\ (k <= 6)%nat ->
                      plain_number m k) as Hplain.
  { intros m k (Hc & Hhi & Hpos & Hk). split; [exact Hc|]. split.
    - eapply Z.lt_le_trans; [exact Hhi|]. apply Z.pow_le_mono_r; lia.
    - right. apply Z.le_trans with (10 ^ 6)%Z; [apply Z.pow_le_mono_r; lia | lia]. }
  assert (forall id title hours,
             (hours mod 10 <> 0)%Z -> (0 < hours < 1000)%Z ->
             well_formed (stored_row id title hours)) as Hrow.
  { intros rid title hours Hm Hh. constructor.
    - simpl.
      repeat (apply NoDup_cons;
              [ simpl; intros H; repeat (destruct H as [H|H]; [discriminate H|]); exact H
              | ]).
      apply NoDup_nil.
    - repeat first [ apply Forall_nil | apply Forall_cons ]; simpl;
        try apply wf_string; try apply wf_null; apply wf_number; apply Hplain;
        repeat split; try lia; left; reflexivity. }
  apply Forall_cons; [apply Hrow; [vm_compute; discriminate | lia]|].
  apply Forall_cons; [apply Hrow; [vm_compute; discriminate | lia] | apply Forall_nil].
Qed.

(** The export of two stored rows. *)
Lemma export_writes_the_rows_witness :
  auth_getUser (backend_without_profile dreamer) = Some dreamer
  /\ two_rows (id dreamer)
     = {| data := Some [stored_row "e-2" "Flying" 75; stored_row "e-1" "Forest" 65];
          error := None |}
  /\ exports_rows
       (Profile.handleExportData (backend_without_profile dreamer) two_rows this_morning)
       this_morning [stored_row "e-2" "Flying" 75; stored_row "e-1" "Forest" 65]
  /\ Profile.backup_name this_morning = "dreamtracker-backup-2024-03-11.json"%string.
Proof.
  split; [reflexivity|]. split; [reflexivity|].
  destruct (export_writes_the_rows (backend_without_profile dreamer) two_rows
              this_morning dreamer
              [stored_row "e-2" "Flying" 75; stored_row "e-1" "Forest" 65]
              eq_refl eq_refl ltac:(discriminate) two_rows_well_formed)
    as (_ & Hexp & _ & Hname).
  split; [exact Hexp|].
  apply (Hname "2024-03-11" "09:30:00.000Z")%string; [reflexivity|].
  repeat (apply absent_cons; [discriminate|]). apply absent_empty.
Defined.

End Witnesses.

(** ** The order of the entry list and of the chart *)
Module OrderFacts.
Import JS Analytics Spec Terms SortFacts ViewFacts ToggleFacts ChartFacts.
Local Open Scope list_scope.

Lemma ForallOrdPairs_perm {A : Type} (R : A -> A -> Prop) (l l' : list A) :
  (forall a b, R a b -> R b a) ->
  Permutation l l' -> ForallOrdPairs R l -> ForallOrdPairs R l'.
Proof.
  intros Hsym Hp. induction Hp as [|x l l' Hp IH|x y l|l l' l'' _ IH1 _ IH2]; intros H.
  - exact H.
  - inversion H as [|? ? Hx Hl]; subst. constructor; [|now apply IH].
    eapply Permutation_Forall; eauto.
  - inversion H as [|? ? Hy Hl]; subst. inversion Hl as [|? ? Hx Hl']; subst.
    inversion Hy as [|? ? Hyx Hyl]; subst.
    constructor; [constructor; [now apply Hsym | exact Hx]|].
    constructor; assumption.
  - auto.
Qed.

Lemma filter_perm {A : Type} (f : A -> bool) (l l' : list A) :
  Permutation l l' -> Permutation (filter f l) (filter f l').
Proof.
  induction 1 as [|x l l' _ IH|x y l|l l' l'' _ IH1 _ IH2]; simpl.
  - constructor.
  - destruct (f x); [now constructor | exact IH].
  - destruct (f x), (f y); try apply Permutation_refl. apply perm_swap.
  - eapply perm_trans; eauto.
Qed.

Section WithDates.
Context {dates : DatePlatform}.

Lemma ranked_asym key order (a b : DreamEntry) :
  ranked key order a b -> ranked key order b a -> False.
Proof. destruct order; unfold ranked, below; intros H1 H2; eapply lt_asym; eauto. Qed.

Lemma sort_ranked key order (l : list DreamEntry) :
  tie_free key l ->
  StronglySorted (ranked key order) (Array_sort (compare_entries key order) l).
Proof.
  destruct order; [apply sort_asc_sorted | apply sort_desc_sorted].
Qed.

Lemma below_earlier (a b : DreamEntry) : below by_created_at a b <-> earlier a b.
Proof. unfold below, earlier. simpl. apply lt_true. Qed.

Lemma newest_first_tie_free (entries : list DreamEntry) :
  newest_first entries -> tie_free by_created_at entries.
Proof.
  induction 1 as [|x l _ IH Hx]; constructor; [|exact IH].
  eapply Forall_impl; [|exact Hx]. intros b Hb. right. now apply below_earlier.
Qed.

Lemma newest_first_distinct (entries : list DreamEntry) :
  newest_first entries -> chronologically_distinct entries.
Proof.
  induction 1 as [|x l _ IH Hx]; constructor; [|exact IH].
  eapply Forall_impl; [|exact Hx]. intros b Hb. now right.
Qed.

Lemma sorted_filter {A : Type} (R : A -> A -> Prop) (f : A -> bool) (l : list A) :
  StronglySorted R l -> StronglySorted R (filter f l).
Proof.
  induction 1 as [|x l _ IH Hx]; simpl; [constructor|].
  destruct (f x); [|exact IH]. constructor; [exact IH|].
  apply Forall_forall. intros y Hy. apply filter_In in Hy.
  rewrite Forall_forall in Hx. now apply Hx.
Qed.

(** X1.  On a list without ties on the key the view is in the order of the sort
    controls: strictly increasing on the key for [asc], strictly decreasing
    for [desc]. *)
Theorem view_is_sorted
    (entries : list DreamEntry) (q : string) (key : SortField) (order : SortOrder) :
  tie_free key entries ->
  StronglySorted (ranked key order) (filteredAndSortedEntries entries q key order).
Proof.
  intros Ht. apply sort_ranked. now apply ForallOrdPairs_filter.
Qed.

(** X2.  On a list without ties on the key the view does not depend on the order
    in which the entries came. *)
Theorem view_ignores_arrival_order
    (entries entries' : list DreamEntry) (q : string) (key : SortField)
    (order : SortOrder) :
  Permutation entries entries' -> tie_free key entries ->
  filteredAndSortedEntries entries q key order
  = filteredAndSortedEntries entries' q key order.
Proof.
  intros Hp Ht.
  assert (tie_free key entries') as Ht'.
  { eapply ForallOrdPairs_perm; [|exact Hp|exact Ht]. intros a b [H|H]; auto. }
  apply (sorted_unique (ranked key order)).
  - apply ranked_asym.
  - eapply perm_trans; [apply Array_sort_perm|].
    eapply perm_trans; [|apply Permutation_sym, Array_sort_perm].
    now apply filter_perm.
  - apply sort_ranked. now apply ForallOrdPairs_filter.
  - apply sort_ranked. now apply ForallOrdPairs_filter.
Qed.

Lemma earlier_asym (a b : DreamEntry) : earlier a b -> earlier b a -> False.
Proof. rewrite <- !below_earlier. apply lt_asym. Qed.

Lemma sorted_impl {A : Type} (R R' : A -> A -> Prop) (l : list A) :
  (forall a b, R a b -> R' a b) -> StronglySorted R l -> StronglySorted R' l.
Proof.
  intros HR. induction 1 as [|x l _ IH Hx]; constructor; [exact IH|].
  eapply Forall_impl; [|exact Hx]. intros b. apply HR.
Qed.

Lemma sort_times_newest_first (entries : list DreamEntry) :
  newest_first entries -> Array_sort compare_times entries = rev entries.
Proof.
  intros Hn. apply (sorted_unique earlier).
  - exact earlier_asym.
  - eapply perm_trans; [apply Array_sort_perm | apply Permutation_rev].
  - apply sort_times_strictly_sorted. now apply newest_first_distinct.
  - apply sorted_rev. exact Hn.
Qed.

Lemma slice_last_rev {A : Type} (n : nat) (l : list A) :
  slice_last n (rev l) = rev (firstn n l).
Proof.
  unfold slice_last. rewrite length_rev, skipn_rev. f_equal.
  destruct (Nat.le_ge_cases n (length l)) as [H|H].
  - f_equal. lia.
  - replace (length l - (length l - n))%nat with (length l) by lia.
    rewrite firstn_all. symmetry. now apply firstn_all2.
Qed.

(** X7.  When no two entries have the same creation time the chart does not
    depend on the order in which the entries came. *)
Theorem chartData_ignores_arrival_order (entries entries' : list DreamEntry) :
  Permutation entries entries' -> chronologically_distinct entries ->
  chartData entries = chartData entries'.
Proof.
  intros Hp Hd.
  assert (chronologically_distinct entries') as Hd'.
  { eapply ForallOrdPairs_perm; [|exact Hp|exact Hd]. intros a b [H|H]; auto. }
  unfold chartData. do 2 f_equal.
  apply (sorted_unique earlier).
  - exact earlier_asym.
  - eapply perm_trans; [apply Array_sort_perm|].
    eapply perm_trans; [exact Hp | apply Permutation_sym, Array_sort_perm].
  - now apply sort_times_strictly_sorted.
  - now apply sort_times_strictly_sorted.
Qed.

Lemma matches_of_newest_first (entries : list DreamEntry) (q : string) :
  newest_first entries ->
  StronglySorted (ranked by_created_at desc) (filter (matches q) entries).
Proof.
  intros Hn. apply sorted_filter. eapply sorted_impl; [|exact Hn].
  intros a b H. now apply below_earlier.
Qed.

(** X5.  Entries that come in the order the page asks the store for, the latest
    first, are listed in that order under the sort controls the page starts
    with, whatever the search: the view is the list of the matches as they
    came. *)
Theorem view_keeps_newest_first (entries : list DreamEntry) (q : string) :
  newest_first entries ->
  filteredAndSortedEntries entries q (sortBy initial_sort) (sortOrder initial_sort)
  = filter (matches q) entries.
Proof.
  intros Hn. cbn [initial_sort sortBy sortOrder]. unfold filteredAndSortedEntries.
  apply (sorted_unique (ranked by_created_at desc)).
  - apply ranked_asym.
  - apply Array_sort_perm.
  - apply sort_ranked. apply ForallOrdPairs_filter. now apply newest_first_tie_free.
  - now apply matches_of_newest_first.
Qed.

(** X6.  Of entries that come the latest first, the chart shows the first seven,
    in the reverse order: the oldest of the seven on the left. *)
Theorem chartData_of_newest_first (entries : list DreamEntry) :
  newest_first entries ->
  chartData entries = map chart_point (rev (firstn 7 entries)).
Proof.
  intros Hn. unfold chartData.
  now rewrite (sort_times_newest_first entries Hn), slice_last_rev.
Qed.

End WithDates.
End OrderFacts.

(** ** The range of the cards and the text of the insight *)
Module CardFacts.
Import JS Analytics Spec Terms NumberFacts FixedFacts StatsFacts.
Local Open Scope Q_scope.

Lemma sum_ge (f : DreamEntry -> Q) (l : list DreamEntry) (lo : Q) :
  Forall (fun e => lo <= f e) l ->
  lo * inject_Z (Z.of_nat (length l)) <= fold_right Qplus 0 (map f l).
Proof.
  induction 1 as [|e l H _ IH].
  - cbn [length map fold_right Z.of_nat]. change (inject_Z 0) with 0. lra.
  - cbn [length map fold_right]. rewrite Nat2Z.inj_succ. unfold Z.succ.
    rewrite inject_Z_plus. change (inject_Z 1) with 1.
    set (n := inject_Z (Z.of_nat (length l))) in *.
    set (s := fold_right Qplus 0 (map f l)) in *. lra.
Qed.

Lemma sum_le (f : DreamEntry -> Q) (l : list DreamEntry) (hi : Q) :
  Forall (fun e => f e <= hi) l ->
  fold_right Qplus 0 (map f l) <= hi * inject_Z (Z.of_nat (length l)).
Proof.
  induction 1 as [|e l H _ IH].
  - cbn [length map fold_right Z.of_nat]. change (inject_Z 0) with 0. lra.
  - cbn [length map fold_right]. rewrite Nat2Z.inj_succ. unfold Z.succ.
    rewrite inject_Z_plus. change (inject_Z 1) with 1.
    set (n := inject_Z (Z.of_nat (length l))) in *.
    set (s := fold_right Qplus 0 (map f l)) in *. lra.
Qed.

Lemma length_pos (l : list DreamEntry) :
  l <> [] -> 0 < inject_Z (Z.of_nat (length l)).
Proof.
  intros Hne. change 0 with (inject_Z 0). rewrite <- Zlt_Qlt.
  destruct l; [congruence | simpl; lia].
Qed.

Lemma mean_ge (f : DreamEntry -> Q) (l : list DreamEntry) (lo : Q) :
  l <> [] -> Forall (fun e => lo <= f e) l -> lo <= mean f l.
Proof.
  intros Hne H. unfold mean.
  apply Qle_shift_div_l; [now apply length_pos | now apply sum_ge].
Qed.

Lemma mean_le (f : DreamEntry -> Q) (l : list DreamEntry) (hi : Q) :
  l <> [] -> Forall (fun e => f e <= hi) l -> mean f l <= hi.
Proof.
  intros Hne H. unfold mean.
  apply Qle_shift_div_r; [now apply length_pos | now apply sum_le].
Qed.

(** A number rounded to one decimal place stays on the same side of a whole
    number. *)
Lemma nearest_tenth_between (x r : Q) (lo hi : Z) :
  nearest_tenth x r -> inject_Z lo <= x -> x <= inject_Z hi ->
  inject_Z lo <= r /\ r <= inject_Z hi.
Proof.
  intros [[n Hn] Hnear] Hlo Hhi. apply Qabs_Qle_condition in Hnear.
  destruct Hnear as [Hn1 Hn2].
  rewrite Hn in Hn1, Hn2 |- *.
  unfold Qdiv in *. change (/ 10) with (1 # 10) in *.
  assert (10 * lo <= n)%Z as Zlo.
  { assert (inject_Z (10 * lo) < inject_Z (n + 1)) as H.
    { rewrite inject_Z_mult, inject_Z_plus.
      change (inject_Z 10) with 10. change (inject_Z 1) with 1.
      set (a := inject_Z lo) in *. set (b := inject_Z n) in *. lra. }
    rewrite <- Zlt_Qlt in H. lia. }
  assert (n <= 10 * hi)%Z as Zhi.
  { assert (inject_Z n < inject_Z (10 * hi + 1)) as H.
    { rewrite inject_Z_plus, inject_Z_mult.
      change (inject_Z 10) with 10. change (inject_Z 1) with 1.
      set (a := inject_Z hi) in *. set (b := inject_Z n) in *. lra. }
    rewrite <- Zlt_Qlt in H. lia. }
  rewrite Zle_Qle in Zlo, Zhi. rewrite inject_Z_mult in Zlo, Zhi.
  change (inject_Z 10) with 10 in *.
  set (a := inject_Z lo) in *. set (c := inject_Z hi) in *. set (b := inject_Z n) in *.
  split; lra.
Qed.

Lemma card_text_stats (c : Card) (e : DreamEntry) (l : list DreamEntry) (st : Stats) :
  stats (e :: l) = Some st -> card_text c st = toFixed (average (metric c) (e :: l)) 1.
Proof. intros H. injection H as <-. now destruct c. Qed.

(** X8.  When a metric lies between two whole numbers in every entry, the number
    its card shows lies between them too: rounding the mean never takes it
    out of the range of the values. *)
Theorem cards_stay_in_range
    (c : Card) (entries : list DreamEntry) (st : Stats) (lo hi : Z) :
  stats entries = Some st ->
  Forall (fun e => inject_Z lo <= metric c e /\ metric c e <= inject_Z hi) entries ->
  exists r, parseFloat (card_text c st) = Num r /\ inject_Z lo <= r /\ r <= inject_Z hi.
Proof.
  intros Hs Hb. destruct entries as [|e l]; [discriminate|].
  rewrite (card_text_stats c e l st Hs).
  destruct (average_displayed (metric c) (e :: l)) as [_ (r & Er & Hr)].
  exists r. split; [exact Er|].
  apply (nearest_tenth_between (mean (metric c) (e :: l))); [exact Hr| |].
  - apply mean_ge; [discriminate|]. eapply Forall_impl; [|exact Hb]. now intros a [H _].
  - apply mean_le; [discriminate|]. eapply Forall_impl; [|exact Hb]. now intros a [_ H].
Qed.

(** X9.  When the mean of a metric has one decimal at most, its card shows the
    mean itself: rounding changes nothing then. *)
Theorem card_shows_a_one_decimal_mean
    (c : Card) (entries : list DreamEntry) (st : Stats) (tenths : Z) :
  stats entries = Some st ->
  mean (metric c) entries == inject_Z tenths / 10 ->
  exists r, parseFloat (card_text c st) = Num r /\ r == mean (metric c) entries.
Proof.
  intros Hs Hm. destruct entries as [|e l]; [discriminate|].
  rewrite (card_text_stats c e l st Hs).
  destruct (average_displayed (metric c) (e :: l)) as [_ (r & Er & [n Hn] & Hnear)].
  exists r. split; [exact Er|].
  rewrite Hm in Hnear |- *. rewrite Hn in Hnear |- *.
  apply Qabs_Qle_condition in Hnear. destruct Hnear as [H1 H2].
  unfold Qdiv in *. change (/ 10) with (1 # 10) in *.
  assert (n = tenths) as ->; [|reflexivity].
  assert (inject_Z tenths < inject_Z (n + 1)) as Ha.
  { rewrite inject_Z_plus. change (inject_Z 1) with 1.
    set (a := inject_Z tenths) in *. set (b := inject_Z n) in *. lra. }
  assert (inject_Z n < inject_Z (tenths + 1)) as Hb.
  { rewrite inject_Z_plus. change (inject_Z 1) with 1.
    set (a := inject_Z tenths) in *. set (b := inject_Z n) in *. lra. }
  rewrite <- Zlt_Qlt in Ha, Hb. lia.
Qed.

(** X10.  A journal of healthy nights only, nights none of the four rules would
    trigger on, gets the all-good message: rounding the means never makes
    such a journal look unhealthy. *)
Theorem healthy_nights_get_the_all_good_message (entries : list DreamEntry) :
  entries <> [] -> Forall healthy entries -> getSuggestion entries = msg_healthy.
Proof.
  intros Hne Hh. rewrite (getSuggestion_thresholds entries Hne).
  assert (7 <= mean sleep_hours entries) as H1.
  { apply mean_ge; [exact Hne|]. eapply Forall_impl; [|exact Hh]. now intros e (H & _). }
  assert (mean caffeine_intake entries <= 2) as H2.
  { apply mean_le; [exact Hne|]. eapply Forall_impl; [|exact Hh]. now intros e (_ & H & _). }
  assert (mean stress_level entries <= 6) as H3.
  { apply mean_le; [exact Hne|]. eapply Forall_impl; [|exact Hh].
    now intros e (_ & _ & H & _). }
  assert (6 <= mean sleep_quality entries) as H4.
  { apply mean_ge; [exact Hne|]. eapply Forall_impl; [|exact Hh].
    now intros e (_ & _ & _ & H). }
  unfold triggered_after_rounding.
  assert (Qle_bool (139 # 20) (mean sleep_hours entries) = true) as ->
    by (apply Qle_bool_iff; lra).
  assert (Qle_bool (119 # 20) (mean sleep_quality entries) = true) as ->
    by (apply Qle_bool_iff; lra).
  destruct (Qle_bool (41 # 20) (mean caffeine_intake entries)) eqn:E2;
    [apply Qle_bool_iff in E2; lra|].
  destruct (Qle_bool (121 # 20) (mean stress_level entries)) eqn:E3;
    [apply Qle_bool_iff in E3; lra|].
  reflexivity.
Qed.

(** X11.  The insight is never the empty text, and it is the prompt to start
    tracking for the empty list only. *)
Theorem getSuggestion_is_never_empty (entries : list DreamEntry) :
  getSuggestion entries <> EmptyString
  /\ (getSuggestion entries = msg_start <-> entries = []).
Proof.
  destruct entries as [|e l].
  - split; [discriminate|]. split; reflexivity.
  - rewrite (getSuggestion_thresholds (e :: l)) by discriminate.
    unfold triggered_after_rounding.
    destruct (Qle_bool (139 # 20) _), (Qle_bool (41 # 20) _),
      (Qle_bool (121 # 20) _), (Qle_bool (119 # 20) _);
      (split; [discriminate | split; discriminate]).
Qed.

End CardFacts.

(** ** The analytics page: loading and what is on screen *)
Module AnalyticsPageFacts.
Import JS Supabase Analytics Spec Client AnalyticsPage Terms StringFacts ViewFacts.
Local Open Scope list_scope.

(** X12.  Whatever the backend answers, loading the entries ends with the loading
    flag down, the search and the sort controls untouched, no notification
    and no request that changes the store; the entries are replaced when, and
    only when, a user is signed in and the store answers without an error,
    by the rows of the answer (by no entry when the answer carries none). *)
Theorem loadEntries_settles (st : State) (backend : Auth) (tables : Tables) :
  let actions := loadEntries backend tables in
  let st' := run st actions in
  isLoading st' = false
  /\ searchQuery st' = searchQuery st
  /\ sort st' = sort st
  /\ Forall (fun a => is_toast a = false /\ is_mutation a = false) actions
  /\ (forall user,
        auth_getUser backend = Some user ->
        entries_error (dream_entries_select tables (Supabase.id user)) = None ->
        entries st'
        = match entries_data (dream_entries_select tables (Supabase.id user)) with
          | Some data => data
          | None => []
          end)
  /\ (auth_getUser backend = None
      \/ (exists user err,
            auth_getUser backend = Some user
            /\ entries_error (dream_entries_select tables (Supabase.id user)) = Some err) ->
      entries st' = entries st).
Proof.
  cbv zeta. unfold loadEntries.
  destruct (auth_getUser backend) as [user|]; cbn [app].
  - destruct (entries_error (dream_entries_select tables (Supabase.id user))) as [err|] eqn:E;
      cbn [app run fold_left apply isLoading searchQuery sort entries].
    + repeat (split; [try reflexivity; repeat constructor|]).
      * intros u Hu. injection Hu as <-. rewrite E. discriminate.
      * reflexivity.
    + repeat (split; [try reflexivity; repeat constructor|]).
      * intros u Hu _. injection Hu as <-. reflexivity.
      * intros [H|(u & err & Hu & He)]; [discriminate|].
        injection Hu as <-. rewrite E in He. discriminate.
  - cbn [app run fold_left apply isLoading searchQuery sort entries].
    repeat (split; [try reflexivity; repeat constructor|]).
    + intros u Hu. discriminate.
    + reflexivity.
Qed.

Section WithDates.
Context {dates : DatePlatform}.

(** X13.  A load that fails, for want of a signed-in user or by an error of the
    store, leaves the freshly mounted page showing what an empty journal
    shows: no card, the prompt to start tracking, empty charts, a list of
    zero entries and the line for a journal without entries. *)
Theorem failed_load_shows_an_empty_journal (backend : Auth) (tables : Tables) :
  auth_getUser backend = None
  \/ (exists user err,
        auth_getUser backend = Some user
        /\ entries_error (dream_entries_select tables (Supabase.id user)) = Some err) ->
  render (run initial (loadEntries backend tables))
  = dashboard None msg_start [] 0 (Some msg_no_entries) [].
Proof.
  intros [H|(user & err & Hu & He)]; unfold loadEntries.
  - rewrite H. reflexivity.
  - rewrite Hu. cbv zeta. rewrite He. reflexivity.
Qed.





(** X14.  A freshly mounted page whose load succeeds, the store answering with
    the entries of the user the latest first, shows those entries: their
    statistics and insight, the first seven of them in the charts, the oldest
    of the seven on the left, their number in the heading, and the entries
    themselves in the order they came (the line for a journal without entries
    when there is none). *)
Theorem mounted_page_shows_the_answer
    (backend : Auth) (tables : Tables) (user : User) (rows : list DreamEntry) :
  auth_getUser backend = Some user ->
  dream_entries_select tables (Supabase.id user)
  = {| entries_data := Some rows; entries_error := None |} ->
  newest_first rows ->
  render (run initial (loadEntries backend tables))
  = dashboard (stats rows) (getSuggestion rows) (map chart_point (rev (firstn 7 rows)))
      (length rows)
      match rows with
      | [] => Some msg_no_entries
      | _ :: _ => None
      end
      rows.
Proof.
  intros Hu Hs Hn. unfold loadEntries. rewrite Hu. cbv zeta. rewrite Hs.
  cbn [entries_error entries_data app run fold_left apply initial
       entries searchQuery sort isLoading].
  unfold render, list_notice, listed, chartData.
  cbn [entries searchQuery sort isLoading initial_sort sortBy sortOrder].
  assert (filteredAndSortedEntries rows EmptyString by_created_at desc = rows) as ->.
  { unfold filteredAndSortedEntries. rewrite filter_matches_empty.
    apply (SortFacts.sorted_unique (ranked by_created_at desc)).
    - apply OrderFacts.ranked_asym.
    - apply SortFacts.Array_sort_perm.
    - apply OrderFacts.sort_ranked. now apply OrderFacts.newest_first_tie_free.
    - rewrite <- (filter_matches_empty rows).
      now apply OrderFacts.matches_of_newest_first. }
  rewrite (OrderFacts.sort_times_newest_first rows Hn), OrderFacts.slice_last_rev.
  f_equal. now destruct rows.
Qed.

(** X3.  The search does not tell a capital from a small letter in what the user
    types: two searches that are equal up to the case of their letters list
    the same entries in the same order. *)
Theorem search_ignores_case
    (entries : list DreamEntry) (q q' : string) (key : SortField) (order : SortOrder) :
  equal_ignoring_case q q' ->
  filteredAndSortedEntries entries q key order
  = filteredAndSortedEntries entries q' key order.
Proof.
  intros H. apply toLowerCase_equal_ignoring_case in H.
  unfold filteredAndSortedEntries. f_equal.
  apply filter_ext. intros e. unfold matches. now rewrite H.
Qed.




(** X16.  A press on a sort control only reorders the list: the page lists the
    same entries, as many times each, under the same heading number, and the
    cards, the insight and the charts are what they were. *)
Theorem sort_press_only_reorders (st : State) (field : SortField) :
  Permutation (listed (press field st)) (listed st)
  /\ length (listed (press field st)) = length (listed st)
  /\ list_notice (press field st) = list_notice st
  /\ (isLoading st = false ->
      exists cards insight charts heading notice rows rows',
        render st = dashboard cards insight charts heading notice rows
        /\ render (press field st) = dashboard cards insight charts heading notice rows'
        /\ Permutation rows' rows).
Proof.
  assert (Permutation (listed (press field st)) (listed st)) as Hp.
  { unfold listed, press. cbn [entries searchQuery sort].
    eapply perm_trans; [apply view_perm_filter|].
    apply Permutation_sym, view_perm_filter. }
  assert (length (listed (press field st)) = length (listed st)) as Hl
    by now apply Permutation_length.
  assert (list_notice (press field st) = list_notice st) as Hn.
  { unfold list_notice. rewrite Hl. reflexivity. }
  split; [exact Hp|]. split; [exact Hl|]. split; [exact Hn|].
  intros Hi. unfold render. cbn [press isLoading entries]. rewrite Hi.
  do 7 eexists. split; [reflexivity|]. split; [|exact Hp].
  f_equal; [exact Hl | exact Hn].
Qed.

End WithDates.
End AnalyticsPageFacts.

(** ** The journal page: saving an entry *)
Module JournalFacts.
Import JS Supabase Journal JournalPage Schema Spec WorkflowFacts.
Local Open Scope list_scope.

Lemma falsy_false (s : string) : falsy s = false <-> s <> EmptyString.
Proof. destruct s; simpl; split; intros H; congruence. Qed.

(** X17.  A save from an idle form ends in one of two ways.  Either it tells of a
    success, of no error, the form is back to its initial state, and the
    entry was sent and the store took it; or it tells of an error, of no
    success, the form is as the user left it, and the store took nothing. *)
Theorem save_resets_or_keeps_the_form (st : State) (backend : Auth) :
  isLoading st = false ->
  let effects := handleSaveEntry st backend in
  (In (toast_success "Dream journal entry saved!") effects
   /\ (forall msg, ~ In (toast_error msg) effects)
   /\ run st effects = initial
   /\ exists entry, In (network (InsertEntry entry)) effects
                    /\ dream_entries_insert backend entry = None)
  \/ ((exists msg, In (toast_error msg) effects)
      /\ (forall msg, ~ In (toast_success msg) effects)
      /\ run st effects = st
      /\ forall entry, In (network (InsertEntry entry)) effects ->
                       dream_entries_insert backend entry <> None).
Proof.
  destruct st as [t c h ci q m s l]. cbn [isLoading]. intros ->. cbv zeta.
  unfold handleSaveEntry. cbn [dreamTitle dreamContent sleepHours caffeineIntake
    sleepQuality mood stressLevel].
  destruct (falsy t || falsy c).
  - right. split; [eexists; now left|]. split; [|split; [reflexivity|]].
    + intros msg [H|[]]. discriminate.
    + intros entry [H|[]]. discriminate.
  - destruct (auth_getUser backend) as [user|].
    + match goal with
      | |- context [dream_entries_insert backend ?e] =>
          set (entry := e); destruct (dream_entries_insert backend entry) as [err|] eqn:E
      end.
      * right.
        assert (exists msg,
                  (if includes (message err) missing_table
                   then [toast_error
                           "Database not set up. Please run the SQL queries in Supabase first."]
                   else [toast_error (or_else (message err) "Failed to save entry")])
                  = [toast_error msg]) as [msg ->]
          by (destruct (includes (message err) missing_table); eexists; reflexivity).
        split; [exists msg; simpl; tauto|]. split; [|split; [reflexivity|]].
        -- intros msg' H. simpl in H.
           repeat (destruct H as [H|H]; [discriminate H|]). exact H.
        -- intros entry' H. simpl in H.
           repeat (destruct H as [H|H]; [try discriminate H|]); [|destruct H].
           injection H as <-. congruence.
      * left. split; [simpl; tauto|]. split; [|split; [reflexivity|]].
        -- intros msg' H. simpl in H.
           repeat (destruct H as [H|H]; [discriminate H|]). exact H.
        -- exists entry. split; [simpl; tauto | exact E].
    + right. split; [eexists; simpl; right; right; now left|].
      split; [|split; [reflexivity|]].
      * intros msg' H. simpl in H.
        repeat (destruct H as [H|H]; [discriminate H|]). exact H.
      * intros entry' H. simpl in H.
        repeat (destruct H as [H|H]; [discriminate H|]). destruct H.
Qed.

(** X18.  An entry is sent to the store only for a signed-in user and under that
    user's id, with the title and the content of the form, neither of them
    empty, and with the values of the controls; a save sends one entry at
    most. *)
Theorem inserted_entry_is_the_form (st : State) (backend : Auth) :
  let effects := handleSaveEntry st backend in
  (forall entry, In (network (InsertEntry entry)) effects ->
     (exists user, auth_getUser backend = Some user /\ new_user_id entry = id user)
     /\ new_title entry = dreamTitle st /\ dreamTitle st <> EmptyString
     /\ new_content entry = dreamContent st /\ dreamContent st <> EmptyString
     /\ new_sleep_hours entry = hd_error (sleepHours st)
     /\ new_caffeine_intake entry = hd_error (caffeineIntake st)
     /\ new_sleep_quality entry = sleepQuality st
     /\ new_mood entry = mood st
     /\ new_stress_level entry = hd_error (stressLevel st))
  /\ (length (filter (fun e => match e with network (InsertEntry _) => true | _ => false end)
                     effects) <= 1)%nat.
Proof.
  cbv zeta. unfold handleSaveEntry.
  destruct (falsy (dreamTitle st)) eqn:Et; cbn [orb].
  { split; [|simpl; lia]. intros entry [H|[]]. discriminate. }
  destruct (falsy (dreamContent st)) eqn:Ec.
  { split; [|simpl; lia]. intros entry [H|[]]. discriminate. }
  apply falsy_false in Et, Ec.
  destruct (auth_getUser backend) as [user|].
  - match goal with
    | |- context [dream_entries_insert backend ?e] =>
        set (sent := e); destruct (dream_entries_insert backend sent) as [err|]
    end.
    + destruct (includes (message err) missing_table);
        (split; [|simpl; lia]); intros entry H; simpl in H;
        (repeat (destruct H as [H|H]; [try discriminate H|])); try (now destruct H);
        injection H as <-; (split; [now exists user|]); repeat split; assumption.
    + (split; [|simpl; lia]); intros entry H; simpl in H;
        (repeat (destruct H as [H|H]; [try discriminate H|])); try (now destruct H);
        injection H as <-; (split; [now exists user|]); repeat split; assumption.
  - split; [|simpl; lia]. intros entry H. simpl in H.
    repeat (destruct H as [H|H]; [discriminate H|]). destruct H.
Qed.

End JournalFacts.

(** ** The journal form and the table of the entries *)
Module FormFacts.
Import JS Supabase Journal JournalPage Schema.
Local Open Scope Q_scope.











End FormFacts.

(** ** The login page and the shell *)
Module LoginFacts.
Import JS Supabase Login Spec WorkflowFacts.
Local Open Scope list_scope.



(** X22.  An attempt from an idle form leaves the form idle and its fields as the
    user filled them, whatever the backend answers; the login with the test
    account leaves it idle too, the email and the password replaced by those
    of the test account. *)
Theorem login_attempts_leave_the_form_idle (st : State) (backend : Auth) :
  isLoading st = false ->
  run st (handleSubmit st backend) = st
  /\ run st (handleTestLogin backend)
     = {| isSignup := isSignup st; showPassword := showPassword st;
          email := test_email; password := test_password; name := name st;
          isLoading := false |}.
Proof.
  destruct st as [s sp e p n l]. cbn [isLoading]. intros ->. split.
  - unfold handleSubmit. cbn [isSignup email password name].
    destruct (falsy e || falsy p || s && falsy n); [reflexivity|].
    destruct (String.length p <? 6)%nat; [reflexivity|].
    destruct s.
    + destruct (auth_signUp backend e p n) as [[user|] [err|]]; reflexivity.
    + destruct (auth_signInWithPassword backend e p) as [[user|] [err|]]; reflexivity.
  - unfold handleTestLogin.
    destruct (auth_signInWithPassword backend test_email test_password)
      as [[user|] [err|]]; reflexivity.
Qed.

(** X23.  The login page moves the shell only on a success: when a handler of
    the page calls [onLogin], the shell ends logged in, on the journal page,
    with the email and the name of the call; when it does not, the shell is
    as it was. *)
Theorem login_page_moves_the_shell_only_on_success
    (st : State) (backend : Auth) (app : App.State) :
  let moved effects :=
    (forall e n, In (onLogin e n) effects ->
       App.run app (App.with_login effects)
       = {| App.currentPage := journal; App.isLoggedIn := true;
            App.currentUser := Some {| current_email := e; current_name := n |} |})
    /\ ((forall e n, ~ In (onLogin e n) effects) ->
        App.run app (App.with_login effects) = app) in
  moved (handleSubmit st backend) /\ moved (handleTestLogin backend).
Proof.
  destruct app as [p l u]. cbv zeta. split.
  - unfold handleSubmit.
    destruct (falsy (email st) || falsy (password st) || isSignup st && falsy (name st)).
    { split; [|reflexivity]. intros e n H. simpl in H.
      repeat (destruct H as [H|H]; [discriminate H|]). destruct H. }
    destruct (String.length (password st) <? 6)%nat.
    { split; [|reflexivity]. intros e n H. simpl in H.
      repeat (destruct H as [H|H]; [discriminate H|]). destruct H. }
    destruct (isSignup st).
    + destruct (auth_signUp backend (email st) (password st) (name st))
        as [[user|] [err|]]; cbn [auth_error auth_user];
        (split; [intros e n H; simpl in H;
                 repeat (destruct H as [H|H]; [try discriminate H|]);
                 try (now destruct H); injection H as <- <-; reflexivity
                | intros H; try reflexivity; exfalso; eapply H; simpl; eauto 10]).
    + destruct (auth_signInWithPassword backend (email st) (password st))
        as [[user|] [err|]]; cbn [auth_error auth_user];
        (split; [intros e n H; simpl in H;
                 repeat (destruct H as [H|H]; [try discriminate H|]);
                 try (now destruct H); injection H as <- <-; reflexivity
                | intros H; try reflexivity; exfalso; eapply H; simpl; eauto 10]).
  - unfold handleTestLogin.
    destruct (auth_signInWithPassword backend test_email test_password)
      as [[user|] [err|]]; cbn [auth_error auth_user];
      (split; [intros e n H; simpl in H;
               repeat (destruct H as [H|H]; [try discriminate H|]);
               try (now destruct H); injection H as <- <-; reflexivity
              | intros H; try reflexivity; exfalso; eapply H; simpl; eauto 10]).
Qed.

End LoginFacts.

(** ** The shell *)
Module ShellFacts.
Import JS Supabase Client Shell.
Local Open Scope list_scope.

(** The two shapes a state of the shell can have. *)
Lemma step_keeps_shape (st st' : App.State) :
  step st st' ->
  (App.isLoggedIn st = false /\ App.currentUser st = None)
  \/ (App.isLoggedIn st = true /\ (exists u, App.currentUser st = Some u)
      /\ In (App.currentPage st) navItems) ->
  (App.isLoggedIn st' = false /\ App.currentUser st' = None)
  \/ (App.isLoggedIn st' = true /\ (exists u, App.currentUser st' = Some u)
      /\ In (App.currentPage st') navItems).
Proof.
  intros Hstep Hshape.
  destruct Hstep as [st [user|] backend|st [user|] backend|st email name|st page Hp|st].
  - right. simpl. split; [reflexivity|]. split; [now eexists | now left].
  - exact Hshape.
  - right. simpl. split; [reflexivity|]. split; [now eexists | now left].
  - left. simpl. now split.
  - right. simpl. split; [reflexivity|]. split; [now eexists | now left].
  - destruct Hshape as [(Hl & Hu)|(Hl & Hu & _)]; [left | right]; simpl.
    + now split.
    + split; [exact Hl|]. split; [exact Hu | exact Hp].
  - left. simpl. now split.
Qed.

(** X24.  In every state the shell can reach, the login flag, the user and the
    page name agree: either nobody is logged in, there is no user and the
    shell renders the login page, or somebody is logged in, there is a user,
    the page name is one of the three pages of the navigation bar and the
    shell renders that page.  So the shell always has a page to render. *)
Theorem shell_always_renders_a_page (st : App.State) :
  reachable st ->
  (App.isLoggedIn st = false /\ App.currentUser st = None
   /\ rendered st = Some login)
  \/ (App.isLoggedIn st = true /\ (exists u, App.currentUser st = Some u)
      /\ In (App.currentPage st) navItems /\ rendered st = Some (App.currentPage st)).
Proof.
  intros Hr.
  assert ((App.isLoggedIn st = false /\ App.currentUser st = None)
          \/ (App.isLoggedIn st = true /\ (exists u, App.currentUser st = Some u)
              /\ In (App.currentPage st) navItems)) as Hshape.
  { induction Hr as [|st st' _ IH Hstep].
    - left. now split.
    - now apply (step_keeps_shape st st'). }
  destruct Hshape as [(Hl & Hu)|(Hl & Hu & Hp)]; [left | right].
  - repeat split; try assumption. unfold rendered. now rewrite Hl.
  - repeat split; try assumption. unfold rendered. rewrite Hl. simpl.
    simpl in Hp. destruct Hp as [<-|[<-|[<-|[]]]]; reflexivity.
Qed.

End ShellFacts.

(** ** The profile page: the form, the entry count and the clearing *)
Module ProfilePageFacts.
Import JS Supabase Client ProfilePage.
Local Open Scope list_scope.

(** X25.  Saving the profile from an idle form leaves the form as it is and ends
    in one of three ways: with a field empty, by the one notification that
    asks to fill the fields, nothing being asked of the backend; by a
    notification of success, the update having been sent for the signed-in
    user with the name and the email of the form and taken by the store; or
    by a notification of an error, the store having taken no update. *)
Theorem profile_save_outcomes (st : State) (backend : Auth) (tables : Tables) :
  isLoading st = false ->
  let actions := handleSaveProfile st backend tables in
  run st actions = st
  /\ ((name st = EmptyString \/ email st = EmptyString)
      /\ actions = [effect (toast_error "Please fill in all fields")]
      \/ (name st <> EmptyString /\ email st <> EmptyString
          /\ In (effect (toast_success "Profile updated successfully!")) actions
          /\ (forall msg, ~ In (effect (toast_error msg)) actions)
          /\ exists user,
               auth_getUser backend = Some user
               /\ In (request (UpdateProfile (id user) (name st) (email st))) actions
               /\ profiles_update tables (id user) (name st) (email st) = None)
      \/ (name st <> EmptyString /\ email st <> EmptyString
          /\ (exists msg, In (effect (toast_error msg)) actions)
          /\ (forall msg, ~ In (effect (toast_success msg)) actions)
          /\ forall i n e, In (request (UpdateProfile i n e)) actions ->
                           profiles_update tables i n e <> None)).
Proof.
  destruct st as [n e c l]. cbn [isLoading]. intros ->. cbv zeta.
  unfold handleSaveProfile. cbn [name email].
  destruct (falsy n) eqn:En; cbn [orb].
  { split; [reflexivity|]. left. split; [|reflexivity].
    left. destruct n; [reflexivity | discriminate]. }
  destruct (falsy e) eqn:Ee.
  { split; [reflexivity|]. left. split; [|reflexivity].
    right. destruct e; [reflexivity | discriminate]. }
  apply JournalFacts.falsy_false in En, Ee.
  destruct (auth_getUser backend) as [user|].
  - destruct (profiles_update tables (id user) n e) as [err|] eqn:E.
    + split; [reflexivity|]. right. right. split; [exact En|]. split; [exact Ee|].
      split; [eexists; simpl; right; right; right; now left|]. split.
      * intros msg H. simpl in H.
        repeat (destruct H as [H|H]; [discriminate H|]). exact H.
      * intros i n' e' H. simpl in H.
        repeat (destruct H as [H|H]; [try discriminate H|]); [|destruct H].
        injection H as <- <- <-. congruence.
    + split; [reflexivity|]. right. left. split; [exact En|]. split; [exact Ee|].
      split; [simpl; tauto|]. split.
      * intros msg H. simpl in H.
        repeat (destruct H as [H|H]; [discriminate H|]). exact H.
      * exists user. split; [reflexivity|]. split; [simpl; tauto | exact E].
  - split; [reflexivity|]. right. right. split; [exact En|]. split; [exact Ee|].
    split; [eexists; simpl; right; right; now left|]. split.
    + intros msg H. simpl in H.
      repeat (destruct H as [H|H]; [discriminate H|]). exact H.
    + intros i n' e' H. simpl in H.
      repeat (destruct H as [H|H]; [discriminate H|]). destruct H.
Qed.

(** X26.  Clearing the data ends in one of two ways: by a notification of success,
    the entry count at zero, the deletion having been sent for the signed-in
    user and taken by the store; or by a notification of an error, the entry
    count as it was, the store having taken no deletion.  The form is left
    as it is in both. *)
Theorem clearing_outcomes (st : State) (backend : Auth) (tables : Tables) :
  let actions := handleClearData backend tables in
  let st' := run st actions in
  name st' = name st /\ email st' = email st /\ isLoading st' = isLoading st
  /\ ((In (effect (toast_success "All data cleared successfully")) actions
       /\ (forall msg, ~ In (effect (toast_error msg)) actions)
       /\ entryCount st' = 0%Z
       /\ exists user,
            auth_getUser backend = Some user
            /\ In (request (DeleteEntries (id user))) actions
            /\ dream_entries_delete tables (id user) = None)
      \/ ((exists msg, In (effect (toast_error msg)) actions)
          /\ (forall msg, ~ In (effect (toast_success msg)) actions)
          /\ entryCount st' = entryCount st
          /\ forall i, In (request (DeleteEntries i)) actions ->
                       dream_entries_delete tables i <> None)).
Proof.
  cbv zeta. unfold handleClearData.
  destruct (auth_getUser backend) as [user|].
  - destruct (dream_entries_delete tables (id user)) as [err|] eqn:E.
    + repeat (split; [reflexivity|]). right.
      split; [eexists; simpl; right; right; now left|]. split; [|split; [reflexivity|]].
      * intros msg H. simpl in H.
        repeat (destruct H as [H|H]; [discriminate H|]). exact H.
      * intros i H. simpl in H.
        repeat (destruct H as [H|H]; [try discriminate H|]); [|destruct H].
        injection H as <-. congruence.
    + repeat (split; [reflexivity|]). left.
      split; [simpl; tauto|]. split; [|split; [reflexivity|]].
      * intros msg H. simpl in H.
        repeat (destruct H as [H|H]; [discriminate H|]). exact H.
      * exists user. split; [reflexivity|]. split; [simpl; tauto | exact E].
  - repeat (split; [reflexivity|]). right.
    split; [eexists; simpl; right; now left|]. split; [|split; [reflexivity|]].
    + intros msg H. simpl in H.
      repeat (destruct H as [H|H]; [discriminate H|]). exact H.
    + intros i H. simpl in H.
      repeat (destruct H as [H|H]; [discriminate H|]). destruct H.
Qed.

(** X27.  Loading the entry count leaves the form as it is and shows no
    notification.  The count is replaced when, and only when, a user is
    signed in and the store answers without an error: by the number the
    store counted, by zero when the answer carries no number. *)
Theorem loadEntryCount_settles (st : State) (backend : Auth) (tables : Tables) :
  let actions := loadEntryCount backend tables in
  let st' := run st actions in
  name st' = name st /\ email st' = email st /\ isLoading st' = isLoading st
  /\ Forall (fun a => is_toast a = false /\ is_mutation a = false) actions
  /\ (forall user,
        auth_getUser backend = Some user ->
        count_error (dream_entries_count tables (id user)) = None ->
        entryCount st'
        = match count (dream_entries_count tables (id user)) with
          | Some n => n
          | None => 0%Z
          end)
  /\ (auth_getUser backend = None
      \/ (exists user err,
            auth_getUser backend = Some user
            /\ count_error (dream_entries_count tables (id user)) = Some err) ->
      entryCount st' = entryCount st).
Proof.
  cbv zeta. unfold loadEntryCount.
  destruct (auth_getUser backend) as [user|].
  - destruct (count_error (dream_entries_count tables (id user))) as [err|] eqn:E.
    + repeat (split; [try reflexivity; repeat constructor|]).
      * intros u Hu. injection Hu as <-. rewrite E. discriminate.
      * reflexivity.
    + repeat (split; [try reflexivity; repeat constructor|]).
      * intros u Hu _. injection Hu as <-. simpl. unfold count_or_zero.
        destruct (count (dream_entries_count tables (id user))) as [n|]; [|reflexivity].
        destruct (n =? 0)%Z eqn:En; [|reflexivity]. apply Z.eqb_eq in En. now subst.
      * intros [H|(u & err & Hu & He)]; [discriminate|].
        injection Hu as <-. rewrite E in He. discriminate.
  - repeat (split; [try reflexivity; repeat constructor|]).
    + intros u Hu. discriminate.
    + reflexivity.
Qed.

End ProfilePageFacts.

(** ** What holds of every handler *)
Module HandlerFacts.
Import JS Supabase Client Terms.
Local Open Scope list_scope.

(** Splits on what the handler tests and on what the backend answers. *)
Ltac answers :=
  repeat match goal with
         | |- context [if ?c then _ else _] => destruct c eqn:?
         | |- context [match auth_getUser ?b with _ => _ end] =>
             destruct (auth_getUser b) eqn:?
         | |- context [match auth_error ?r with _ => _ end] =>
             destruct (auth_error r) eqn:?
         | |- context [match auth_user ?r with _ => _ end] =>
             destruct (auth_user r) eqn:?
         | |- context [match dream_entries_insert ?b ?e with _ => _ end] =>
             destruct (dream_entries_insert b e) eqn:?
         | |- context [match error ?r with _ => _ end] => destruct (error r) eqn:?
         | |- context [match data ?r with _ => _ end] => destruct (data r) as [[|? ?]|] eqn:?
         | |- context [match entries_error ?r with _ => _ end] =>
             destruct (entries_error r) eqn:?
         | |- context [match count_error ?r with _ => _ end] =>
             destruct (count_error r) eqn:?
         | |- context [match profiles_update ?t ?i ?n ?e with _ => _ end] =>
             destruct (profiles_update t i n e) eqn:?
         | |- context [match dream_entries_delete ?t ?i with _ => _ end] =>
             destruct (dream_entries_delete t i) eqn:?
         end.

Ltac unfold_handler :=
  unfold actions, Journal.handleSaveEntry, Login.handleSubmit, Login.handleTestLogin,
    Profile.handleExportData, AnalyticsPage.loadEntries, ProfilePage.loadEntryCount,
    ProfilePage.handleSaveProfile, ProfilePage.handleClearData, Shell.handleLogout.

(** X28.  A handler asks the store only for rows of the user it is acting for: an
    entry is inserted under that user's id, and entries are selected, counted
    and deleted, and a profile read and updated, by that user's id. *)
Theorem requests_name_the_acting_user
    (h : Handler) (backend : Auth) (tables : Tables) (a : Action) (uid : string) :
  In a (actions h backend tables) -> rows_of a = Some uid ->
  exists user, acting_user h backend = Some user /\ uid = id user.
Proof.
  destruct h; unfold_handler; cbv zeta; unfold acting_user; answers;
    intros H; simpl in H;
    repeat (destruct H as [<-|H]; [simpl; intros E; try discriminate E|]);
    try (now destruct H);
    injection E as <-; eexists; split; try eassumption; reflexivity.
Qed.

(** X29.  A handler shows one notification at most.  Saving an entry, exporting,
    saving the profile and clearing the data always show one; the handlers
    that run when a page is mounted, and the logout, show none. *)
Theorem one_notification_at_most (h : Handler) (backend : Auth) (tables : Tables) :
  let n := length (filter is_toast (actions h backend tables)) in
  match h with
  | SaveEntry _ | ExportData _ _ | SaveProfile _ | ClearData => n = 1%nat
  | LoadEntries | LoadEntryCount | Logout => n = 0%nat
  | Submit _ | TestLogin => (n <= 1)%nat
  end.
Proof.
  cbv zeta. destruct h; unfold_handler; cbv zeta; answers; simpl; lia.
Qed.

(** X30.  A handler sends one request at most that changes what the store holds,
    and none when it only reads: the export, the sign-in, the two loaders and
    the logout change nothing. *)
Theorem one_change_at_most (h : Handler) (backend : Auth) (tables : Tables) :
  let n := length (filter is_mutation (actions h backend tables)) in
  (n <= 1)%nat
  /\ match h with
     | SaveEntry _ | SaveProfile _ | ClearData => True
     | Submit st => Login.isSignup st = false -> n = 0%nat
     | TestLogin | ExportData _ _ | LoadEntries | LoadEntryCount | Logout => n = 0%nat
     end.
Proof.
  cbv zeta. destruct h; unfold_handler; cbv zeta; answers; simpl;
    (split; [lia | try exact I; try reflexivity; try discriminate; try lia]).
Qed.

End HandlerFacts.

(** ** The theorems on the further sample data *)
Module CaseWitnesses.
Import JS Analytics Supabase Client Spec Terms Samples Cases.
Import OrderFacts CardFacts AnalyticsPageFacts JournalFacts FormFacts LoginFacts
  ShellFacts ProfilePageFacts HandlerFacts.
Local Open Scope list_scope.

Ltac pairs tac :=
  repeat first [ apply FOP_nil | apply FOP_cons | apply Forall_nil | apply Forall_cons
               | apply SSorted_nil | apply SSorted_cons | tac ].

Ltac one_before :=
  first [ left; do 2 eexists; split; [reflexivity | split; reflexivity]
        | right; do 2 eexists; split; [reflexivity | split; reflexivity] ].

Ltac one_below := first [ left; reflexivity | right; reflexivity ].

Ltac found := repeat first [ left; reflexivity | right ].

(** The ten nights by sleep quality, best first. *)
Lemma view_is_sorted_witness :
  @tie_free calendar_dates by_sleep_quality ten_nights
  /\ StronglySorted (@ranked calendar_dates by_sleep_quality desc)
       (@filteredAndSortedEntries calendar_dates ten_nights EmptyString
          by_sleep_quality desc).
Proof.
  assert (@tie_free calendar_dates by_sleep_quality ten_nights) as Ht
    by (pairs one_below).
  split; [exact Ht|].
  exact (@view_is_sorted calendar_dates ten_nights EmptyString by_sleep_quality desc Ht).
Defined.

(** The ten nights and the same nights in the reverse order. *)
Lemma view_ignores_arrival_order_witness :
  Permutation ten_nights (rev ten_nights)
  /\ @tie_free calendar_dates by_sleep_hours ten_nights
  /\ @filteredAndSortedEntries calendar_dates ten_nights "a" by_sleep_hours asc
     = @filteredAndSortedEntries calendar_dates (rev ten_nights) "a" by_sleep_hours asc.
Proof.
  assert (Permutation ten_nights (rev ten_nights)) as Hp by apply Permutation_rev.
  assert (@tie_free calendar_dates by_sleep_hours ten_nights) as Ht
    by (pairs one_below).
  split; [exact Hp|]. split; [exact Ht|].
  exact (@view_ignores_arrival_order calendar_dates ten_nights (rev ten_nights) "a"
           by_sleep_hours asc Hp Ht).
Defined.

Lemma chartData_ignores_arrival_order_witness :
  Permutation ten_nights (rev ten_nights)
  /\ @chronologically_distinct calendar_dates ten_nights
  /\ @chartData calendar_dates ten_nights = @chartData calendar_dates (rev ten_nights).
Proof.
  assert (Permutation ten_nights (rev ten_nights)) as Hp by apply Permutation_rev.
  assert (@chronologically_distinct calendar_dates ten_nights) as Hc
    by (pairs one_before).
  split; [exact Hp|]. split; [exact Hc|].
  exact (@chartData_ignores_arrival_order calendar_dates ten_nights (rev ten_nights) Hp Hc).
Defined.

Lemma latest_first_newest_first : @newest_first calendar_dates latest_first.
Proof.
  unfold newest_first, latest_first.
  pairs ltac:(do 2 eexists; split; [reflexivity | split; reflexivity]).
Qed.

(** The ten nights as the store returns them, searched for [the]. *)
Lemma view_keeps_newest_first_witness :
  @newest_first calendar_dates latest_first
  /\ @filteredAndSortedEntries calendar_dates latest_first "the"
       (sortBy initial_sort) (sortOrder initial_sort)
     = filter (matches "the") latest_first.
Proof.
  split; [exact latest_first_newest_first|].
  exact (@view_keeps_newest_first calendar_dates latest_first "the"
           latest_first_newest_first).
Defined.

Lemma chartData_of_newest_first_witness :
  @newest_first calendar_dates latest_first
  /\ @chartData calendar_dates latest_first
     = map (@chart_point calendar_dates) (rev (firstn 7 latest_first)).
Proof.
  split; [exact latest_first_newest_first|].
  exact (@chartData_of_newest_first calendar_dates latest_first latest_first_newest_first).
Defined.

(** The sleep qualities of the ten nights lie between 1 and 10, and so does
    the number on their card. *)
Lemma cards_stay_in_range_witness :
  exists st,
    stats ten_nights = Some st
    /\ Forall (fun e => (inject_Z 1 <= metric Quality e /\ metric Quality e <= inject_Z 10)%Q)
         ten_nights
    /\ exists r, parseFloat (card_text Quality st) = Num r
                 /\ (inject_Z 1 <= r /\ r <= inject_Z 10)%Q.
Proof.
  assert (Forall (fun e => (inject_Z 1 <= metric Quality e
                            /\ metric Quality e <= inject_Z 10)%Q) ten_nights) as Hb
    by (pairs ltac:(split; vm_compute; discriminate)).
  destruct (stats ten_nights) as [st|] eqn:Es; [|discriminate Es].
  exists st. split; [reflexivity|]. split; [exact Hb|].
  exact (cards_stay_in_range Quality ten_nights st 1 10 Es Hb).
Defined.

(** The mean sleep quality of the ten nights is 5.5. *)
Lemma card_shows_a_one_decimal_mean_witness :
  exists st,
    stats ten_nights = Some st
    /\ (mean (metric Quality) ten_nights == inject_Z 55 / 10)%Q
    /\ exists r, parseFloat (card_text Quality st) = Num r
                 /\ (r == mean (metric Quality) ten_nights)%Q.
Proof.
  assert (mean (metric Quality) ten_nights == inject_Z 55 / 10)%Q as Hm by reflexivity.
  destruct (stats ten_nights) as [st|] eqn:Es; [|discriminate Es].
  exists st. split; [reflexivity|]. split; [exact Hm|].
  exact (card_shows_a_one_decimal_mean Quality ten_nights st 55 Es Hm).
Defined.

(** Two healthy nights. *)
Lemma healthy_nights_get_the_all_good_message_witness :
  [flying; two_cups] <> []
  /\ Forall healthy [flying; two_cups]
  /\ getSuggestion [flying; two_cups] = msg_healthy.
Proof.
  assert ([flying; two_cups] <> []) as Hne by discriminate.
  assert (Forall healthy [flying; two_cups]) as Hh
    by (pairs ltac:(unfold healthy; repeat split; vm_compute; discriminate)).
  split; [exact Hne|]. split; [exact Hh|].
  exact (healthy_nights_get_the_all_good_message [flying; two_cups] Hne Hh).
Defined.

(** The ten nights searched for [FOREST] and for [forest]. *)
Lemma search_ignores_case_witness :
  equal_ignoring_case "FOREST" "forest"
  /\ @filteredAndSortedEntries calendar_dates ten_nights "FOREST" by_created_at desc
     = @filteredAndSortedEntries calendar_dates ten_nights "forest" by_created_at desc.
Proof.
  assert (equal_ignoring_case "FOREST" "forest") as H
    by (apply StringFacts.toLowerCase_equal_ignoring_case; reflexivity).
  split; [exact H|].
  exact (@search_ignores_case calendar_dates ten_nights "FOREST" "forest"
           by_created_at desc H).
Defined.

(** Nobody is signed in. *)
Lemma failed_load_shows_an_empty_journal_witness :
  auth_getUser signed_out = None
  /\ @AnalyticsPage.render calendar_dates
       (AnalyticsPage.run AnalyticsPage.initial
          (AnalyticsPage.loadEntries signed_out tables_down))
     = AnalyticsPage.dashboard None msg_start [] 0
         (Some AnalyticsPage.msg_no_entries) [].
Proof.
  split; [reflexivity|].
  exact (@failed_load_shows_an_empty_journal calendar_dates signed_out tables_down
           (or_introl eq_refl)).
Defined.

(** The dreamer opens the page, the store holding the ten nights. *)
Lemma mounted_page_shows_the_answer_witness :
  auth_getUser (backend_without_profile dreamer) = Some dreamer
  /\ @newest_first calendar_dates latest_first
  /\ @AnalyticsPage.render calendar_dates
       (AnalyticsPage.run AnalyticsPage.initial
          (AnalyticsPage.loadEntries (backend_without_profile dreamer)
             (tables_with latest_first)))
     = AnalyticsPage.dashboard (stats latest_first) (getSuggestion latest_first)
         (map (@chart_point calendar_dates) (rev (firstn 7 latest_first)))
         10 None latest_first.
Proof.
  split; [reflexivity|]. split; [exact latest_first_newest_first|].
  exact (@mounted_page_shows_the_answer calendar_dates (backend_without_profile dreamer)
           (tables_with latest_first) dreamer latest_first eq_refl eq_refl
           latest_first_newest_first).
Defined.


(** The draft is saved, the store taking it. *)
Lemma save_resets_or_keeps_the_form_witness :
  Journal.isLoading flying_draft = false
  /\ Journal.run flying_draft
       (Journal.handleSaveEntry flying_draft (backend_without_profile dreamer))
     = Journal.initial.
Proof.
  split; [reflexivity|].
  destruct (save_resets_or_keeps_the_form flying_draft (backend_without_profile dreamer)
              eq_refl) as [(_ & _ & H & _)|(_ & _ & H & _)]; [exact H | reflexivity].
Defined.




Lemma login_attempts_leave_the_form_idle_witness :
  Login.isLoading dreamer_login = false
  /\ Login.run dreamer_login (Login.handleSubmit dreamer_login signed_out) = dreamer_login.
Proof.
  split; [reflexivity|].
  destruct (login_attempts_leave_the_form_idle dreamer_login signed_out eq_refl) as [H _].
  exact H.
Defined.

Lemma on_analytics_reachable : Shell.reachable on_analytics.
Proof.
  unfold on_analytics.
  eapply Shell.reachable_step.
  - eapply Shell.reachable_step; [apply Shell.reachable_initial|].
    apply (Shell.step_handleLogin App.initial "ada@example.org" "Ada").
  - apply Shell.step_onNavigate. simpl. tauto.
Qed.

(** The shell after a login and a press on the analytics item. *)
Lemma shell_always_renders_a_page_witness :
  Shell.reachable on_analytics /\ Shell.rendered on_analytics = Some analytics.
Proof.
  split; [exact on_analytics_reachable|].
  destruct (shell_always_renders_a_page on_analytics on_analytics_reachable)
    as [(H & _)|(_ & _ & _ & H)]; [discriminate H | exact H].
Defined.

(** The dreamer saves the profile, the store being down. *)
Lemma profile_save_outcomes_witness :
  ProfilePage.isLoading dreamer_profile = false
  /\ ProfilePage.run dreamer_profile
       (ProfilePage.handleSaveProfile dreamer_profile (backend_without_profile dreamer)
          tables_down)
     = dreamer_profile.
Proof.
  split; [reflexivity|].
  destruct (profile_save_outcomes dreamer_profile (backend_without_profile dreamer)
              tables_down eq_refl) as [H _].
  exact H.
Defined.

(** The dreamer clears the data: the deletion names the dreamer. *)
Lemma requests_name_the_acting_user_witness :
  In (request (DeleteEntries "user-1"))
    (actions ClearData (backend_without_profile dreamer) (tables_with latest_first))
  /\ rows_of (request (DeleteEntries "user-1")) = Some "user-1"
  /\ exists user,
       acting_user ClearData (backend_without_profile dreamer) = Some user
       /\ "user-1" = Supabase.id user.
Proof.
  assert (In (request (DeleteEntries "user-1"))
            (actions ClearData (backend_without_profile dreamer)
               (tables_with latest_first))) as H
    by (vm_compute; found).
  split; [exact H|]. split; [reflexivity|].
  exact (requests_name_the_acting_user ClearData (backend_without_profile dreamer)
           (tables_with latest_first) _ "user-1" H eq_refl).
Defined.

End CaseWitnesses.
